(** * MyHealthAI backend: the HTTP access layer of [server.ts] over the
    schema of [src/db.ts]

    The development embeds the Express application of [server.ts]: the
    [authenticateToken] middleware, the ten routes and the four tables they
    read and write.  The libraries the server calls (jsonwebtoken, bcryptjs,
    the SQLite engine behind better-sqlite3) are interfaces here, each with
    the part of its contract the handlers rely on, and each with a small
    reference instance further down so that every statement can be run. *)

From Stdlib Require Import ZArith String Ascii List Lia.
From Stdlib Require Import DecimalString DecimalZ.
From Stdlib Require Import Sorting.Sorted OrderedTypeEx.
From stdpp Require Import base option list gmap strings sorting.

Set Warnings "-register-all".
Local Open Scope Z_scope.
Local Open Scope string_scope.
Local Open Scope list_scope.

(** ** Values *)

(** JavaScript values as they reach a handler in a body field, a query
    parameter or a token claim.  Numbers are the integers; fields holding
    arrays or objects are outside the model. *)
Inductive jsval :=
| JUndefined
| JNull
| JBool (b : bool)
| JNum (n : Z)
| JStr (s : string).

(** [ToBoolean], as used by [if (sessionId)] and [!token]. *)
Definition truthy (v : jsval) : bool :=
  match v with
  | JUndefined | JNull => false
  | JBool b => b
  | JNum n => negb (Z.eqb n 0)
  | JStr s => negb (String.eqb s "")
  end.

Definition typeof (v : jsval) : string :=
  match v with
  | JUndefined => "undefined"
  | JNull => "object"
  | JBool _ => "boolean"
  | JNum _ => "number"
  | JStr _ => "string"
  end.

(** Reading a property of a parsed object: an absent key reads [undefined]. *)
Definition prop (o : gmap string jsval) (k : string) : jsval :=
  default JUndefined (o !! k).

(** What [res.json] serialises. *)
Inductive json :=
| JsNull
| JsBool (b : bool)
| JsNum (n : Z)
| JsStr (s : string)
| JsArr (items : list json)
| JsObj (fields : list (string * json)).

(** Values held in a column or bound to a [?]. *)
Inductive sqlval :=
| SNull
| SInt (n : Z)
| SText (s : string).

Definition json_of_sql (v : sqlval) : json :=
  match v with
  | SNull => JsNull
  | SInt n => JsNum n
  | SText s => JsStr s
  end.

Definition json_of_text (t : option string) : json :=
  match t with
  | None => JsNull
  | Some s => JsStr s
  end.

(** Decimal rendering of an integer: what a template literal puts in a
    URL. *)
Definition dec (n : Z) : string := NilZero.string_of_int (Z.to_int n).

(** [String.prototype.includes]. *)
Definition includes (needle hay : string) : bool :=
  match String.index 0 needle hay with
  | Some _ => true
  | None => false
  end.

(** [String.prototype.split] on a one-character separator. *)
Fixpoint split (sep : ascii) (s : string) : list string :=
  match s with
  | EmptyString => [EmptyString]
  | String c rest =>
      if Ascii.eqb c sep then EmptyString :: split sep rest
      else match split sep rest with
           | [] => [String c EmptyString]
           | w :: ws => String c w :: ws
           end
  end.

(** Whether the character occurs in the string. *)
Fixpoint mentions (c : ascii) (s : string) : bool :=
  match s with
  | EmptyString => false
  | String d rest => Ascii.eqb d c || mentions c rest
  end.

(** ** Errors *)

Inductive error :=
| BindTypeError
| NotNullFailed (col : string)
| UniqueFailed (col : string)
| ForeignKeyFailed
| IllegalArguments (t1 t2 : string)
| NullDeref (name : string).

Definition message (e : error) : string :=
  match e with
  | BindTypeError =>
      "SQLite3 can only bind numbers, strings, bigints, buffers, and null"
  | NotNullFailed col => "NOT NULL constraint failed: " +:+ col
  | UniqueFailed col => "UNIQUE constraint failed: " +:+ col
  | ForeignKeyFailed => "FOREIGN KEY constraint failed"
  | IllegalArguments t1 t2 => "Illegal arguments: " +:+ t1 +:+ ", " +:+ t2
  | NullDeref name =>
      "Cannot read properties of undefined (reading '" +:+ name +:+ "')"
  end.

Inductive result (A : Type) :=
| Ok (a : A)
| Err (e : error).
Arguments Ok {A} a.
Arguments Err {A} e.

#[global] Instance result_ret : MRet result := @Ok.
#[global] Instance result_bind : MBind result := λ A B f m,
  match m with
  | Ok a => f a
  | Err e => Err e
  end.

(** ** The schema of [src/db.ts] *)

(** A TEXT NOT NULL column holds a [string], a nullable TEXT column an
    [option string]; the INTEGER columns filled from a parameter hold the
    [sqlval] that INTEGER affinity left there.  [created_at] is the text
    CURRENT_TIMESTAMP produced ("YYYY-MM-DD HH:MM:SS"), which the DATETIME
    column keeps as text. *)
Record user_row := {
  u_id : Z;
  u_email : string;
  u_password : string;
  u_first_name : option string;
  u_last_name : option string;
  u_mobile : option string;
  u_blood_group : option string;
  u_personal_notes : option string;
  u_created_at : string }.

Record session_row := {
  s_id : Z;
  s_user_id : sqlval;
  s_title : string;
  s_created_at : string }.

Record history_row := {
  h_id : Z;
  h_user_id : sqlval;
  h_session_id : sqlval;
  h_role : string;
  h_content : string;
  h_created_at : string }.

Record report_row := {
  r_id : Z;
  r_user_id : sqlval;
  r_filename : string;
  r_analysis : string;
  r_created_at : string }.

Record database := {
  users : list user_row;
  chat_sessions : list session_row;
  chat_history : list history_row;
  medical_reports : list report_row }.

Definition empty_db : database :=
  {| users := []; chat_sessions := []; chat_history := [];
     medical_reports := [] |}.

(** ** The libraries the server calls *)

(** jsonwebtoken.  [jwt_sign payload secret iat] is [jwt.sign(payload, secret)]
    run when the clock reads [iat]; [jwt_verify token secret] is the decoded
    payload handed to the callback, [None] when the callback gets an error.
    [jwt_signed_by token secret] tells whether the signature part of the
    token is the MAC of its other parts under [secret].  The contract: a
    token signed for the two claims the server issues verifies under the
    same secret to those claims and the issue time; a token whose signature
    does not match is refused; a token is not empty and holds no space. *)
Class Jwt := {
  jwt_sign : gmap string jsval → string → Z → string;
  jwt_verify : string → string → option (gmap string jsval);
  jwt_signed_by : string → string → bool;
  jwt_verify_sign : ∀ (id : Z) (email secret : string) (iat : Z),
    jwt_verify (jwt_sign {[ "id" := JNum id; "email" := JStr email ]} secret iat)
      secret
    = Some (<["iat" := JNum iat]> {[ "id" := JNum id; "email" := JStr email ]});
  jwt_verify_signed : ∀ token secret,
    jwt_signed_by token secret = false → jwt_verify token secret = None;
  jwt_sign_compact : ∀ payload secret iat,
    jwt_sign payload secret iat ≠ ""
    ∧ mentions " " (jwt_sign payload secret iat) = false }.

(** bcryptjs on strings; [salt] stands for the random salt [bcrypt.hash]
    draws. *)
Class Bcrypt := {
  bcrypt_hash : string → string → string;
  bcrypt_compare : string → string → bool;
  bcrypt_compare_hash : ∀ password salt,
    bcrypt_compare password (bcrypt_hash password salt) = true }.

(** The SQLite engine: how ORDER BY arranges the selected rows (any
    arrangement that is sorted, ties in whatever order), what NUMERIC
    affinity makes of a text operand (the decimal text of an integer
    becomes that integer), what text a bound number becomes in a TEXT
    column, and whether FOREIGN KEY clauses are enforced. *)
Class SqlEngine := {
  order_by : ∀ {A : Type}, (A → A → bool) → list A → list A;
  order_by_perm : ∀ (A : Type) (le : A → A → bool) (l : list A),
    order_by le l ≡ₚ l;
  order_by_sorted : ∀ (A : Type) (le : A → A → bool) (l : list A),
    (∀ x y, le x y = true ∨ le y x = true) →
    (∀ x y z, le x y = true → le y z = true → le x z = true) →
    Sorted (λ x y, le x y = true) (order_by le l);
  numeric_of_text : string → sqlval;
  numeric_of_text_dec : ∀ n, numeric_of_text (dec n) = SInt n;
  text_of_number : Z → string;
  foreign_keys : bool }.

(** ** Binding and column affinity *)

(** What better-sqlite3 does with an argument of [run], [get] or [all]: a
    number and a string are bound as they are, [null] and [undefined] are
    both bound as NULL, and a boolean is refused with a [TypeError] before
    the statement runs. *)
Definition bind (v : jsval) : result sqlval :=
  match v with
  | JUndefined | JNull => Ok SNull
  | JNum n => Ok (SInt n)
  | JStr s => Ok (SText s)
  | JBool _ => Err BindTypeError
  end.

(** [=] between stored values: NULL equals nothing, and an integer never
    equals a text. *)
Definition sql_eqb (a b : sqlval) : bool :=
  match a, b with
  | SInt x, SInt y => Z.eqb x y
  | SText x, SText y => String.eqb x y
  | _, _ => false
  end.

(** AUTOINCREMENT: one more than the largest rowid used so far; no row is
    ever deleted, so that is the largest rowid present. *)
Definition next_id (ids : list Z) : Z := 1 + foldr Z.max 0 ids.

(** ORDER BY created_at ASC / DESC compare the timestamp texts bytewise. *)
Definition asc {A : Type} (key : A → string) (x y : A) : bool :=
  String.leb (key x) (key y).
Definition desc {A : Type} (key : A → string) (x y : A) : bool :=
  String.leb (key y) (key x).

Section Engine.
Context {engine : SqlEngine}.

(** TEXT affinity: a number becomes the text the engine renders it as. *)
Definition to_text (v : sqlval) : option string :=
  match v with
  | SNull => None
  | SInt n => Some (text_of_number n)
  | SText s => Some s
  end.

(** INTEGER affinity: a text operand goes through NUMERIC conversion. *)
Definition to_integer (v : sqlval) : sqlval :=
  match v with
  | SText s => numeric_of_text s
  | _ => v
  end.

(** The parent-key check of a FOREIGN KEY clause; a NULL child key is not
    checked. *)
Definition references (parents : list Z) (v : sqlval) : bool :=
  match v with
  | SNull => true
  | _ => negb foreign_keys || existsb (λ id, sql_eqb (SInt id) v) parents
  end.

(** INSERT INTO users (email, password, first_name, last_name) *)
Definition insert_user (now : string) (email password first_name last_name : sqlval)
    (db : database) : result (Z * database) :=
  match to_text email with
  | None => Err (NotNullFailed "users.email")
  | Some e =>
    match to_text password with
    | None => Err (NotNullFailed "users.password")
    | Some p =>
      if existsb (String.eqb e) (map u_email (users db))
      then Err (UniqueFailed "users.email")
      else
        let id := next_id (map u_id (users db)) in
        let row := {| u_id := id; u_email := e; u_password := p;
                      u_first_name := to_text first_name;
                      u_last_name := to_text last_name;
                      u_mobile := None; u_blood_group := None;
                      u_personal_notes := None; u_created_at := now |} in
        Ok (id, {| users := users db ++ [row];
                   chat_sessions := chat_sessions db;
                   chat_history := chat_history db;
                   medical_reports := medical_reports db |})
    end
  end.

(** UPDATE users SET first_name, last_name, mobile, blood_group,
    personal_notes WHERE id = ? *)
Definition update_profile (first_name last_name mobile blood_group personal_notes id : sqlval)
    (db : database) : database :=
  {| users :=
       map (λ u, if sql_eqb (SInt (u_id u)) (to_integer id)
                 then {| u_id := u_id u; u_email := u_email u;
                         u_password := u_password u;
                         u_first_name := to_text first_name;
                         u_last_name := to_text last_name;
                         u_mobile := to_text mobile;
                         u_blood_group := to_text blood_group;
                         u_personal_notes := to_text personal_notes;
                         u_created_at := u_created_at u |}
                 else u) (users db);
     chat_sessions := chat_sessions db;
     chat_history := chat_history db;
     medical_reports := medical_reports db |}.

(** INSERT INTO chat_sessions (user_id, title) *)
Definition insert_session (now : string) (user_id title : sqlval)
    (db : database) : result (Z * database) :=
  match to_integer user_id with
  | SNull => Err (NotNullFailed "chat_sessions.user_id")
  | uid =>
    match to_text title with
    | None => Err (NotNullFailed "chat_sessions.title")
    | Some t =>
      if references (map u_id (users db)) uid then
        let id := next_id (map s_id (chat_sessions db)) in
        let row := {| s_id := id; s_user_id := uid; s_title := t;
                      s_created_at := now |} in
        Ok (id, {| users := users db;
                   chat_sessions := chat_sessions db ++ [row];
                   chat_history := chat_history db;
                   medical_reports := medical_reports db |})
      else Err ForeignKeyFailed
    end
  end.

(** INSERT INTO chat_history (user_id, role, content, session_id) *)
Definition insert_history (now : string) (user_id role content session_id : sqlval)
    (db : database) : result (Z * database) :=
  match to_integer user_id with
  | SNull => Err (NotNullFailed "chat_history.user_id")
  | uid =>
    match to_text role with
    | None => Err (NotNullFailed "chat_history.role")
    | Some r =>
      match to_text content with
      | None => Err (NotNullFailed "chat_history.content")
      | Some c =>
        let sid := to_integer session_id in
        if references (map u_id (users db)) uid
           && references (map s_id (chat_sessions db)) sid then
          let id := next_id (map h_id (chat_history db)) in
          let row := {| h_id := id; h_user_id := uid; h_session_id := sid;
                        h_role := r; h_content := c; h_created_at := now |} in
          Ok (id, {| users := users db;
                     chat_sessions := chat_sessions db;
                     chat_history := chat_history db ++ [row];
                     medical_reports := medical_reports db |})
        else Err ForeignKeyFailed
      end
    end
  end.

(** INSERT INTO medical_reports (user_id, filename, analysis) *)
Definition insert_report (now : string) (user_id filename analysis : sqlval)
    (db : database) : result (Z * database) :=
  match to_integer user_id with
  | SNull => Err (NotNullFailed "medical_reports.user_id")
  | uid =>
    match to_text filename with
    | None => Err (NotNullFailed "medical_reports.filename")
    | Some f =>
      match to_text analysis with
      | None => Err (NotNullFailed "medical_reports.analysis")
      | Some a =>
        if references (map u_id (users db)) uid then
          let id := next_id (map r_id (medical_reports db)) in
          let row := {| r_id := id; r_user_id := uid; r_filename := f;
                        r_analysis := a; r_created_at := now |} in
          Ok (id, {| users := users db;
                     chat_sessions := chat_sessions db;
                     chat_history := chat_history db;
                     medical_reports := medical_reports db ++ [row] |})
        else Err ForeignKeyFailed
      end
    end
  end.

(** SELECT * FROM users WHERE email = ?, first row: TEXT affinity goes to
    the parameter. *)
Definition select_user_by_email (email : sqlval) (db : database) : option user_row :=
  match to_text email with
  | None => None
  | Some e => List.find (λ u, String.eqb (u_email u) e) (users db)
  end.

(** SELECT ... FROM users WHERE id = ?, first row. *)
Definition select_user_by_id (id : sqlval) (db : database) : option user_row :=
  List.find (λ u, sql_eqb (SInt (u_id u)) (to_integer id)) (users db).

(** SELECT * FROM chat_sessions WHERE user_id = ? ORDER BY created_at DESC *)
Definition select_sessions (user_id : sqlval) (db : database) : list session_row :=
  order_by (desc s_created_at)
    (List.filter (λ s, sql_eqb (s_user_id s) (to_integer user_id))
       (chat_sessions db)).

(** SELECT * FROM chat_history WHERE user_id = ? AND session_id = ?
    ORDER BY created_at ASC *)
Definition select_history_of_session (user_id session_id : sqlval) (db : database)
    : list history_row :=
  order_by (asc h_created_at)
    (List.filter (λ h, sql_eqb (h_user_id h) (to_integer user_id)
                       && sql_eqb (h_session_id h) (to_integer session_id))
       (chat_history db)).

(** SELECT * FROM chat_history WHERE user_id = ? ORDER BY created_at ASC *)
Definition select_history (user_id : sqlval) (db : database) : list history_row :=
  order_by (asc h_created_at)
    (List.filter (λ h, sql_eqb (h_user_id h) (to_integer user_id))
       (chat_history db)).

(** SELECT * FROM medical_reports WHERE user_id = ? ORDER BY created_at DESC *)
Definition select_reports (user_id : sqlval) (db : database) : list report_row :=
  order_by (desc r_created_at)
    (List.filter (λ r, sql_eqb (r_user_id r) (to_integer user_id))
       (medical_reports db)).
End Engine.

(** ** Requests and replies *)

Inductive method := GET | POST | PUT.

#[global] Instance method_eq_dec : EqDecision method.
Proof. solve_decision. Defined.

(** A request as the routes see it: [req_body] is what [express.json()]
    (or multer, for the upload) parsed, [req_file] the original name of the
    uploaded part [report], [req_user] the [req.user] that
    [authenticateToken] sets.  A request whose body [express.json()]
    refuses is answered by that parser and reaches no route; it is not a
    [request] here. *)
Record request := {
  req_method : method;
  req_path : string;
  req_headers : gmap string string;
  req_query : gmap string jsval;
  req_body : gmap string jsval;
  req_file : option string;
  req_user : option (gmap string jsval) }.

Definition with_user (user : gmap string jsval) (req : request) : request :=
  {| req_method := req_method req; req_path := req_path req;
     req_headers := req_headers req; req_query := req_query req;
     req_body := req_body req; req_file := req_file req;
     req_user := Some user |}.

(** What the process reads from outside while it serves one request: the
    text CURRENT_TIMESTAMP yields, the seconds [jwt.sign] stamps as [iat],
    the salt [bcrypt.hash] draws. *)
Record environment := {
  clock : string;
  epoch : Z;
  salt : string }.

(** [StatusText] is the body [res.sendStatus] writes; [Json None] is
    [res.json(undefined)], a reply without content. *)
Inductive body :=
| StatusText
| Json (j : option json).

(** [Raised e]: the handler threw [e] and wrote no reply of its own.
    [FellThrough]: every function of the route called [next]. *)
Inductive reply :=
| Reply (status : Z) (b : body)
| Raised (e : error)
| FellThrough.

Inductive outcome :=
| Next (req : request)
| Done (db : database) (r : reply).

Definition middleware : Type := request → environment → database → outcome.
Definition handler : Type := request → environment → database → database * reply.

Definition final (h : handler) : middleware :=
  λ req env db, let '(db', r) := h req env db in Done db' r.

Definition json_reply (status : Z) (j : json) : reply := Reply status (Json (Some j)).

Definition success : json := JsObj [("success", JsBool true)].

(** Rows as [SELECT *] returns them, columns in schema order. *)
Definition session_json (s : session_row) : json :=
  JsObj [("id", JsNum (s_id s)); ("user_id", json_of_sql (s_user_id s));
         ("title", JsStr (s_title s)); ("created_at", JsStr (s_created_at s))].

Definition history_json (h : history_row) : json :=
  JsObj [("id", JsNum (h_id h)); ("user_id", json_of_sql (h_user_id h));
         ("session_id", json_of_sql (h_session_id h));
         ("role", JsStr (h_role h)); ("content", JsStr (h_content h));
         ("created_at", JsStr (h_created_at h))].

Definition report_json (r : report_row) : json :=
  JsObj [("id", JsNum (r_id r)); ("user_id", json_of_sql (r_user_id r));
         ("filename", JsStr (r_filename r)); ("analysis", JsStr (r_analysis r));
         ("created_at", JsStr (r_created_at r))].

(** SELECT id, email, first_name, last_name, mobile, blood_group,
    personal_notes *)
Definition profile_json (u : user_row) : json :=
  JsObj [("id", JsNum (u_id u)); ("email", JsStr (u_email u));
         ("first_name", json_of_text (u_first_name u));
         ("last_name", json_of_text (u_last_name u));
         ("mobile", json_of_text (u_mobile u));
         ("blood_group", json_of_text (u_blood_group u));
         ("personal_notes", json_of_text (u_personal_notes u))].

(** [req.user.id] *)
Definition user_id (req : request) : result jsval :=
  match req_user req with
  | None => Err (NullDeref "id")
  | Some user => Ok (prop user "id")
  end.

(** How Express matches the path of a request against the path a route was
    registered with. *)
Class Router := {
  path_matches : string → string → bool }.

(** ** [server.ts] *)

Section Server.
Context {jwt : Jwt} {bcrypt : Bcrypt} {engine : SqlEngine} {router : Router}.

(** [process.env.JWT_SECRET] *)
Variable env_JWT_SECRET : option string.

Definition JWT_SECRET : string :=
  match env_JWT_SECRET with
  | None | Some "" => "super-secret-key"
  | Some s => s
  end.

(** [authHeader && authHeader.split(' ')[1]] *)
Definition bearer_token (req : request) : option string :=
  match req_headers req !! "authorization" with
  | None => None
  | Some "" => Some ""
  | Some authHeader => split " " authHeader !! 1%nat
  end.

Definition authenticateToken : middleware := λ req env db,
  match bearer_token req with
  | None | Some "" => Done db (Reply 401 StatusText)
  | Some token =>
      match jwt_verify token JWT_SECRET with
      | None => Done db (Reply 403 StatusText)
      | Some user => Next (with_user user req)
      end
  end.

(** [bcrypt.hash(password, 10)] *)
Definition hash_password (password : jsval) (salt : string) : result string :=
  match password with
  | JStr s => Ok (bcrypt_hash s salt)
  | _ => Err (IllegalArguments (typeof password) "number")
  end.

(** [bcrypt.compare(password, user.password)] *)
Definition compare_password (password : jsval) (hash : string) : result bool :=
  match password with
  | JStr s => Ok (bcrypt_compare s hash)
  | _ => Err (IllegalArguments (typeof password) "string")
  end.

Definition duplicate_account : string :=
  "An account with this email already exists. Please sign in instead.".

(** POST /api/auth/register *)
Definition register : handler := λ req env db,
  let email := prop (req_body req) "email" in
  let password := prop (req_body req) "password" in
  let firstName := prop (req_body req) "firstName" in
  let lastName := prop (req_body req) "lastName" in
  let attempt :=
    hashedPassword ← hash_password password (salt env);
    e ← bind email;
    p ← bind (JStr hashedPassword);
    f ← bind firstName;
    l ← bind lastName;
    insert_user (clock env) e p f l db in
  match attempt with
  | Ok (id, db') => (db', json_reply 201 (JsObj [("id", JsNum id)]))
  | Err error =>
      if truthy (JStr (message error))
         && includes "UNIQUE constraint failed" (message error)
      then (db, json_reply 400 (JsObj [("error", JsStr duplicate_account)]))
      else (db, json_reply 500 (JsObj [("error", JsStr (message error))]))
  end.

(** POST /api/auth/login *)
Definition login : handler := λ req env db,
  let email := prop (req_body req) "email" in
  let password := prop (req_body req) "password" in
  match bind email with
  | Err e => (db, Raised e)
  | Ok e =>
    match select_user_by_email e db with
    | None => (db, json_reply 401 (JsObj [("error", JsStr "Invalid credentials")]))
    | Some user =>
      match compare_password password (u_password user) with
      | Err e => (db, Raised e)
      | Ok false =>
          (db, json_reply 401 (JsObj [("error", JsStr "Invalid credentials")]))
      | Ok true =>
          let token :=
            jwt_sign {[ "id" := JNum (u_id user); "email" := JStr (u_email user) ]}
              JWT_SECRET (epoch env) in
          (db, json_reply 200
                 (JsObj [("token", JsStr token);
                         ("user", JsObj [("id", JsNum (u_id user));
                                         ("email", JsStr (u_email user));
                                         ("firstName", json_of_text (u_first_name user));
                                         ("lastName", json_of_text (u_last_name user))])]))
      end
    end
  end.

(** GET /api/user/profile *)
Definition get_profile : handler := λ req env db,
  match uid ← user_id req; bind uid with
  | Err e => (db, Raised e)
  | Ok id => (db, Reply 200 (Json (profile_json <$> select_user_by_id id db)))
  end.

(** PUT /api/user/profile *)
Definition put_profile : handler := λ req env db,
  let firstName := prop (req_body req) "firstName" in
  let lastName := prop (req_body req) "lastName" in
  let mobile := prop (req_body req) "mobile" in
  let bloodGroup := prop (req_body req) "bloodGroup" in
  let personalNotes := prop (req_body req) "personalNotes" in
  let attempt :=
    uid ← user_id req;
    f ← bind firstName;
    l ← bind lastName;
    m ← bind mobile;
    b ← bind bloodGroup;
    n ← bind personalNotes;
    id ← bind uid;
    mret (update_profile f l m b n id db) in
  match attempt with
  | Err e => (db, Raised e)
  | Ok db' => (db', json_reply 200 success)
  end.

(** GET /api/chat/sessions *)
Definition get_sessions : handler := λ req env db,
  match uid ← user_id req; bind uid with
  | Err e => (db, Raised e)
  | Ok id => (db, json_reply 200 (JsArr (session_json <$> select_sessions id db)))
  end.

(** POST /api/chat/sessions *)
Definition post_session : handler := λ req env db,
  let title := prop (req_body req) "title" in
  let attempt :=
    uid ← user_id req;
    id ← bind uid;
    t ← bind title;
    insert_session (clock env) id t db in
  match attempt with
  | Err e => (db, Raised e)
  | Ok (id, db') => (db', json_reply 200 (JsObj [("id", JsNum id)]))
  end.

(** GET /api/chat/history *)
Definition get_history : handler := λ req env db,
  let sessionId := prop (req_query req) "sessionId" in
  let attempt :=
    if truthy sessionId then
      uid ← user_id req;
      id ← bind uid;
      sid ← bind sessionId;
      mret (select_history_of_session id sid db)
    else
      uid ← user_id req;
      id ← bind uid;
      mret (select_history id db) in
  match attempt with
  | Err e => (db, Raised e)
  | Ok history => (db, json_reply 200 (JsArr (history_json <$> history)))
  end.

(** POST /api/chat/history *)
Definition post_history : handler := λ req env db,
  let role := prop (req_body req) "role" in
  let content := prop (req_body req) "content" in
  let sessionId := prop (req_body req) "sessionId" in
  let attempt :=
    uid ← user_id req;
    id ← bind uid;
    r ← bind role;
    c ← bind content;
    sid ← bind sessionId;
    insert_history (clock env) id r c sid db in
  match attempt with
  | Err e => (db, Raised e)
  | Ok (_, db') => (db', json_reply 200 success)
  end.

(** [upload.single('report')]: multer has filled [req.file] and
    [req.body] from the multipart parts. *)
Definition upload_single : middleware := λ req env db, Next req.

(** POST /api/reports/upload *)
Definition post_report : handler := λ req env db,
  let analysis := prop (req_body req) "analysis" in
  let filename :=
    match req_file req with
    | None | Some "" => "report.pdf"
    | Some originalname => originalname
    end in
  let attempt :=
    uid ← user_id req;
    id ← bind uid;
    f ← bind (JStr filename);
    a ← bind analysis;
    insert_report (clock env) id f a db in
  match attempt with
  | Err e => (db, Raised e)
  | Ok (_, db') => (db', json_reply 200 success)
  end.

(** GET /api/reports *)
Definition get_reports : handler := λ req env db,
  match uid ← user_id req; bind uid with
  | Err e => (db, Raised e)
  | Ok id => (db, json_reply 200 (JsArr (report_json <$> select_reports id db)))
  end.

(** The routes in the order [server.ts] registers them. *)
Definition routes : list (method * string * list middleware) :=
  [ (POST, "/api/auth/register", [final register]);
    (POST, "/api/auth/login", [final login]);
    (GET, "/api/user/profile", [authenticateToken; final get_profile]);
    (PUT, "/api/user/profile", [authenticateToken; final put_profile]);
    (GET, "/api/chat/sessions", [authenticateToken; final get_sessions]);
    (POST, "/api/chat/sessions", [authenticateToken; final post_session]);
    (GET, "/api/chat/history", [authenticateToken; final get_history]);
    (POST, "/api/chat/history", [authenticateToken; final post_history]);
    (POST, "/api/reports/upload",
       [authenticateToken; upload_single; final post_report]);
    (GET, "/api/reports", [authenticateToken; final get_reports]) ].

(** Express runs the functions of a route in order; each either replies
    or passes the request on. *)
Fixpoint run_chain (chain : list middleware) (req : request)
    (env : environment) (db : database) : database * reply :=
  match chain with
  | [] => (db, FellThrough)
  | m :: rest =>
      match m req env db with
      | Next req' => run_chain rest req' env db
      | Done db' r => (db', r)
      end
  end.

Definition route_of (req : request) : option (method * string * list middleware) :=
  List.find (λ '(m, path, _),
               bool_decide (m = req_method req) && path_matches path (req_path req))
    routes.

Definition app (req : request) (env : environment) (db : database)
    : database * reply :=
  match route_of req with
  | None => (db, FellThrough)
  | Some (_, _, chain) => run_chain chain req env db
  end.

(** A run of the server: the requests served one after the other. *)
Fixpoint serve (trace : list (request * environment)) (db : database) : database :=
  match trace with
  | [] => db
  | (req, env) :: rest => serve rest (fst (app req env db))
  end.

(** *** Credentials and what a middleware may change *)

(** The columns of [users] that no route rewrites. *)
Definition credentials (db : database) : list (Z * string * string) :=
  (λ u, (u_id u, u_email u, u_password u)) <$> users db.

(** [db'] holds the credentials of [db], in place, and maybe more after
    them. *)
Definition keeps_credentials (db db' : database) : Prop :=
  ∃ extra, credentials db' = credentials db ++ extra.

(** What a middleware may do to the store, for a relation [R] on stores. *)
Definition moves (R : database → database → Prop) (m : middleware) : Prop :=
  ∀ req env db,
    match m req env db with
    | Next _ => True
    | Done db' _ => R db db'
    end.

(** The credentials row that [login] reads for an email. *)
Definition credentials_of (email : string) (db : database)
    : option (Z * string * string) :=
  List.find (λ c, String.eqb c.1.2 email) (credentials db).

(** *** Runs of the history log *)

(** A reply with status 200. *)
Definition accepted (r : reply) : bool :=
  match r with
  | Reply status _ => Z.eqb status 200
  | _ => false
  end.

(** POST /api/chat/history for each request in turn: the store afterwards
    and the requests that were answered 200. *)
Fixpoint post_each (posts : list (request * environment)) (db : database)
    : database * list (request * environment) :=
  match posts with
  | [] => (db, [])
  | (req, env) :: rest =>
      let '(db1, r) := post_history req env db in
      let '(db2, stored) := post_each rest db1 in
      (db2, if accepted r then (req, env) :: stored else stored)
  end.

(** The text a TEXT column keeps of a value that was sent. *)
Definition text_of (v : jsval) : string :=
  match v with
  | JStr s => s
  | JNum n => text_of_number n
  | _ => ""
  end.

(** What a history row says, and what a request asked to record. *)
Definition entry (h : history_row) : string * string * string :=
  (h_role h, h_content h, h_created_at h).

Definition sent (post : request * environment) : string * string * string :=
  (text_of (prop (req_body post.1) "role"),
   text_of (prop (req_body post.1) "content"),
   clock post.2).

Definition in_session (uid sid : Z) (h : history_row) : bool :=
  sql_eqb (h_user_id h) (SInt uid) && sql_eqb (h_session_id h) (SInt sid).

(** The request comes from the user with this id: [req.user.id] is the
    number. *)
Definition authenticated_as (uid : Z) (req : request) : Prop :=
  ∃ user, req_user req = Some user ∧ prop user "id" = JNum uid.

(** A value for a text field of the profile: a string, or null. *)
Definition text_value (t : option string) : jsval :=
  match t with
  | None => JNull
  | Some s => JStr s
  end.

(** The five fields PUT /api/user/profile reads from the body, in the order
    of the SET clause. *)
Definition profile_fields : list string :=
  ["firstName"; "lastName"; "mobile"; "bloodGroup"; "personalNotes"].

(** What a TEXT column holds once [v] was bound to its [?]: a string as it
    is, a number as the text SQLite keeps of it, and NULL for [null] and
    for [undefined], the value of a field the body does not have. *)
Definition stored_text (v : jsval) : option string :=
  match v with
  | JStr s => Some s
  | JNum n => Some (text_of_number n)
  | JUndefined | JNull | JBool _ => None
  end.

(** The column of [users] that the SET clause gives a field of the body. *)
Definition profile_column (field : string) (u : user_row) : option string :=
  if String.eqb field "firstName" then u_first_name u
  else if String.eqb field "lastName" then u_last_name u
  else if String.eqb field "mobile" then u_mobile u
  else if String.eqb field "bloodGroup" then u_blood_group u
  else if String.eqb field "personalNotes" then u_personal_notes u
  else None.

(** *** What a user owns *)

Definition owns (uid : Z) (user_id : sqlval) : bool := sql_eqb user_id (SInt uid).

Definition sessions_of (uid : Z) (db : database) : list session_row :=
  List.filter (λ s, owns uid (s_user_id s)) (chat_sessions db).

Definition history_of (uid : Z) (db : database) : list history_row :=
  List.filter (λ h, owns uid (h_user_id h)) (chat_history db).

Definition reports_of (uid : Z) (db : database) : list report_row :=
  List.filter (λ r, owns uid (r_user_id r)) (medical_reports db).

(** Two stores hold the same rows for the user, table by table. *)
Definition same_records (uid : Z) (db db' : database) : Prop :=
  sessions_of uid db' = sessions_of uid db
  ∧ history_of uid db' = history_of uid db
  ∧ reports_of uid db' = reports_of uid db.

(** Two user rows that agree on every column but [password]. *)
Definition same_but_password (u1 u2 : user_row) : Prop :=
  u_id u1 = u_id u2 ∧ u_email u1 = u_email u2
  ∧ u_first_name u1 = u_first_name u2 ∧ u_last_name u1 = u_last_name u2
  ∧ u_mobile u1 = u_mobile u2 ∧ u_blood_group u1 = u_blood_group u2
  ∧ u_personal_notes u1 = u_personal_notes u2
  ∧ u_created_at u1 = u_created_at u2.

(** The request is authenticated as some user other than [uid]. *)
Definition other_user (uid : Z) (req : request) : Prop :=
  ∃ b, authenticated_as b req ∧ uid ≠ b.

(** Whatever identity [authenticateToken] may give the request, it is a
    numeric id other than [uid]. *)
Definition not_acting_as (uid : Z) (req : request) : Prop :=
  ∀ token user,
    bearer_token req = Some token →
    jwt_verify token JWT_SECRET = Some user →
    ∃ b, prop user "id" = JNum b ∧ uid ≠ b.

(** What a middleware may do to the store on the requests in [P], which it
    hands on inside [P]. *)
Definition moves_from (P : request → Prop) (R : database → database → Prop)
    (m : middleware) : Prop :=
  ∀ req env db, P req →
    match m req env db with
    | Next req' => P req'
    | Done db' _ => R db db'
    end.

(** *** What a reply and a store may be after a request *)

(** A reply with status 200 or 201. *)
Definition succeeded (r : reply) : bool :=
  match r with
  | Reply status _ => Z.eqb status 200 || Z.eqb status 201
  | _ => false
  end.

(** What a middleware may answer: [Q] relates the store before, the store
    after and the reply. *)
Definition answers (Q : database → database → reply → Prop) (m : middleware) : Prop :=
  ∀ req env db,
    match m req env db with
    | Next _ => True
    | Done db' r => Q db db' r
    end.

(** The columns of [users] that no statement of the server updates. *)
Definition identity_columns (db : database) : list (Z * string * string * string) :=
  (λ u, (u_id u, u_email u, u_password u, u_created_at u)) <$> users db.

(** [db'] holds every row of [db], in place and unchanged (for [users]: in
    the columns above), and maybe more rows after them. *)
Definition grows (db db' : database) : Prop :=
  identity_columns db `prefix_of` identity_columns db'
  ∧ chat_sessions db `prefix_of` chat_sessions db'
  ∧ chat_history db `prefix_of` chat_history db'
  ∧ medical_reports db `prefix_of` medical_reports db'.

(** PRIMARY KEY on the four [id] columns, UNIQUE on [users.email]. *)
Definition unique_keys (db : database) : Prop :=
  NoDup (u_id <$> users db) ∧ NoDup (u_email <$> users db)
  ∧ NoDup (s_id <$> chat_sessions db)
  ∧ NoDup (h_id <$> chat_history db)
  ∧ NoDup (r_id <$> medical_reports db).

(** The value is the id of a stored user (of a stored session). *)
Definition is_user (db : database) (v : sqlval) : Prop :=
  ∃ u, u ∈ users db ∧ v = SInt (u_id u).

Definition is_session (db : database) (v : sqlval) : Prop :=
  ∃ s, s ∈ chat_sessions db ∧ v = SInt (s_id s).

(** The FOREIGN KEY clauses of the schema. *)
Definition referential (db : database) : Prop :=
  Forall (λ s, is_user db (s_user_id s)) (chat_sessions db)
  ∧ Forall (λ h, is_user db (h_user_id h)
                 ∧ (h_session_id h = SNull ∨ is_session db (h_session_id h)))
      (chat_history db)
  ∧ Forall (λ r, is_user db (r_user_id r)) (medical_reports db).

(** What one request may do to the store: nothing; or, with a reply of
    status 200 or 201, add one user, rewrite the profile columns of the
    rows with one id, or add one session, one history row or one report.
    A new row takes the next id of its table and passes the checks of the
    schema. *)
Inductive transition (db : database) : database → reply → Prop :=
| same_store r : transition db db r
| new_user row r :
    succeeded r = true →
    u_id row = next_id (u_id <$> users db) →
    existsb (String.eqb (u_email row)) (u_email <$> users db) = false →
    transition db
      {| users := users db ++ [row]; chat_sessions := chat_sessions db;
         chat_history := chat_history db;
         medical_reports := medical_reports db |} r
| new_profile f l m b n id r :
    succeeded r = true →
    transition db (update_profile f l m b n id db) r
| new_session row r :
    succeeded r = true →
    s_id row = next_id (s_id <$> chat_sessions db) →
    s_user_id row ≠ SNull →
    references (u_id <$> users db) (s_user_id row) = true →
    transition db
      {| users := users db; chat_sessions := chat_sessions db ++ [row];
         chat_history := chat_history db;
         medical_reports := medical_reports db |} r
| new_history row r :
    succeeded r = true →
    h_id row = next_id (h_id <$> chat_history db) →
    h_user_id row ≠ SNull →
    references (u_id <$> users db) (h_user_id row) = true →
    references (s_id <$> chat_sessions db) (h_session_id row) = true →
    transition db
      {| users := users db; chat_sessions := chat_sessions db;
         chat_history := chat_history db ++ [row];
         medical_reports := medical_reports db |} r
| new_report row r :
    succeeded r = true →
    r_id row = next_id (r_id <$> medical_reports db) →
    r_user_id row ≠ SNull →
    references (u_id <$> users db) (r_user_id row) = true →
    transition db
      {| users := users db; chat_sessions := chat_sessions db;
         chat_history := chat_history db;
         medical_reports := medical_reports db ++ [row] |} r.
End Server.

(** ** Reference libraries

    One executable implementation of each interface above.  They are small
    stand-ins with the same contract, not the libraries themselves: the
    token is a plain encoding of the claims behind the secret, the hash is
    not one-way. *)

Module Reference.

(** ORDER BY as a stable merge sort. *)
Definition order_by {A : Type} (le : A → A → bool) (l : list A) : list A :=
  @merge_sort A (λ x y, le x y = true) (λ x y, decide (le x y = true)) l.

(** A text that reads as a decimal integer becomes that integer; any other
    text stays as it is. *)
Definition numeric_of_text (s : string) : sqlval :=
  match NilZero.int_of_string s with
  | Some d => SInt (Z.of_int d)
  | None => SText s
  end.

(** A number is bound as a double; in a TEXT column it reads "5.0". *)
Definition text_of_number (n : Z) : string := dec n +:+ ".0".

(** Words are written bit by bit: ["1"] and eight bits for a character,
    ["0"] at the end of a word. *)
Definition bit (b : bool) : ascii := if b then "1"%char else "0"%char.

Definition unbit (c : ascii) : option bool :=
  if Ascii.eqb c "1" then Some true
  else if Ascii.eqb c "0" then Some false
  else None.

Definition write_char (c : ascii) (tail : string) : string :=
  let '(Ascii b0 b1 b2 b3 b4 b5 b6 b7) := c in
  String "1" (String (bit b0) (String (bit b1) (String (bit b2) (String (bit b3)
    (String (bit b4) (String (bit b5) (String (bit b6) (String (bit b7) tail)))))))).

Fixpoint write_word (w : string) (tail : string) : string :=
  match w with
  | EmptyString => String "0" tail
  | String c w' => write_char c (write_word w' tail)
  end.

Fixpoint write_words (ws : list string) : string :=
  match ws with
  | [] => EmptyString
  | w :: ws' => write_word w (write_words ws')
  end.

Fixpoint read_words (s : string) : option (list string) :=
  match s with
  | EmptyString => Some []
  | String t rest =>
      if Ascii.eqb t "0" then
        ws ← read_words rest; Some (EmptyString :: ws)
      else if Ascii.eqb t "1" then
        match rest with
        | String c0 (String c1 (String c2 (String c3 (String c4 (String c5
            (String c6 (String c7 rest'))))))) =>
            b0 ← unbit c0; b1 ← unbit c1; b2 ← unbit c2; b3 ← unbit c3;
            b4 ← unbit c4; b5 ← unbit c5; b6 ← unbit c6; b7 ← unbit c7;
            ws ← read_words rest';
            match ws with
            | [] => None
            | w :: ws' => Some (String (Ascii b0 b1 b2 b3 b4 b5 b6 b7) w :: ws')
            end
        | _ => None
        end
      else None
  end.

Definition read_int (s : string) : option Z :=
  Z.of_int <$> NilZero.int_of_string s.

(** The token carries the secret, the issue time and the two claims the
    server signs. *)
Definition jwt_sign (payload : gmap string jsval) (secret : string) (iat : Z) : string :=
  match prop payload "id", prop payload "email" with
  | JNum id, JStr email => write_words [secret; dec iat; dec id; email]
  | _, _ => write_words [secret]
  end.

Definition jwt_signed_by (token secret : string) : bool :=
  match read_words token with
  | Some (s :: _) => String.eqb s secret
  | _ => false
  end.

Definition jwt_verify (token secret : string) : option (gmap string jsval) :=
  if jwt_signed_by token secret then
    match read_words token with
    | Some [_; i; n; email] =>
        iat ← read_int i;
        id ← read_int n;
        Some (<["iat" := JNum iat]> {[ "id" := JNum id; "email" := JStr email ]})
    | _ => None
    end
  else None.

Definition bcrypt_hash (password salt : string) : string :=
  password +:+ String "$" salt.

Definition bcrypt_compare (password hash : string) : bool :=
  String.prefix (password +:+ "$") hash.

End Reference.

(** ** The client: the requests [App.tsx] sends, and [services/gemini.ts]

    The functions of the browser client that call the routes above, as the
    requests they build and what they read from the replies, and the two
    pieces of the client that are plain computations: the turns sent to
    the model and the page layout of the exported history. *)

Module Client.

(** The headers of an authenticated JSON request, as Node presents them
    (names in lower case). *)
Definition json_headers (token : string) : gmap string string :=
  {[ "content-type" := "application/json";
     "authorization" := "Bearer " +:+ token ]}.

(** The header of the GET requests. *)
Definition bearer_headers (token : string) : gmap string string :=
  {[ "authorization" := "Bearer " +:+ token ]}.

(** [JSON.stringify] leaves out a property that is [undefined]. *)
Definition stringify (fields : list (string * jsval)) : gmap string jsval :=
  list_to_map
    (List.filter (λ kv, match kv.2 with JUndefined => false | _ => true end)
       fields).

(** [saveToHistory(role, content, sessionId)]: nothing is sent without a
    token (null or empty) in [localStorage]. *)
Definition saveToHistory (token : option string) (role content : string)
    (sessionId : jsval) : option request :=
  match token with
  | None | Some "" => None
  | Some token =>
      Some {| req_method := POST; req_path := "/api/chat/history";
              req_headers := json_headers token;
              req_query := ∅;
              req_body := stringify [("role", JStr role); ("content", JStr content);
                                     ("sessionId", sessionId)];
              req_file := None; req_user := None |}
  end.

(** The POST of [handleSend] and [handleFileUpload] that opens a session. *)
Definition create_session (token title : string) : request :=
  {| req_method := POST; req_path := "/api/chat/sessions";
     req_headers := json_headers token;
     req_query := ∅;
     req_body := stringify [("title", JStr title)];
     req_file := None; req_user := None |}.

(** [fetchSessionMessages(sessionId)]: the GET of
    [`/api/chat/history?sessionId=${sessionId}`]. *)
Definition fetchSessionMessages (token : option string) (sessionId : Z)
    : option request :=
  match token with
  | None | Some "" => None
  | Some token =>
      Some {| req_method := GET; req_path := "/api/chat/history";
              req_headers := bearer_headers token;
              req_query := {[ "sessionId" := JStr (dec sessionId) ]};
              req_body := ∅;
              req_file := None; req_user := None |}
  end.

(** Reading a property of a parsed reply. *)
Definition field (k : string) (j : json) : option json :=
  match j with
  | JsObj fields => snd <$> List.find (λ kv, String.eqb kv.1 k) fields
  | _ => None
  end.

(** [const data = await res.json(); sessionId = data.id], with no look at
    [res.ok]: the [id] of the JSON reply, [undefined] when it has none;
    [None] when [res.json()] or [data.id] throws (a reply that is not
    JSON, or is [null]) and the [catch] leaves [sessionId] as it was.  An
    [id] that is an array or an object is not a [jsval]; no route sends
    one, and it reads [undefined] here. *)
Definition session_id_of (r : reply) : option jsval :=
  match r with
  | Reply _ (Json (Some JsNull)) => None
  | Reply _ (Json (Some data)) =>
      match field "id" data with
      | Some (JsNum id) => Some (JNum id)
      | Some (JsStr s) => Some (JStr s)
      | Some (JsBool b) => Some (JBool b)
      | Some JsNull => Some JNull
      | _ => Some JUndefined
      end
  | _ => None
  end.

Definition is_null (j : json) : bool :=
  match j with
  | JsNull => true
  | _ => false
  end.

(** [data.map(h => ({ role: h.role, content: h.content, timestamp: new
    Date(h.created_at) }))], the timestamp kept as the text it is built
    from.  No messages are set when the reply is not [ok], is not an
    array, or holds a [null] (reading [h.role] throws). *)
Definition formatted_messages (r : reply)
    : option (list (option json * option json * option json)) :=
  match r with
  | Reply status (Json (Some (JsArr data))) =>
      if Z.leb 200 status && Z.leb status 299 && negb (existsb is_null data)
      then Some ((λ h, (field "role" h, field "content" h, field "created_at" h))
                   <$> data)
      else None
  | _ => None
  end.

(** The message the client shows for a stored row. *)
Definition message_of_row (h : history_row) : option json * option json * option json :=
  (Some (JsStr (h_role h)), Some (JsStr (h_content h)),
   Some (JsStr (h_created_at h))).

(** One turn of the [contents] that [chatWithAI] sends. *)
Record turn := { turn_role : string; turn_text : string }.

(** [chatWithAI(messages, userProfile)]: the profile first, then the
    messages with [assistant] renamed [model] and every other role sent as
    [user].  [profile] is [JSON.stringify(userProfile || {})]. *)
Definition chat_contents (messages : list (string * string)) (profile : string)
    : list turn :=
  {| turn_role := "user"; turn_text := "User Profile: " +:+ profile |}
  :: ((λ m, {| turn_role := if String.eqb m.1 "assistant" then "model" else "user";
               turn_text := m.2 |}) <$> messages).

(** The loop of [downloadSessionPDF]: for each message, given the number
    of lines [splitTextToSize] cut it into, the page and the height [y] at
    which [doc.text] writes it.  The first page starts at 40 under the
    title, the others at 20. *)
Fixpoint place (page : nat) (y : Z) (lines : list Z) : list (nat * Z) :=
  match lines with
  | [] => []
  | n :: rest =>
      let '(page', y') := if Z.ltb 280 (y + n * 7) then (S page, 20) else (page, y) in
      (page', y') :: place page' (y' + (n * 7 + 5)) rest
  end.

Definition pdf_layout (lines : list Z) : list (nat * Z) := place 0 40 lines.

End Client.

(** ** Sample requests and stores

    Two users, Asha (id 1) and Bram (id 2), and the requests the statements
    below are run on. *)

Module Sample.

Definition request_of (m : method) (path : string) (headers : list (string * string))
    (query body : list (string * jsval)) : request :=
  {| req_method := m; req_path := path;
     req_headers := list_to_map headers;
     req_query := list_to_map query;
     req_body := list_to_map body;
     req_file := None; req_user := None |}.

Definition as_user (uid : Z) (email : string) (req : request) : request :=
  with_user {[ "id" := JNum uid; "email" := JStr email ]} req.

Definition morning : environment :=
  {| clock := "2026-03-01 08:00:00"; epoch := 1772352000; salt := "salt-1" |}.

Definition noon : environment :=
  {| clock := "2026-03-01 12:00:00"; epoch := 1772366400; salt := "salt-2" |}.

Definition evening : environment :=
  {| clock := "2026-03-01 19:30:00"; epoch := 1772393400; salt := "salt-3" |}.

Definition asha : user_row :=
  {| u_id := 1; u_email := "asha@example.org";
     u_password := Reference.bcrypt_hash "correct horse" "salt-1";
     u_first_name := Some "Asha"; u_last_name := Some "Rao";
     u_mobile := None; u_blood_group := None; u_personal_notes := None;
     u_created_at := "2026-03-01 08:00:00" |}.

Definition bram : user_row :=
  {| u_id := 2; u_email := "bram@example.org";
     u_password := Reference.bcrypt_hash "battery staple" "salt-2";
     u_first_name := Some "Bram"; u_last_name := None;
     u_mobile := None; u_blood_group := None; u_personal_notes := None;
     u_created_at := "2026-03-01 12:00:00" |}.

(** Both users registered; Bram has one session and one message in it. *)
Definition store : database :=
  {| users := [asha; bram];
     chat_sessions :=
       [{| s_id := 1; s_user_id := SInt 2; s_title := "Headache";
           s_created_at := "2026-03-01 12:05:00" |}];
     chat_history :=
       [{| h_id := 1; h_user_id := SInt 2; h_session_id := SInt 1;
           h_role := "user"; h_content := "I have a headache";
           h_created_at := "2026-03-01 12:05:10" |}];
     medical_reports := [] |}.

Definition register_asha : request :=
  request_of POST "/api/auth/register" [] []
    [("email", JStr "asha@example.org"); ("password", JStr "correct horse");
     ("firstName", JStr "Asha"); ("lastName", JStr "Rao")].

Definition login_asha : request :=
  request_of POST "/api/auth/login" [] []
    [("email", JStr "asha@example.org"); ("password", JStr "correct horse")].

Definition register_bram : request :=
  request_of POST "/api/auth/register" [] []
    [("email", JStr "bram@example.org"); ("password", JStr "battery staple");
     ("firstName", JStr "Bram"); ("lastName", JNull)].

(** The token the reference [jwt.sign] gives Bram at noon under the default
    secret. *)
Definition bram_token : string :=
  Eval vm_compute in
    Reference.jwt_sign {[ "id" := JNum 2; "email" := JStr "bram@example.org" ]}
      "super-secret-key" 1772366400.

Definition bram_headers : list (string * string) :=
  [("authorization", "Bearer " +:+ bram_token)].

Definition bram_new_session : request :=
  request_of POST "/api/chat/sessions" bram_headers [] [("title", JStr "Sleep")].

Definition bram_says (content : string) : request :=
  request_of POST "/api/chat/history" bram_headers []
    [("role", JStr "user"); ("content", JStr content); ("sessionId", JNum 1)].

Definition bram_uploads : request :=
  request_of POST "/api/reports/upload" bram_headers []
    [("analysis", JStr "All values in range")].

Definition anonymous_reports : request :=
  request_of GET "/api/reports" [] [] [].

Definition forged_reports : request :=
  request_of GET "/api/reports" [("authorization", "Bearer forged")] [] [].

(** The scenario of the specification, section 8. *)
Definition scenario_register : request :=
  request_of POST "/api/auth/register" [] []
    [("email", JStr "a@x.com"); ("password", JStr "pw1");
     ("firstName", JStr "A"); ("lastName", JStr "B")].

Definition scenario_login : request :=
  request_of POST "/api/auth/login" [] []
    [("email", JStr "a@x.com"); ("password", JStr "pw1")].

Definition scenario_token : string :=
  Eval vm_compute in
    Reference.jwt_sign {[ "id" := JNum 1; "email" := JStr "a@x.com" ]}
      "super-secret-key" 1772352000.

Definition scenario_request (m : method) (path : string)
    (query body : list (string * jsval)) : request :=
  request_of m path [("authorization", "Bearer " +:+ scenario_token)] query body.

(** Handler-level requests, [req.user] already set. *)
Definition asha_lists : request :=
  as_user 1 "asha@example.org" (request_of GET "/api/chat/history" [] [] []).

Definition asha_reads_session_1 : request :=
  as_user 1 "asha@example.org"
    (request_of GET "/api/chat/history" [] [("sessionId", JStr "1")] []).

Definition bram_reads_session_1 : request :=
  as_user 2 "bram@example.org"
    (request_of GET "/api/chat/history" [] [("sessionId", JStr "1")] []).

Definition bram_posts (role content : string) : request :=
  as_user 2 "bram@example.org"
    (request_of POST "/api/chat/history" [] []
       [("role", JStr role); ("content", JStr content); ("sessionId", JNum 1)]).

Definition asha_updates_profile : request :=
  as_user 1 "asha@example.org"
    (request_of PUT "/api/user/profile" [] []
       [("firstName", JStr "Asha"); ("lastName", JStr "Rao-Iyer");
        ("mobile", JStr "+91 98765 43210"); ("bloodGroup", JStr "O+");
        ("personalNotes", JNull)]).

Definition asha_reads_profile : request :=
  as_user 1 "asha@example.org" (request_of GET "/api/user/profile" [] [] []).

(** [store] with other password hashes. *)
Definition rehashed_store : database :=
  {| users :=
       [{| u_id := 1; u_email := "asha@example.org"; u_password := "another hash";
           u_first_name := Some "Asha"; u_last_name := Some "Rao";
           u_mobile := None; u_blood_group := None; u_personal_notes := None;
           u_created_at := "2026-03-01 08:00:00" |};
        bram];
     chat_sessions := chat_sessions store;
     chat_history := chat_history store;
     medical_reports := medical_reports store |}.

(** A later state: Asha has filled in her profile; Bram has three sessions
    and two reports, Asha one of each. *)
Definition later_store : database :=
  {| users :=
       [{| u_id := 1; u_email := "asha@example.org";
           u_password := Reference.bcrypt_hash "correct horse" "salt-1";
           u_first_name := Some "Asha"; u_last_name := Some "Rao-Iyer";
           u_mobile := Some "+91 98765 43210"; u_blood_group := Some "O+";
           u_personal_notes := Some "Allergic to penicillin";
           u_created_at := "2026-03-01 08:00:00" |};
        bram];
     chat_sessions :=
       [{| s_id := 1; s_user_id := SInt 2; s_title := "Headache";
           s_created_at := "2026-03-01 12:05:00" |};
        {| s_id := 2; s_user_id := SInt 1; s_title := "Allergy";
           s_created_at := "2026-03-01 19:30:00" |};
        {| s_id := 3; s_user_id := SInt 2; s_title := "Sleep";
           s_created_at := "2026-03-02 07:15:00" |};
        {| s_id := 4; s_user_id := SInt 2; s_title := "Diet";
           s_created_at := "2026-03-03 21:40:00" |}];
     chat_history := chat_history store;
     medical_reports :=
       [{| r_id := 1; r_user_id := SInt 2; r_filename := "blood.pdf";
           r_analysis := "All values in range";
           r_created_at := "2026-03-02 09:00:00" |};
        {| r_id := 2; r_user_id := SInt 1; r_filename := "xray.pdf";
           r_analysis := "No fracture";
           r_created_at := "2026-03-02 10:00:00" |};
        {| r_id := 3; r_user_id := SInt 2; r_filename := "report.pdf";
           r_analysis := "Low vitamin D";
           r_created_at := "2026-03-04 11:30:00" |}] |}.

Definition bram_lists : request :=
  as_user 2 "bram@example.org" (request_of GET "/api/chat/sessions" [] [] []).

(** A profile form with the names only: the three other fields are not in
    the body. *)
Definition asha_sends_names : request :=
  as_user 1 "asha@example.org"
    (request_of PUT "/api/user/profile" [] []
       [("firstName", JStr "Asha"); ("lastName", JStr "Rao")]).

(** A number where the form has a text. *)
Definition asha_sends_number : request :=
  as_user 1 "asha@example.org"
    (request_of PUT "/api/user/profile" [] []
       [("firstName", JStr "Asha"); ("lastName", JStr "Rao");
        ("mobile", JNum 5); ("bloodGroup", JNull); ("personalNotes", JNull)]).


End Sample.

(** * Properties *)

(** ** Strings *)

Lemma split_no_sep (sep : ascii) (s : string) :
  mentions sep s = false → split sep s = [s].
Proof.
  induction s as [|c s IH]; simpl; [done|].
  intros Hm. apply orb_false_elim in Hm as [Hc Hs].
  rewrite Hc, (IH Hs). done.
Qed.

Lemma split_cons_other (sep c : ascii) (s : string) :
  Ascii.eqb c sep = false →
  split sep (String c s)
  = match split sep s with
    | [] => [String c EmptyString]
    | w :: ws => String c w :: ws
    end.
Proof. intros Hc. simpl. by rewrite Hc. Qed.

(** The header the client builds, [`Bearer ${token}`], yields the token. *)
Lemma split_bearer (token : string) :
  mentions " " token = false →
  split " " ("Bearer " +:+ token) !! 1%nat = Some token.
Proof.
  intros Hm. change ("Bearer " +:+ token) with
    (String "B" (String "e" (String "a" (String "r" (String "e" (String "r"
       (String " " token))))))).
  rewrite !split_cons_other by done.
  change (split " " (String " " token)) with (EmptyString :: split " " token).
  by rewrite (split_no_sep _ _ Hm).
Qed.

Lemma to_int_proper n : Z.to_int n ≠ Decimal.Pos Decimal.Nil ∧ Z.to_int n ≠ Decimal.Neg Decimal.Nil.
Proof.
  destruct n as [|p|p]; simpl; split; try done;
    intros [= Hp]; by apply DecimalPos.Unsigned.to_uint_nonnil in Hp.
Qed.

Lemma int_of_string_dec n : NilZero.int_of_string (dec n) = Some (Z.to_int n).
Proof. unfold dec. destruct (to_int_proper n). by apply NilZero.isi. Qed.

Lemma dec_nonempty n : dec n ≠ "".
Proof.
  intros Hn. pose proof (int_of_string_dec n) as Hi. by rewrite Hn in Hi.
Qed.

Lemma truthy_dec n : truthy (JStr (dec n)) = true.
Proof.
  cbn. destruct (String.eqb_spec (dec n) ""); [by apply dec_nonempty in e | done].
Qed.

(** Bytewise order on timestamps. *)
Lemma leb_true_iff (x y : string) :
  String.leb x y = true ↔ x = y ∨ String_as_OT.lt x y.
Proof.
  unfold String.leb. destruct (String.compare x y) eqn:Hc.
  - apply String_as_OT.cmp_eq in Hc. naive_solver.
  - apply String_as_OT.cmp_lt in Hc. naive_solver.
  - split; [done|]. intros [-> | Hlt].
    + assert (String.compare y y = Eq) as Hyy by by apply String_as_OT.cmp_eq.
      congruence.
    + apply String_as_OT.cmp_lt in Hlt. unfold String_as_OT.cmp in Hlt. congruence.
Qed.

Lemma leb_trans (x y z : string) :
  String.leb x y = true → String.leb y z = true → String.leb x z = true.
Proof.
  rewrite !leb_true_iff. intros [-> | Hxy] [-> | Hyz]; auto.
  right. by apply (String_as_OT.lt_trans x y z).
Qed.

Lemma asc_total {A : Type} (key : A → string) (x y : A) :
  asc key x y = true ∨ asc key y x = true.
Proof. apply String.leb_total. Qed.

Lemma asc_trans {A : Type} (key : A → string) (x y z : A) :
  asc key x y = true → asc key y z = true → asc key x z = true.
Proof. apply leb_trans. Qed.

Lemma desc_total {A : Type} (key : A → string) (x y : A) :
  desc key x y = true ∨ desc key y x = true.
Proof. apply String.leb_total. Qed.

Lemma desc_trans {A : Type} (key : A → string) (x y z : A) :
  desc key x y = true → desc key y z = true → desc key x z = true.
Proof. unfold desc. intros Hxy Hyz. by apply (leb_trans _ (key y)). Qed.

Lemma sql_eqb_eq (a b : sqlval) : sql_eqb a b = true → a = b.
Proof.
  destruct a, b; cbn; try done.
  - intros Hn. by apply Z.eqb_eq in Hn as ->.
  - intros Hs. by apply String.eqb_eq in Hs as ->.
Qed.

Lemma sql_eqb_int (n m : Z) : sql_eqb (SInt n) (SInt m) = bool_decide (n = m).
Proof.
  cbn. destruct (Z.eqb_spec n m).
  - by rewrite bool_decide_eq_true_2.
  - by rewrite bool_decide_eq_false_2.
Qed.

Section ServerFacts.
Context {jwt : Jwt} {bcrypt : Bcrypt} {engine : SqlEngine} {router : Router}.
Variable env_JWT_SECRET : option string.

#[local] Abbreviation authenticate := (authenticateToken env_JWT_SECRET).
#[local] Abbreviation secret := (JWT_SECRET env_JWT_SECRET).

(** *** The middleware *)

Lemma authenticate_missing req env db :
  bearer_token req = None ∨ bearer_token req = Some "" →
  authenticate req env db = Done db (Reply 401 StatusText).
Proof. unfold authenticateToken. by intros [-> | ->]. Qed.

Lemma authenticate_invalid req env db token :
  bearer_token req = Some token → token ≠ "" →
  jwt_verify token secret = None →
  authenticate req env db = Done db (Reply 403 StatusText).
Proof.
  unfold authenticateToken. intros -> Hne ->. by destruct token.
Qed.

Lemma authenticate_valid req env db token user :
  bearer_token req = Some token → token ≠ "" →
  jwt_verify token secret = Some user →
  authenticate req env db = Next (with_user user req).
Proof.
  unfold authenticateToken. intros -> Hne ->. by destruct token.
Qed.

Lemma route_of_In req r : route_of env_JWT_SECRET req = Some r → In r (routes env_JWT_SECRET).
Proof. unfold route_of. intros Hf. by apply find_some in Hf as [? _]. Qed.

Lemma routes_guarded m path chain :
  In (m, path, chain) (routes env_JWT_SECRET) →
  path ≠ "/api/auth/register" → path ≠ "/api/auth/login" →
  ∃ rest, chain = authenticate :: rest.
Proof.
  unfold routes. simpl. intros Hin Hr Hl.
  repeat (destruct Hin as [Heq | Hin];
          [injection Heq as <- <- <-; try done; eauto |]).
  done.
Qed.

(** *** Authentication envelope *)

Lemma run_chain_authenticate handlers req env db :
  run_chain (authenticate :: handlers) req env db
  = match authenticate req env db with
    | Next req' => run_chain handlers req' env db
    | Done db' r => (db', r)
    end.
Proof. reflexivity. Qed.

(** C1. A request routed to any route other than /api/auth/register and
    /api/auth/login meets [authenticateToken] first.  With no bearer token
    the reply is 401, with a token that [jwt.verify] refuses it is 403; in
    both cases the store is untouched and the reply is the same whatever
    handlers follow the middleware, so none of them ran.  With a token that
    verifies, the handlers run on a request whose [req.user] is the decoded
    claims. *)
Theorem protected_routes_verify_first req env db m path chain :
  route_of env_JWT_SECRET req = Some (m, path, chain) →
  path ≠ "/api/auth/register" → path ≠ "/api/auth/login" →
  ∃ handlers, chain = authenticate :: handlers
    ∧ (bearer_token req = None ∨ bearer_token req = Some "" →
       app env_JWT_SECRET req env db = (db, Reply 401 StatusText)
       ∧ ∀ others, run_chain (authenticate :: others) req env db
                   = (db, Reply 401 StatusText))
    ∧ (∀ token, bearer_token req = Some token → token ≠ "" →
       jwt_verify token secret = None →
       app env_JWT_SECRET req env db = (db, Reply 403 StatusText)
       ∧ ∀ others, run_chain (authenticate :: others) req env db
                   = (db, Reply 403 StatusText))
    ∧ (∀ token user, bearer_token req = Some token → token ≠ "" →
       jwt_verify token secret = Some user →
       app env_JWT_SECRET req env db
       = run_chain handlers (with_user user req) env db).
Proof.
  intros Hroute Hreg Hlogin.
  destruct (routes_guarded m path chain (route_of_In _ _ Hroute) Hreg Hlogin)
    as [handlers ->].
  exists handlers. split; [reflexivity|].
  unfold app. rewrite Hroute. repeat split.
  - rewrite run_chain_authenticate. by rewrite authenticate_missing.
  - intros others. rewrite run_chain_authenticate. by rewrite authenticate_missing.
  - rewrite run_chain_authenticate.
    by rewrite (authenticate_invalid _ _ _ token).
  - intros others. rewrite run_chain_authenticate.
    by rewrite (authenticate_invalid _ _ _ token).
  - intros token user Htok Hne Hv. rewrite run_chain_authenticate.
    by rewrite (authenticate_valid _ _ _ token user).
Qed.

(** *** Credentials *)

Lemma keeps_credentials_refl db : keeps_credentials db db.
Proof. exists []. by rewrite app_nil_r. Qed.

Lemma keeps_credentials_trans db1 db2 db3 :
  keeps_credentials db1 db2 → keeps_credentials db2 db3 →
  keeps_credentials db1 db3.
Proof.
  intros [x1 H1] [x2 H2]. exists (x1 ++ x2). by rewrite H2, H1, app_assoc.
Qed.

Lemma keeps_credentials_users db db' :
  users db' = users db → keeps_credentials db db'.
Proof.
  intros Hu. exists []. unfold credentials. by rewrite Hu, app_nil_r.
Qed.

Lemma moves_final (R : database → database → Prop) (h : handler) :
  (∀ req env db, R db (h req env db).1) → moves R (final h).
Proof.
  intros Hh req env db. unfold final. specialize (Hh req env db).
  by destruct (h req env db).
Qed.

Lemma moves_authenticate (R : database → database → Prop) :
  (∀ db, R db db) → moves R authenticate.
Proof.
  intros Hrefl req env db. unfold authenticateToken.
  destruct (bearer_token req) as [[|c t]|]; try apply Hrefl.
  destruct (jwt_verify _ _); [done | apply Hrefl].
Qed.

Lemma moves_upload_single (R : database → database → Prop) : moves R upload_single.
Proof. by intros req env db. Qed.

Lemma run_chain_moves (R : database → database → Prop) chain :
  (∀ db, R db db) → Forall (moves R) chain →
  ∀ req env db, R db (run_chain chain req env db).1.
Proof.
  intros Hrefl Hall. induction Hall as [|m chain Hm _ IH]; intros req env db.
  - apply Hrefl.
  - cbn [run_chain]. specialize (Hm req env db).
    destruct (m req env db) as [req'|db' r]; [apply IH | exact Hm].
Qed.

(** Splits every branch a handler takes. *)
Ltac handler_cases :=
  unfold mbind, result_bind, mret, result_ret in *;
  repeat (case_match; simplify_eq; cbn [fst snd] in * ).

Lemma insert_user_inv now e p f l db id db' :
  insert_user now e p f l db = Ok (id, db') →
  ∃ email password,
    to_text e = Some email ∧ to_text p = Some password
    ∧ existsb (String.eqb email) (u_email <$> users db) = false
    ∧ id = next_id (u_id <$> users db)
    ∧ db' = {| users := users db ++
                 [{| u_id := id; u_email := email; u_password := password;
                     u_first_name := to_text f; u_last_name := to_text l;
                     u_mobile := None; u_blood_group := None;
                     u_personal_notes := None; u_created_at := now |}];
               chat_sessions := chat_sessions db;
               chat_history := chat_history db;
               medical_reports := medical_reports db |}.
Proof.
  unfold insert_user. intros Hi.
  destruct (to_text e) as [email|]; [|done].
  destruct (to_text p) as [password|]; [|done].
  destruct (existsb _ _) eqn:Hdup; [done|].
  injection Hi as <- <-. by exists email, password.
Qed.

Lemma register_keeps_credentials req env db :
  keeps_credentials db (register req env db).1.
Proof.
  unfold register.
  destruct (_ ≫= _) as [[id db']|e] eqn:Hattempt.
  - cbn [fst]. unfold mbind, result_bind in Hattempt.
    repeat (case_match; simplify_eq).
    apply insert_user_inv in Hattempt as (email & password & _ & _ & _ & _ & ->).
    eexists. unfold credentials. cbn [users]. by rewrite fmap_app.
  - destruct (_ && _); apply keeps_credentials_refl.
Qed.

Lemma login_pure req env db : (login env_JWT_SECRET req env db).1 = db.
Proof. unfold login. by handler_cases. Qed.

Lemma get_profile_pure req env db : (get_profile req env db).1 = db.
Proof. unfold get_profile. by handler_cases. Qed.

Lemma get_sessions_pure req env db : (get_sessions req env db).1 = db.
Proof. unfold get_sessions. by handler_cases. Qed.

Lemma get_history_pure req env db : (get_history req env db).1 = db.
Proof. unfold get_history. by handler_cases. Qed.

Lemma get_reports_pure req env db : (get_reports req env db).1 = db.
Proof. unfold get_reports. by handler_cases. Qed.

Lemma update_profile_credentials f l m b n id db :
  credentials (update_profile f l m b n id db) = credentials db.
Proof.
  unfold credentials, update_profile. cbn [users].
  rewrite <- list_fmap_compose. apply list_fmap_ext.
  intros i u _. cbn. by case_match.
Qed.

Lemma put_profile_keeps_credentials req env db :
  keeps_credentials db (put_profile req env db).1.
Proof.
  unfold put_profile. handler_cases; try apply keeps_credentials_refl.
  exists []. by rewrite update_profile_credentials, app_nil_r.
Qed.

Lemma post_session_users req env db :
  users (post_session req env db).1 = users db.
Proof.
  unfold post_session, insert_session. by handler_cases.
Qed.

Lemma post_history_users req env db :
  users (post_history req env db).1 = users db.
Proof.
  unfold post_history, insert_history. by handler_cases.
Qed.

Lemma post_report_users req env db :
  users (post_report req env db).1 = users db.
Proof.
  unfold post_report, insert_report. by handler_cases.
Qed.

Lemma routes_keep_credentials :
  Forall (λ r, Forall (moves keeps_credentials) r.2) (routes env_JWT_SECRET).
Proof.
  pose proof keeps_credentials_refl as Hrefl.
  pose proof keeps_credentials_users as Husers.
  unfold routes.
  repeat first
    [ apply Forall_nil_2
    | apply Forall_cons_2
    | apply moves_authenticate
    | apply moves_upload_single
    | apply moves_final; intros req env db ]; cbn [snd]; try done.
  - apply register_keeps_credentials.
  - by rewrite login_pure.
  - by rewrite get_profile_pure.
  - apply put_profile_keeps_credentials.
  - by rewrite get_sessions_pure.
  - apply Husers, post_session_users.
  - by rewrite get_history_pure.
  - apply Husers, post_history_users.
  - apply Husers, post_report_users.
  - by rewrite get_reports_pure.
Qed.

Lemma app_keeps_credentials req env db :
  keeps_credentials db (app env_JWT_SECRET req env db).1.
Proof.
  unfold app. destruct (route_of _ req) as [[[m path] chain]|] eqn:Hroute.
  - apply run_chain_moves; [apply keeps_credentials_refl|].
    apply route_of_In, list_elem_of_In in Hroute.
    pose proof routes_keep_credentials as Hall.
    rewrite Forall_forall in Hall. apply (Hall _ Hroute).
  - apply keeps_credentials_refl.
Qed.

Lemma serve_keeps_credentials trace db :
  keeps_credentials db (serve env_JWT_SECRET trace db).
Proof.
  revert db. induction trace as [|[req env] trace IH]; intros db; cbn [serve].
  - apply keeps_credentials_refl.
  - eapply keeps_credentials_trans; [apply app_keeps_credentials | apply IH].
Qed.

Lemma find_fmap {A B : Type} (f : A → B) (P : B → bool) (l : list A) :
  List.find P (f <$> l) = f <$> List.find (λ a, P (f a)) l.
Proof.
  induction l as [|a l IH]; cbn; [done|]. by destruct (P (f a)).
Qed.

Lemma find_app_Some {A : Type} (P : A → bool) (l extra : list A) a :
  List.find P l = Some a → List.find P (l ++ extra) = Some a.
Proof.
  induction l as [|b l IH]; cbn; [done|]. by destruct (P b).
Qed.

Lemma find_app_None {A : Type} (P : A → bool) (l extra : list A) :
  List.find P l = None → List.find P (l ++ extra) = List.find P extra.
Proof.
  induction l as [|b l IH]; cbn; [done|]. by destruct (P b).
Qed.

Lemma find_existsb_false {A : Type} (P : A → bool) (l : list A) :
  existsb P l = false → List.find P l = None.
Proof.
  induction l as [|b l IH]; cbn; [done|]. destruct (P b); [done|exact IH].
Qed.

Lemma credentials_of_kept email db db' c :
  keeps_credentials db db' →
  credentials_of email db = Some c → credentials_of email db' = Some c.
Proof.
  unfold credentials_of. intros [extra ->]. apply find_app_Some.
Qed.

Lemma select_user_by_email_credentials email db :
  (λ u, (u_id u, u_email u, u_password u)) <$> select_user_by_email (SText email) db
  = credentials_of email db.
Proof.
  unfold credentials_of, credentials, select_user_by_email. cbn [to_text].
  by rewrite find_fmap.
Qed.

Lemma register_created req env db db' id email password :
  prop (req_body req) "email" = JStr email →
  prop (req_body req) "password" = JStr password →
  register req env db = (db', json_reply 201 (JsObj [("id", JsNum id)])) →
  credentials_of email db = None
  ∧ credentials_of email db'
    = Some (id, email, bcrypt_hash password (salt env)).
Proof.
  unfold register. intros -> ->. cbn [hash_password bind].
  unfold mbind, result_bind.
  destruct (bind (prop (req_body req) "firstName")) as [f|];
    [|by case_match].
  destruct (bind (prop (req_body req) "lastName")) as [l|];
    [|by case_match].
  destruct (insert_user _ _ _ _ _ _) as [[id' db'']|err] eqn:Hins;
    [|by case_match].
  intros [= <- <-].
  apply insert_user_inv in Hins
    as (e & p & [= <-] & [= <-] & Hfresh & _ & ->).
  assert (credentials_of email db = None) as Hnone.
  { unfold credentials_of, credentials. rewrite find_fmap. cbn.
    rewrite find_existsb_false; [done|]. clear -Hfresh.
    induction (users db) as [|u us IH]; cbn in *; [done|].
    apply orb_false_elim in Hfresh as [Hu Hus].
    by rewrite String.eqb_sym, Hu, IH. }
  split; [done|].
  unfold credentials_of, credentials in *. cbn [users].
  rewrite fmap_app, (find_app_None _ _ _ Hnone). cbn.
  by rewrite String.eqb_refl.
Qed.

Lemma login_succeeds req env db id email password salt :
  prop (req_body req) "email" = JStr email →
  prop (req_body req) "password" = JStr password →
  credentials_of email db = Some (id, email, bcrypt_hash password salt) →
  ∃ user,
    login env_JWT_SECRET req env db
    = (db, json_reply 200
             (JsObj [("token",
                      JsStr (jwt_sign {[ "id" := JNum id; "email" := JStr email ]}
                               secret (epoch env)));
                     ("user", user)])).
Proof.
  intros Hemail Hpassword Hcred.
  rewrite <- select_user_by_email_credentials in Hcred.
  unfold login. rewrite Hemail, Hpassword. cbn [bind compare_password].
  destruct (select_user_by_email _ _) as [u|]; [|done].
  injection Hcred as -> -> ->. rewrite bcrypt_compare_hash. eauto.
Qed.

Lemma bearer_token_of_header req token :
  mentions " " token = false →
  req_headers req !! "authorization" = Some ("Bearer " +:+ token) →
  bearer_token req = Some token.
Proof.
  intros Hm Hh. unfold bearer_token. rewrite Hh.
  rewrite <- (split_bearer token Hm). reflexivity.
Qed.

(** C2. Once POST /api/auth/register has answered 201 with an id for an
    email and a password, then after any further requests the server has
    served, POST /api/auth/login with that email and password answers 200
    with a token; [jwt.verify] accepts the token under the server secret,
    the decoded claims carry that id and that email, and
    [authenticateToken] lets a request bearing the token through with those
    claims as [req.user].  A token whose signature does not match the
    server secret is refused by [jwt.verify], and [authenticateToken]
    answers it with 403 (401 when it is empty) without calling [next]. *)
Theorem login_after_register req env db db' id email password trace req' env' :
  prop (req_body req) "email" = JStr email →
  prop (req_body req) "password" = JStr password →
  register req env db = (db', json_reply 201 (JsObj [("id", JsNum id)])) →
  prop (req_body req') "email" = JStr email →
  prop (req_body req') "password" = JStr password →
  (∃ token user claims,
     login env_JWT_SECRET req' env' (serve env_JWT_SECRET trace db')
     = (serve env_JWT_SECRET trace db',
        json_reply 200 (JsObj [("token", JsStr token); ("user", user)]))
     ∧ jwt_verify token secret = Some claims
     ∧ prop claims "id" = JNum id
     ∧ prop claims "email" = JStr email
     ∧ ∀ r e d,
         req_headers r !! "authorization" = Some ("Bearer " +:+ token) →
         authenticate r e d = Next (with_user claims r))
  ∧ (∀ token, jwt_signed_by token secret = false →
     jwt_verify token secret = None
     ∧ ∀ r e d, bearer_token r = Some token →
         authenticate r e d
         = Done d (Reply (if String.eqb token "" then 401 else 403) StatusText)).
Proof.
  intros Hemail Hpassword Hregister Hemail' Hpassword'. split.
  - destruct (register_created _ _ _ _ _ _ _ Hemail Hpassword Hregister)
      as [_ Hcred].
    apply (credentials_of_kept _ _ _ _ (serve_keeps_credentials trace db'))
      in Hcred.
    destruct (login_succeeds req' env' _ _ _ _ _ Hemail' Hpassword' Hcred)
      as [user Hlogin].
    eexists _, user, _. split; [exact Hlogin|].
    split; [apply jwt_verify_sign|].
    split; [unfold prop; by simplify_map_eq|].
    split; [unfold prop; by simplify_map_eq|].
    intros r e d Hheader.
    destruct (jwt_sign_compact {[ "id" := JNum id; "email" := JStr email ]}
                secret (epoch env')) as [Hne Hcompact].
    apply (authenticate_valid _ _ _ _ _
             (bearer_token_of_header _ _ Hcompact Hheader) Hne).
    apply jwt_verify_sign.
  - intros token Hbad. pose proof (jwt_verify_signed _ _ Hbad) as Hrefused.
    split; [exact Hrefused|]. intros r e d Htoken.
    destruct (String.eqb_spec token "") as [-> | Hne].
    + apply authenticate_missing. by right.
    + by apply (authenticate_invalid _ _ _ token).
Qed.

(** *** Registration *)




(** *** Chat history *)

Lemma insert_history_inv now uid r c sid db id db' :
  insert_history now uid r c sid db = Ok (id, db') →
  ∃ role content,
    to_text r = Some role ∧ to_text c = Some content
    ∧ db' = {| users := users db;
               chat_sessions := chat_sessions db;
               chat_history := chat_history db ++
                 [{| h_id := id; h_user_id := to_integer uid;
                     h_session_id := to_integer sid; h_role := role;
                     h_content := content; h_created_at := now |}];
               medical_reports := medical_reports db |}.
Proof.
  unfold insert_history. intros Hi.
  destruct (to_text r) as [role|] eqn:Hr; [|by case_match].
  destruct (to_text c) as [content|] eqn:Hc; [|by case_match].
  exists role, content. repeat (case_match; simplify_eq); done.
Qed.

Lemma to_text_bind v s x : bind v = Ok s → to_text s = Some x → text_of v = x.
Proof. destruct v; cbn; intros; simplify_eq; cbn in *; by simplify_eq. Qed.

Lemma post_history_step req env db uid sid :
  authenticated_as uid req →
  prop (req_body req) "sessionId" = JNum sid →
  (accepted (post_history req env db).2 = false
   ∧ (post_history req env db).1 = db)
  ∨ (accepted (post_history req env db).2 = true
     ∧ ∃ row, (post_history req env db).1
              = {| users := users db;
                   chat_sessions := chat_sessions db;
                   chat_history := chat_history db ++ [row];
                   medical_reports := medical_reports db |}
         ∧ h_user_id row = SInt uid ∧ h_session_id row = SInt sid
         ∧ entry row = sent (req, env)).
Proof.
  intros (user & Huser & Hid) Hsid. unfold post_history, user_id.
  rewrite Huser, Hid, Hsid. cbn [bind]. unfold mbind, result_bind.
  destruct (bind (prop (req_body req) "role")) as [r|] eqn:Hr; [|by left].
  destruct (bind (prop (req_body req) "content")) as [c|] eqn:Hc; [|by left].
  cbn [bind]. cbv beta iota.
  destruct (insert_history _ _ _ _ _ _) as [[id db']|] eqn:Hins; [|by left].
  right. split; [done|].
  apply insert_history_inv in Hins as (role & content & Hrole & Hcontent & ->).
  eexists. split; [reflexivity|]. cbn. repeat split.
  unfold sent, entry. cbn.
  by rewrite (to_text_bind _ _ _ Hr Hrole), (to_text_bind _ _ _ Hc Hcontent).
Qed.

Lemma post_each_history uid sid posts : ∀ db,
  Forall (λ post, authenticated_as uid post.1
                  ∧ prop (req_body post.1) "sessionId" = JNum sid) posts →
  ∃ new,
    chat_history (post_each posts db).1 = chat_history db ++ new
    ∧ Forall (λ h, h_user_id h = SInt uid ∧ h_session_id h = SInt sid) new
    ∧ entry <$> new = sent <$> (post_each posts db).2.
Proof.
  induction posts as [|[req env] posts IH]; intros db Hall.
  - exists []. by rewrite app_nil_r.
  - apply Forall_cons_1 in Hall as [[Hauth Hsid] Hall]. cbn [post_each].
    destruct (post_history_step req env db uid sid Hauth Hsid)
      as [[Hno Hdb] | [Hyes (row & Hdb & Hu & Hs & Hentry)]];
      destruct (post_history req env db) as [db1 r]; cbn [fst snd] in *;
      destruct (IH db1 Hall) as (new & Hnew & Hin & Hsent);
      destruct (post_each posts db1) as [db2 stored]; cbn [fst snd] in *.
    + subst db1. rewrite Hno. by exists new.
    + subst db1. rewrite Hyes. exists (row :: new). cbn [chat_history] in Hnew.
      rewrite Hnew, <- app_assoc. split; [done|]. split; [by constructor|].
      cbn. by rewrite Hentry, Hsent.
Qed.

Lemma get_history_of_session req env db uid sid :
  authenticated_as uid req →
  prop (req_query req) "sessionId" = JStr (dec sid) →
  get_history req env db
  = (db, json_reply 200
           (JsArr (history_json <$>
                     order_by (asc h_created_at)
                       (List.filter (in_session uid sid) (chat_history db))))).
Proof.
  intros (user & Huser & Hid) Hsid. unfold get_history, user_id.
  rewrite Huser, Hsid, truthy_dec, Hid. cbn.
  unfold select_history_of_session. cbn. by rewrite numeric_of_text_dec.
Qed.

Lemma get_history_all req env db uid :
  authenticated_as uid req →
  truthy (prop (req_query req) "sessionId") = false →
  get_history req env db
  = (db, json_reply 200
           (JsArr (history_json <$>
                     order_by (asc h_created_at) (history_of uid db)))).
Proof.
  intros (user & Huser & Hid) Hsid. unfold get_history, user_id.
  by rewrite Huser, Hsid, Hid.
Qed.

Lemma order_by_asc_sorted {A : Type} (key : A → string) (l : list A) :
  StronglySorted (λ x y, String.leb (key x) (key y) = true) (order_by (asc key) l).
Proof.
  apply Sorted_StronglySorted; [intros x y z; apply leb_trans|].
  apply (order_by_sorted A (asc key)); [apply asc_total | apply asc_trans].
Qed.

Lemma order_by_desc_sorted {A : Type} (key : A → string) (l : list A) :
  StronglySorted (λ x y, String.leb (key y) (key x) = true) (order_by (desc key) l).
Proof.
  apply Sorted_StronglySorted; [intros x y z; apply (desc_trans key)|].
  apply (order_by_sorted A (desc key)); [apply desc_total | apply desc_trans].
Qed.

Lemma filter_all {A : Type} (P : A → bool) (l : list A) :
  Forall (λ a, P a = true) l → List.filter P l = l.
Proof.
  induction 1 as [|a l Ha _ IH]; cbn; [done|]. by rewrite Ha, IH.
Qed.

Lemma in_session_spec uid sid h :
  in_session uid sid h = true ↔ h_user_id h = SInt uid ∧ h_session_id h = SInt sid.
Proof.
  unfold in_session. rewrite andb_true_iff. split.
  - intros [Hu Hs]. by split; apply sql_eqb_eq.
  - intros [-> ->]. by rewrite !sql_eqb_int, !bool_decide_eq_true_2.
Qed.

(** C4. Let a user append to the history of one session any number of
    times, each POST /api/chat/history carrying that session's id.  Then
    GET /api/chat/history with that [sessionId] answers 200 with rows of
    that user and that session only, in non-decreasing [created_at] order
    (each row's time is at most that of every row after it);
    their number is the number of such rows held before plus the number of
    appends that were answered 200; and what the rows say (role, content,
    creation time) is, up to order, what the earlier rows said followed by
    what the accepted appends sent.  With [sessionId] left out (or empty)
    the reply holds, in non-decreasing [created_at] order, every row of the
    user, whatever its [session_id], NULL included. *)
Theorem history_listing uid sid posts db req env :
  Forall (λ post, authenticated_as uid post.1
                  ∧ prop (req_body post.1) "sessionId" = JNum sid) posts →
  authenticated_as uid req →
  let db' := (post_each posts db).1 in
  let stored := (post_each posts db).2 in
  let before := List.filter (in_session uid sid) (chat_history db) in
  (prop (req_query req) "sessionId" = JStr (dec sid) →
   ∃ rows,
     get_history req env db' = (db', json_reply 200 (JsArr (history_json <$> rows)))
     ∧ StronglySorted (λ x y, String.leb (h_created_at x) (h_created_at y) = true) rows
     ∧ Forall (λ h, h_user_id h = SInt uid ∧ h_session_id h = SInt sid) rows
     ∧ length rows = (length before + length stored)%nat
     ∧ entry <$> rows ≡ₚ (entry <$> before) ++ (sent <$> stored))
  ∧ (truthy (prop (req_query req) "sessionId") = false →
     ∃ rows,
       get_history req env db' = (db', json_reply 200 (JsArr (history_json <$> rows)))
       ∧ StronglySorted (λ x y, String.leb (h_created_at x) (h_created_at y) = true) rows
       ∧ rows ≡ₚ history_of uid db').
Proof.
  intros Hposts Hreq db' stored before.
  destruct (post_each_history uid sid posts db Hposts) as (new & Hnew & Hin & Hsent).
  fold db' in Hnew. fold stored in Hsent. split.
  - intros Hsid. eexists. split; [by apply get_history_of_session|].
    split; [apply order_by_asc_sorted|].
    assert (List.filter (in_session uid sid) (chat_history db') = before ++ new)
      as Hfilter.
    { rewrite Hnew, List.filter_app. f_equal. apply filter_all.
      eapply Forall_impl; [exact Hin|]. intros h Hh. by apply in_session_spec. }
    pose proof (order_by_perm _ (asc h_created_at)
                  (List.filter (in_session uid sid) (chat_history db'))) as Hperm.
    rewrite Hfilter in *. repeat split.
    + rewrite Hperm. apply Forall_app. split; [|exact Hin].
      apply Forall_forall. intros h Hh. apply list_elem_of_In, filter_In in Hh.
      apply in_session_spec, Hh.
    + rewrite Hperm, length_app. f_equal.
      by rewrite <- (length_fmap sent), <- Hsent, length_fmap.
    + by rewrite Hperm, fmap_app, Hsent.
  - intros Hsid. eexists. split; [by apply get_history_all|].
    split; [apply order_by_asc_sorted | apply order_by_perm].
Qed.

(** *** Profile *)

Lemma find_pointwise {A : Type} (P Q : A → bool) (l : list A) :
  (∀ a, P a = Q a) → List.find P l = List.find Q l.
Proof.
  intros HPQ. induction l as [|a l IH]; cbn; [done|]. by rewrite HPQ, IH.
Qed.

Lemma bind_text_value t : ∃ v, bind (text_value t) = Ok v ∧ to_text v = t.
Proof. destruct t; cbn; eauto. Qed.

Lemma select_user_by_id_updated f l m b n uid db u :
  select_user_by_id (SInt uid) db = Some u →
  select_user_by_id (SInt uid) (update_profile f l m b n (SInt uid) db)
  = Some {| u_id := u_id u; u_email := u_email u; u_password := u_password u;
            u_first_name := to_text f; u_last_name := to_text l;
            u_mobile := to_text m; u_blood_group := to_text b;
            u_personal_notes := to_text n; u_created_at := u_created_at u |}.
Proof.
  unfold select_user_by_id, update_profile. cbn [users to_integer].
  intros Hfind. change (map ?g ?l) with (g <$> l). rewrite find_fmap.
  erewrite find_pointwise; [rewrite Hfind|].
  - apply find_some in Hfind as [_ Hp]. cbn in Hp |- *. by rewrite Hp.
  - intros a. cbn. by case_match.
Qed.

Lemma bind_stored_text v :
  (∀ b, v ≠ JBool b) → ∃ x, bind v = Ok x ∧ to_text x = stored_text v.
Proof. destruct v as [| |b| |]; cbn; intros Hv; eauto. by destruct (Hv b). Qed.

Lemma stored_text_value t : stored_text (text_value t) = t.
Proof. by destruct t. Qed.

Lemma put_profile_stored uid req env db :
  authenticated_as uid req →
  Forall (λ field, ∀ b, prop (req_body req) field ≠ JBool b) profile_fields →
  ∃ f l m b n,
    put_profile req env db
    = (update_profile f l m b n (SInt uid) db, json_reply 200 success)
    ∧ to_text f = stored_text (prop (req_body req) "firstName")
    ∧ to_text l = stored_text (prop (req_body req) "lastName")
    ∧ to_text m = stored_text (prop (req_body req) "mobile")
    ∧ to_text b = stored_text (prop (req_body req) "bloodGroup")
    ∧ to_text n = stored_text (prop (req_body req) "personalNotes").
Proof.
  intros (user & Huser & Hid) Hfields. unfold profile_fields in Hfields.
  apply Forall_cons in Hfields as [Hf Hfields].
  apply Forall_cons in Hfields as [Hl Hfields].
  apply Forall_cons in Hfields as [Hm Hfields].
  apply Forall_cons in Hfields as [Hb Hfields].
  apply Forall_cons in Hfields as [Hn _].
  destruct (bind_stored_text _ Hf) as (f & Hbf & Htf).
  destruct (bind_stored_text _ Hl) as (l & Hbl & Htl).
  destruct (bind_stored_text _ Hm) as (m & Hbm & Htm).
  destruct (bind_stored_text _ Hb) as (b & Hbb & Htb).
  destruct (bind_stored_text _ Hn) as (n & Hbn & Htn).
  exists f, l, m, b, n. split; [|done].
  unfold put_profile, user_id. rewrite Huser, Hid.
  unfold mbind, result_bind. by rewrite Hbf, Hbl, Hbm, Hbb, Hbn.
Qed.

(** C5. For a stored user, PUT /api/user/profile with no boolean among the
    five fields answers 200 and overwrites all five columns, and GET
    /api/user/profile afterwards returns, with the id and the email the
    user had before, what each column now holds: the string that was sent;
    null when null was sent, and also when the field was left out of the
    body, so that an omitted field is erased; and for a number the text
    SQLite keeps of it, not the number.  A field sent as a string or as
    null is therefore read back as it was sent.  The stored row keeps its
    id, email, password hash and creation time, and no user's id, email or
    password hash changes. *)
Theorem profile_round_trip uid req env db req' env' u :
  authenticated_as uid req →
  authenticated_as uid req' →
  select_user_by_id (SInt uid) db = Some u →
  Forall (λ field, ∀ b, prop (req_body req) field ≠ JBool b) profile_fields →
  ∃ db',
    put_profile req env db = (db', json_reply 200 success)
    ∧ get_profile req' env' db'
      = (db', json_reply 200
                (JsObj [("id", JsNum (u_id u)); ("email", JsStr (u_email u));
                        ("first_name",
                         json_of_text (stored_text (prop (req_body req) "firstName")));
                        ("last_name",
                         json_of_text (stored_text (prop (req_body req) "lastName")));
                        ("mobile",
                         json_of_text (stored_text (prop (req_body req) "mobile")));
                        ("blood_group",
                         json_of_text (stored_text (prop (req_body req) "bloodGroup")));
                        ("personal_notes",
                         json_of_text
                           (stored_text (prop (req_body req) "personalNotes")))]))
    ∧ select_user_by_id (SInt uid) db'
      = Some {| u_id := u_id u; u_email := u_email u;
                u_password := u_password u;
                u_first_name := stored_text (prop (req_body req) "firstName");
                u_last_name := stored_text (prop (req_body req) "lastName");
                u_mobile := stored_text (prop (req_body req) "mobile");
                u_blood_group := stored_text (prop (req_body req) "bloodGroup");
                u_personal_notes :=
                  stored_text (prop (req_body req) "personalNotes");
                u_created_at := u_created_at u |}
    ∧ credentials db' = credentials db
    ∧ (∀ field t, prop (req_body req) field = text_value t →
         stored_text (prop (req_body req) field) = t).
Proof.
  intros Hreq (user' & Huser' & Hid') Hu Hfields.
  destruct (put_profile_stored uid req env db Hreq Hfields)
    as (f & l & m & b & n & Hput & Hf & Hl & Hm & Hb & Hn).
  exists (update_profile f l m b n (SInt uid) db).
  pose proof (select_user_by_id_updated f l m b n uid db u Hu) as Hu'.
  rewrite Hf, Hl, Hm, Hb, Hn in Hu'.
  split; [exact Hput|]. split; [|split; [exact Hu'|split]].
  - unfold get_profile, user_id. rewrite Huser', Hid'. cbn [mbind result_bind bind].
    unfold mbind, result_bind. by rewrite Hu'.
  - apply update_profile_credentials.
  - intros field t ->. apply stored_text_value.
Qed.


(** *** Listings *)

Lemma get_sessions_of req env db uid :
  authenticated_as uid req →
  get_sessions req env db
  = (db, json_reply 200
           (JsArr (session_json <$> order_by (desc s_created_at) (sessions_of uid db)))).
Proof.
  intros (user & Huser & Hid). unfold get_sessions, user_id.
  by rewrite Huser, Hid.
Qed.

Lemma get_reports_of req env db uid :
  authenticated_as uid req →
  get_reports req env db
  = (db, json_reply 200
           (JsArr (report_json <$> order_by (desc r_created_at) (reports_of uid db)))).
Proof.
  intros (user & Huser & Hid). unfold get_reports, user_id.
  by rewrite Huser, Hid.
Qed.

(** C6. For an authenticated user, GET /api/chat/sessions answers 200 with
    the user's rows of [chat_sessions], and GET /api/reports with the
    user's rows of [medical_reports], each list in non-increasing
    [created_at] order: every row's time is at least that of every row
    after it. *)
Theorem listings_most_recent_first uid req env db :
  authenticated_as uid req →
  (∃ rows,
     get_sessions req env db = (db, json_reply 200 (JsArr (session_json <$> rows)))
     ∧ rows ≡ₚ sessions_of uid db
     ∧ StronglySorted (λ x y, String.leb (s_created_at y) (s_created_at x) = true) rows)
  ∧ (∃ rows,
       get_reports req env db = (db, json_reply 200 (JsArr (report_json <$> rows)))
       ∧ rows ≡ₚ reports_of uid db
       ∧ StronglySorted (λ x y, String.leb (r_created_at y) (r_created_at x) = true) rows).
Proof.
  intros Hauth. split; eexists.
  - split; [by apply get_sessions_of|].
    split; [apply order_by_perm | apply order_by_desc_sorted].
  - split; [by apply get_reports_of|].
    split; [apply order_by_perm | apply order_by_desc_sorted].
Qed.

Lemma order_by_nil {A : Type} (le : A → A → bool) : order_by le [] = [].
Proof. apply Permutation_nil_r. apply order_by_perm. Qed.

Lemma filter_andb {A : Type} (P Q : A → bool) (l : list A) :
  List.filter (λ a, P a && Q a) l = List.filter Q (List.filter P l).
Proof.
  induction l as [|a l IH]; cbn; [done|].
  destruct (P a); cbn; by rewrite IH.
Qed.

Lemma get_history_filtered req env db uid session :
  authenticated_as uid req →
  prop (req_query req) "sessionId" = JStr session →
  session ≠ "" →
  get_history req env db
  = (db, json_reply 200
           (JsArr (history_json <$>
                     order_by (asc h_created_at)
                       (List.filter
                          (λ h, sql_eqb (h_session_id h) (numeric_of_text session))
                          (history_of uid db))))).
Proof.
  intros (user & Huser & Hid) Hsid Hne. unfold get_history, user_id.
  rewrite Huser, Hsid, Hid. cbn [truthy].
  destruct (String.eqb_spec session ""); [done|]. cbn.
  unfold select_history_of_session, history_of, owns. cbn [to_integer].
  by rewrite filter_andb.
Qed.

(** C9. For an authenticated user who owns no session, no history row and
    no report, GET /api/chat/sessions, GET /api/chat/history (without a
    [sessionId], or with any) and GET /api/reports each answer 200 with the
    empty array. *)
Theorem listings_of_new_user uid req env db :
  authenticated_as uid req →
  sessions_of uid db = [] → history_of uid db = [] → reports_of uid db = [] →
  get_sessions req env db = (db, json_reply 200 (JsArr []))
  ∧ get_reports req env db = (db, json_reply 200 (JsArr []))
  ∧ (truthy (prop (req_query req) "sessionId") = false →
     get_history req env db = (db, json_reply 200 (JsArr [])))
  ∧ (∀ session, prop (req_query req) "sessionId" = JStr session →
     get_history req env db = (db, json_reply 200 (JsArr []))).
Proof.
  intros Hauth Hs Hh Hr. repeat split.
  - by rewrite (get_sessions_of _ _ _ uid), Hs, order_by_nil.
  - by rewrite (get_reports_of _ _ _ uid), Hr, order_by_nil.
  - intros Hq. by rewrite (get_history_all _ _ _ uid), Hh, order_by_nil.
  - intros session Hq. destruct (String.eqb_spec session "") as [-> | Hne].
    + rewrite (get_history_all _ _ _ uid); [|done|by rewrite Hq].
      by rewrite Hh, order_by_nil.
    + rewrite (get_history_filtered _ _ _ uid session); [|done..].
      rewrite Hh. cbn [List.filter]. by rewrite order_by_nil.
Qed.

(** *** The password hash *)

Lemma find_same_but_password (P Q : user_row → bool) us1 us2 :
  Forall2 same_but_password us1 us2 →
  (∀ u1 u2, same_but_password u1 u2 → P u1 = Q u2) →
  match List.find P us1, List.find Q us2 with
  | Some u1, Some u2 => same_but_password u1 u2
  | None, None => True
  | _, _ => False
  end.
Proof.
  intros Hall HPQ. induction Hall as [|u1 u2 us1 us2 Hu _ IH]; cbn; [done|].
  rewrite (HPQ u1 u2 Hu). by destruct (Q u2).
Qed.

Lemma profile_json_same_but_password u1 u2 :
  same_but_password u1 u2 → profile_json u1 = profile_json u2.
Proof.
  unfold profile_json. by intros (-> & -> & -> & -> & -> & -> & -> & _).
Qed.

(** C8. The reply of GET /api/user/profile does not depend on any stored
    password hash: two stores whose [users] rows agree on every column but
    [password] get the same reply to the same request.  The reply is 200
    with an object of the seven selected columns, no [password] among them
    (or with no body when the id matches no row), unless reading or binding
    [req.user.id] raised. *)
Theorem profile_hides_password req env db1 db2 :
  Forall2 same_but_password (users db1) (users db2) →
  (get_profile req env db1).2 = (get_profile req env db2).2
  ∧ ((∃ e, (get_profile req env db1).2 = Raised e)
     ∨ (get_profile req env db1).2 = Reply 200 (Json None)
     ∨ (∃ fields,
          (get_profile req env db1).2 = json_reply 200 (JsObj fields)
          ∧ fields.*1 = ["id"; "email"; "first_name"; "last_name"; "mobile";
                         "blood_group"; "personal_notes"])).
Proof.
  intros Hsame. unfold get_profile.
  destruct (_ ≫= _) as [id|e]; cbn [snd]; [|split; eauto].
  unfold select_user_by_id.
  pose proof (find_same_but_password
                (λ u, sql_eqb (SInt (u_id u)) (to_integer id))
                (λ u, sql_eqb (SInt (u_id u)) (to_integer id))
                _ _ Hsame) as Hfind.
  destruct (List.find _ (users db1)) as [u1|], (List.find _ (users db2)) as [u2|];
    cbn.
  - split.
    + rewrite (profile_json_same_but_password u1 u2); [done|].
      apply Hfind. by intros ? ? (-> & _).
    + right. right. by eexists.
  - exfalso. apply Hfind. by intros ? ? (-> & _).
  - exfalso. apply Hfind. by intros ? ? (-> & _).
  - split; [done|]. by right; left.
Qed.

(** *** Isolation between users *)

Lemma same_records_refl uid db : same_records uid db db.
Proof. by repeat split. Qed.

Lemma same_records_trans uid db1 db2 db3 :
  same_records uid db1 db2 → same_records uid db2 db3 → same_records uid db1 db3.
Proof.
  unfold same_records. intros (-> & -> & ->) (-> & -> & ->). done.
Qed.

Lemma same_records_tables uid db db' :
  chat_sessions db' = chat_sessions db →
  chat_history db' = chat_history db →
  medical_reports db' = medical_reports db →
  same_records uid db db'.
Proof.
  unfold same_records, sessions_of, history_of, reports_of.
  by intros -> -> ->.
Qed.

Lemma owns_other a b : a ≠ b → owns a (SInt b) = false.
Proof.
  intros Hne. unfold owns. rewrite sql_eqb_int. apply bool_decide_eq_false_2.
  congruence.
Qed.

Lemma filter_snoc_false {A : Type} (P : A → bool) (l : list A) (x : A) :
  P x = false → List.filter P (l ++ [x]) = List.filter P l.
Proof. intros Hx. rewrite List.filter_app. cbn. by rewrite Hx, app_nil_r. Qed.

Lemma register_tables req env db :
  chat_sessions (register req env db).1 = chat_sessions db
  ∧ chat_history (register req env db).1 = chat_history db
  ∧ medical_reports (register req env db).1 = medical_reports db.
Proof.
  unfold register.
  destruct (_ ≫= _) as [[id db']|e] eqn:Hattempt; [|by case_match].
  unfold mbind, result_bind in Hattempt. repeat (case_match; simplify_eq).
  by apply insert_user_inv in Hattempt as (? & ? & _ & _ & _ & _ & ->).
Qed.

Lemma put_profile_tables req env db :
  chat_sessions (put_profile req env db).1 = chat_sessions db
  ∧ chat_history (put_profile req env db).1 = chat_history db
  ∧ medical_reports (put_profile req env db).1 = medical_reports db.
Proof. unfold put_profile. by handler_cases. Qed.

Lemma post_session_records a b req env db :
  authenticated_as b req → a ≠ b →
  same_records a db (post_session req env db).1.
Proof.
  intros (user & Huser & Hid) Hne. unfold post_session, user_id, insert_session.
  rewrite Huser, Hid. cbn [mbind result_bind bind to_integer].
  handler_cases; try apply same_records_refl.
  unfold same_records, sessions_of, history_of, reports_of. cbn.
  rewrite filter_snoc_false; [done|]. by apply owns_other.
Qed.

Lemma post_history_records a b req env db :
  authenticated_as b req → a ≠ b →
  same_records a db (post_history req env db).1.
Proof.
  intros (user & Huser & Hid) Hne. unfold post_history, user_id, insert_history.
  rewrite Huser, Hid. cbn [mbind result_bind bind to_integer].
  handler_cases; try apply same_records_refl.
  unfold same_records, sessions_of, history_of, reports_of. cbn.
  rewrite filter_snoc_false; [done|]. by apply owns_other.
Qed.

Lemma post_report_records a b req env db :
  authenticated_as b req → a ≠ b →
  same_records a db (post_report req env db).1.
Proof.
  intros (user & Huser & Hid) Hne. unfold post_report, user_id, insert_report.
  rewrite Huser, Hid. cbn [mbind result_bind bind to_integer].
  handler_cases; try apply same_records_refl.
  all: unfold same_records, sessions_of, history_of, reports_of; cbn.
  all: rewrite filter_snoc_false; [done|]; by apply owns_other.
Qed.

Lemma moves_from_final (P : request → Prop) (R : database → database → Prop)
    (h : handler) :
  (∀ req env db, P req → R db (h req env db).1) → moves_from P R (final h).
Proof.
  intros Hh req env db HP. unfold final. specialize (Hh req env db HP).
  by destruct (h req env db).
Qed.

Lemma run_chain_moves_from (P : request → Prop) (R : database → database → Prop)
    chain :
  (∀ db, R db db) → Forall (moves_from P R) chain →
  ∀ req env db, P req → R db (run_chain chain req env db).1.
Proof.
  intros Hrefl Hall. induction Hall as [|m chain Hm _ IH]; intros req env db HP.
  - apply Hrefl.
  - cbn [run_chain]. specialize (Hm req env db HP).
    destruct (m req env db) as [req'|db' r]; [by apply IH | exact Hm].
Qed.

Lemma run_chain_final (h : handler) req env db :
  run_chain [final h] req env db = h req env db.
Proof. cbn. unfold final. by destruct (h req env db). Qed.

Lemma routes_isolated a m path chain :
  In (m, path, chain) (routes env_JWT_SECRET) →
  chain = [final register] ∨ chain = [final (login env_JWT_SECRET)]
  ∨ ∃ rest, chain = authenticate :: rest
            ∧ Forall (moves_from (other_user a) (same_records a)) rest.
Proof.
  unfold routes. simpl. intros Hin.
  repeat (destruct Hin as [Heq | Hin]; [injection Heq as <- <- <-|]);
    try done; auto; right; right; eexists; (split; [reflexivity|]).
  all: repeat first
         [ apply Forall_nil_2
         | apply Forall_cons_2
         | by intros req env db HP
         | apply moves_from_final; intros req env db (b & Hb & Hne) ].
  - rewrite get_profile_pure. apply same_records_refl.
  - apply same_records_tables; apply put_profile_tables.
  - rewrite get_sessions_pure. apply same_records_refl.
  - by apply (post_session_records a b).
  - rewrite get_history_pure. apply same_records_refl.
  - by apply (post_history_records a b).
  - by apply (post_report_records a b).
  - rewrite get_reports_pure. apply same_records_refl.
Qed.

Lemma app_isolated a req env db :
  not_acting_as env_JWT_SECRET a req →
  same_records a db (app env_JWT_SECRET req env db).1.
Proof.
  intros Hreq. unfold app.
  destruct (route_of _ req) as [[[m path] chain]|] eqn:Hroute;
    [|apply same_records_refl].
  destruct (routes_isolated a m path chain (route_of_In _ _ Hroute))
    as [-> | [-> | (rest & -> & Hrest)]].
  - rewrite run_chain_final. apply same_records_tables; apply register_tables.
  - rewrite run_chain_final, login_pure. apply same_records_refl.
  - rewrite run_chain_authenticate. unfold authenticateToken.
    destruct (bearer_token req) as [[|c t]|] eqn:Htoken;
      try apply same_records_refl.
    destruct (jwt_verify _ _) as [user|] eqn:Hverify;
      [|apply same_records_refl].
    apply (run_chain_moves_from (other_user a));
      [apply same_records_refl | exact Hrest |].
    destruct (Hreq _ _ Htoken Hverify) as (b & Hb & Hne).
    exists b. split; [|done]. by exists user.
Qed.

Lemma serve_isolated a trace : ∀ db,
  Forall (λ step, not_acting_as env_JWT_SECRET a step.1) trace →
  same_records a db (serve env_JWT_SECRET trace db).
Proof.
  induction trace as [|[req env] trace IH]; intros db Hall; cbn [serve].
  - apply same_records_refl.
  - apply Forall_cons_1 in Hall as [Hreq Hall].
    eapply same_records_trans; [by apply app_isolated | by apply IH].
Qed.

Lemma select_history_owned a db :
  select_history (SInt a) db = order_by (asc h_created_at) (history_of a db).
Proof. reflexivity. Qed.

Lemma select_history_of_session_owned a sid db :
  select_history_of_session (SInt a) sid db
  = order_by (asc h_created_at)
      (List.filter (λ h, sql_eqb (h_session_id h) (to_integer sid))
         (history_of a db)).
Proof.
  unfold select_history_of_session, history_of, owns. cbn [to_integer].
  by rewrite filter_andb.
Qed.

Lemma get_history_same a req env db db' :
  authenticated_as a req →
  history_of a db' = history_of a db →
  (get_history req env db').2 = (get_history req env db).2.
Proof.
  intros (user & Huser & Hid) Hsame. unfold get_history, user_id.
  rewrite Huser, Hid. cbn [mbind result_bind bind].
  destruct (truthy _).
  - destruct (bind (prop (req_query req) "sessionId")) as [sid|]; cbn; [|done].
    by rewrite !select_history_of_session_owned, Hsame.
  - cbn. by rewrite !select_history_owned, Hsame.
Qed.

Lemma owned_rows {A : Type} (user_id : A → sqlval) a (rows l : list A) :
  rows ≡ₚ l → Forall (λ x, owns a (user_id x) = true) l →
  Forall (λ x, user_id x = SInt a) rows.
Proof.
  intros Hperm Hall. rewrite Hperm. eapply Forall_impl; [exact Hall|].
  intros x Hx. by apply sql_eqb_eq.
Qed.

Lemma Forall_filter {A : Type} (P : A → bool) (l : list A) :
  Forall (λ x, P x = true) (List.filter P l).
Proof.
  apply Forall_forall. intros x Hx.
  by apply list_elem_of_In, filter_In in Hx as [_ Hx].
Qed.

Lemma Forall_filter_of {A : Type} (P Q : A → bool) (l : list A) :
  Forall (λ x, P x = true) l → Forall (λ x, P x = true) (List.filter Q l).
Proof.
  rewrite !Forall_forall. intros Hall x Hx.
  apply list_elem_of_In, filter_In in Hx as [Hx _].
  by apply Hall, list_elem_of_In.
Qed.

(** C10. Take a user A and any run of the server in which no request is
    authenticated as A: each request either fails authentication, or is a
    registration or a login, or carries a token whose id is another
    number.  Then the replies A gets from GET /api/chat/sessions, GET
    /api/chat/history (whatever the query) and GET /api/reports are the
    same after the run as before it.  And whatever the store, the rows in
    those replies all have A's id as [user_id]; for the history this holds
    with no [sessionId] and with any, another user's session included. *)
Theorem records_are_private a req env db trace :
  authenticated_as a req →
  Forall (λ step, not_acting_as env_JWT_SECRET a step.1) trace →
  let db' := serve env_JWT_SECRET trace db in
  ((get_sessions req env db').2 = (get_sessions req env db).2
   ∧ (get_history req env db').2 = (get_history req env db).2
   ∧ (get_reports req env db').2 = (get_reports req env db).2)
  ∧ (∃ rows,
       get_sessions req env db' = (db', json_reply 200 (JsArr (session_json <$> rows)))
       ∧ Forall (λ s, s_user_id s = SInt a) rows)
  ∧ (∃ rows,
       get_reports req env db' = (db', json_reply 200 (JsArr (report_json <$> rows)))
       ∧ Forall (λ r, r_user_id r = SInt a) rows)
  ∧ (truthy (prop (req_query req) "sessionId") = false
     ∨ (∃ session, prop (req_query req) "sessionId" = JStr session) →
     ∃ rows,
       get_history req env db' = (db', json_reply 200 (JsArr (history_json <$> rows)))
       ∧ Forall (λ h, h_user_id h = SInt a) rows).
Proof.
  intros Hauth Htrace db'.
  destruct (serve_isolated a trace db Htrace) as (Hs & Hh & Hr). fold db' in Hs, Hh, Hr.
  split; [repeat split|repeat split].
  - by rewrite !(get_sessions_of _ _ _ a), Hs.
  - by apply (get_history_same a).
  - by rewrite !(get_reports_of _ _ _ a), Hr.
  - eexists. split; [by apply get_sessions_of|].
    eapply (owned_rows s_user_id); [apply order_by_perm|].
    apply (Forall_filter (λ s, owns a (s_user_id s))).
  - eexists. split; [by apply get_reports_of|].
    eapply (owned_rows r_user_id); [apply order_by_perm|].
    apply (Forall_filter (λ r, owns a (r_user_id r))).
  - intros [Hq | [session Hq]].
    + eexists. split; [by apply get_history_all|].
      eapply (owned_rows h_user_id); [apply order_by_perm|].
      apply (Forall_filter (λ h, owns a (h_user_id h))).
    + destruct (String.eqb_spec session "") as [-> | Hne].
      * eexists. split; [apply (get_history_all _ _ _ a); [done|by rewrite Hq]|].
        eapply (owned_rows h_user_id); [apply order_by_perm|].
        apply (Forall_filter (λ h, owns a (h_user_id h))).
      * eexists. split; [by apply (get_history_filtered _ _ _ a session)|].
        eapply (owned_rows h_user_id); [apply order_by_perm|].
        apply (Forall_filter_of (λ h, owns a (h_user_id h))).
        apply (Forall_filter (λ h, owns a (h_user_id h))).
Qed.

(** *** Roles *)

(** C7, as the code has it. When POST /api/chat/history is answered 200 it
    has stored exactly one row, whose role is the text of the [role] the
    request sent: a string as it is, a number as the text the engine
    renders it as.  The server and the schema check nothing more than that
    the role is not null, so the stored role is "user" or "assistant" when
    the caller sent one of those two strings. *)
Theorem stored_role_is_sent_role req env db :
  accepted (post_history req env db).2 = true →
  ∃ row,
    chat_history (post_history req env db).1 = chat_history db ++ [row]
    ∧ h_role row = text_of (prop (req_body req) "role")
    ∧ ((∃ s, prop (req_body req) "role" = JStr s)
       ∨ (∃ n, prop (req_body req) "role" = JNum n))
    ∧ (prop (req_body req) "role" = JStr "user"
       ∨ prop (req_body req) "role" = JStr "assistant" →
       h_role row = "user" ∨ h_role row = "assistant").
Proof.
  unfold post_history. intros Hok.
  destruct (_ ≫= _) as [[id db']|e] eqn:Hattempt; [|done].
  unfold mbind, result_bind in Hattempt.
  destruct (user_id req) as [uid|]; [|done].
  destruct (bind uid) as [u|]; [|done].
  destruct (bind (prop (req_body req) "role")) as [r|] eqn:Hr; [|done].
  destruct (bind (prop (req_body req) "content")) as [c|]; [|done].
  destruct (bind (prop (req_body req) "sessionId")) as [sid|]; [|done].
  apply insert_history_inv in Hattempt as (role & content & Hrole & _ & ->).
  eexists. split; [reflexivity|]. cbn [h_role].
  pose proof (to_text_bind _ _ _ Hr Hrole) as Htext.
  split; [done|]. split.
  - destruct (prop (req_body req) "role"); cbn in *; simplify_eq; eauto.
  - intros [Hsent | Hsent]; rewrite Hsent in Htext; cbn in Htext; auto.
Qed.
End ServerFacts.


(** ** More of [server.ts]: what every route does to the store *)

Section ServerExtras.
Context {jwt : Jwt} {bcrypt : Bcrypt} {engine : SqlEngine} {router : Router}.
Variable env_JWT_SECRET : option string.

#[local] Abbreviation authenticate' := (authenticateToken env_JWT_SECRET).
#[local] Abbreviation secret' := (JWT_SECRET env_JWT_SECRET).

(** Splits every branch a handler takes. *)
Ltac branches :=
  unfold mbind, result_bind, mret, result_ret in *;
  repeat (case_match; simplify_eq; cbn [fst snd] in * ).

(** *** The statements, inverted *)

Lemma insert_session_ok now uid t db id db' :
  insert_session now uid t db = Ok (id, db') →
  ∃ title,
    to_text t = Some title ∧ to_integer uid ≠ SNull
    ∧ references (u_id <$> users db) (to_integer uid) = true
    ∧ id = next_id (s_id <$> chat_sessions db)
    ∧ db' = {| users := users db;
               chat_sessions := chat_sessions db ++
                 [{| s_id := id; s_user_id := to_integer uid; s_title := title;
                     s_created_at := now |}];
               chat_history := chat_history db;
               medical_reports := medical_reports db |}.
Proof.
  unfold insert_session. intros Hi.
  destruct (to_integer uid) eqn:Hu; [done|..];
    (destruct (to_text t) as [title|]; [|done]);
    (destruct (references _ _) eqn:Href; [|done]);
    injection Hi as <- <-; by exists title.
Qed.

Lemma insert_history_ok now uid r c sid db id db' :
  insert_history now uid r c sid db = Ok (id, db') →
  ∃ role content,
    to_text r = Some role ∧ to_text c = Some content
    ∧ to_integer uid ≠ SNull
    ∧ references (u_id <$> users db) (to_integer uid) = true
    ∧ references (s_id <$> chat_sessions db) (to_integer sid) = true
    ∧ id = next_id (h_id <$> chat_history db)
    ∧ db' = {| users := users db;
               chat_sessions := chat_sessions db;
               chat_history := chat_history db ++
                 [{| h_id := id; h_user_id := to_integer uid;
                     h_session_id := to_integer sid; h_role := role;
                     h_content := content; h_created_at := now |}];
               medical_reports := medical_reports db |}.
Proof.
  unfold insert_history. intros Hi.
  destruct (to_integer uid) eqn:Hu; [done|..];
    (destruct (to_text r) as [role|]; [|done]);
    (destruct (to_text c) as [content|]; [|done]);
    (destruct (references _ _ && references _ _) eqn:Href; [|done]);
    apply andb_prop in Href as [Href1 Href2];
    injection Hi as <- <-; by exists role, content.
Qed.

Lemma insert_report_ok now uid f a db id db' :
  insert_report now uid f a db = Ok (id, db') →
  ∃ filename analysis,
    to_text f = Some filename ∧ to_text a = Some analysis
    ∧ to_integer uid ≠ SNull
    ∧ references (u_id <$> users db) (to_integer uid) = true
    ∧ id = next_id (r_id <$> medical_reports db)
    ∧ db' = {| users := users db;
               chat_sessions := chat_sessions db;
               chat_history := chat_history db;
               medical_reports := medical_reports db ++
                 [{| r_id := id; r_user_id := to_integer uid;
                     r_filename := filename; r_analysis := analysis;
                     r_created_at := now |}] |}.
Proof.
  unfold insert_report. intros Hi.
  destruct (to_integer uid) eqn:Hu; [done|..];
    (destruct (to_text f) as [filename|]; [|done]);
    (destruct (to_text a) as [analysis|]; [|done]);
    (destruct (references _ _) eqn:Href; [|done]);
    injection Hi as <- <-; by exists filename, analysis.
Qed.

(** *** What each handler does *)

Lemma register_effect req env db :
  ((register req env db).1 = db ∧ succeeded (register req env db).2 = false
   ∧ ∃ status message,
       (register req env db).2
       = json_reply status (JsObj [("error", JsStr message)])
       ∧ (status = 400 ∨ status = 500))
  ∨ ∃ row password,
      register req env db
      = ({| users := users db ++ [row];
            chat_sessions := chat_sessions db;
            chat_history := chat_history db;
            medical_reports := medical_reports db |},
         json_reply 201 (JsObj [("id", JsNum (u_id row))]))
      ∧ u_id row = next_id (u_id <$> users db)
      ∧ existsb (String.eqb (u_email row)) (u_email <$> users db) = false
      ∧ prop (req_body req) "password" = JStr password
      ∧ u_password row = bcrypt_hash password (salt env)
      ∧ (bind (prop (req_body req) "email") ≫= λ v, Ok (to_text v))
        = Ok (Some (u_email row))
      ∧ (bind (prop (req_body req) "firstName") ≫= λ v, Ok (to_text v))
        = Ok (u_first_name row)
      ∧ (bind (prop (req_body req) "lastName") ≫= λ v, Ok (to_text v))
        = Ok (u_last_name row)
      ∧ u_mobile row = None ∧ u_blood_group row = None
      ∧ u_personal_notes row = None ∧ u_created_at row = clock env.
Proof.
  unfold register.
  destruct (_ ≫= _) as [[id db']|e] eqn:Hattempt.
  - right. unfold mbind, result_bind in Hattempt.
    destruct (hash_password _ _) as [hashed|] eqn:Hhash; [|done].
    destruct (bind (prop (req_body req) "email")) as [e|] eqn:He; [|done].
    cbn [bind] in Hattempt.
    destruct (bind (prop (req_body req) "firstName")) as [f|] eqn:Hf; [|done].
    destruct (bind (prop (req_body req) "lastName")) as [l|] eqn:Hl; [|done].
    apply insert_user_inv in Hattempt
      as (email & password & Hemail & [= <-] & Hfresh & Hid & ->).
    unfold hash_password in Hhash.
    destruct (prop (req_body req) "password") as [| | | |p]; simplify_eq.
    exists {| u_id := next_id (u_id <$> users db); u_email := email;
              u_password := bcrypt_hash p (salt env);
              u_first_name := to_text f; u_last_name := to_text l;
              u_mobile := None; u_blood_group := None;
              u_personal_notes := None; u_created_at := clock env |}, p.
    unfold mbind, result_bind. cbn. rewrite Hemail. repeat split; done.
  - left. destruct (_ && _); cbn; (split; [done|]); (split; [done|]); eauto.
Qed.

Lemma put_profile_effect req env db :
  (∃ e, put_profile req env db = (db, Raised e))
  ∨ ∃ f l m b n id,
      put_profile req env db
      = (update_profile f l m b n id db, json_reply 200 success).
Proof. unfold put_profile. branches; eauto 10. Qed.

Lemma post_session_effect req env db :
  (∃ e, post_session req env db = (db, Raised e))
  ∨ ∃ row,
      post_session req env db
      = ({| users := users db;
            chat_sessions := chat_sessions db ++ [row];
            chat_history := chat_history db;
            medical_reports := medical_reports db |},
         json_reply 200 (JsObj [("id", JsNum (s_id row))]))
      ∧ s_id row = next_id (s_id <$> chat_sessions db)
      ∧ s_user_id row ≠ SNull
      ∧ references (u_id <$> users db) (s_user_id row) = true
      ∧ s_created_at row = clock env.
Proof.
  unfold post_session.
  destruct (_ ≫= _) as [[id db']|e] eqn:Hattempt; [right|left; eauto].
  unfold mbind, result_bind in Hattempt. repeat (case_match; simplify_eq).
  apply insert_session_ok in Hattempt as (title & _ & Hnn & Href & -> & ->).
  by eexists {| s_id := _ |}.
Qed.

Lemma post_history_effect req env db :
  (∃ e, post_history req env db = (db, Raised e))
  ∨ ∃ row,
      post_history req env db
      = ({| users := users db;
            chat_sessions := chat_sessions db;
            chat_history := chat_history db ++ [row];
            medical_reports := medical_reports db |},
         json_reply 200 success)
      ∧ h_id row = next_id (h_id <$> chat_history db)
      ∧ h_user_id row ≠ SNull
      ∧ references (u_id <$> users db) (h_user_id row) = true
      ∧ references (s_id <$> chat_sessions db) (h_session_id row) = true
      ∧ h_created_at row = clock env.
Proof.
  unfold post_history.
  destruct (_ ≫= _) as [[id db']|e] eqn:Hattempt; [right|left; eauto].
  unfold mbind, result_bind in Hattempt. repeat (case_match; simplify_eq).
  apply insert_history_ok in Hattempt
    as (role & content & _ & _ & Hnn & Hr1 & Hr2 & -> & ->).
  by eexists {| h_id := _ |}.
Qed.

Lemma post_report_effect req env db :
  (∃ e, post_report req env db = (db, Raised e))
  ∨ ∃ row,
      post_report req env db
      = ({| users := users db;
            chat_sessions := chat_sessions db;
            chat_history := chat_history db;
            medical_reports := medical_reports db ++ [row] |},
         json_reply 200 success)
      ∧ r_id row = next_id (r_id <$> medical_reports db)
      ∧ r_user_id row ≠ SNull
      ∧ references (u_id <$> users db) (r_user_id row) = true
      ∧ r_created_at row = clock env.
Proof.
  unfold post_report.
  destruct (_ ≫= _) as [[id db']|e] eqn:Hattempt; [right|left; eauto].
  unfold mbind, result_bind in Hattempt.
  destruct (user_id req) as [uid|]; [|done].
  destruct (bind uid) as [u|]; [|done].
  cbn [bind] in Hattempt.
  destruct (bind (prop (req_body req) "analysis")) as [a|]; [|done].
  apply insert_report_ok in Hattempt
    as (filename & analysis & _ & _ & Hnn & Href & -> & ->).
  by eexists {| r_id := _ |}.
Qed.

(** *** Every request is one transition *)

Lemma answers_final (Q : database → database → reply → Prop) (h : handler) :
  (∀ req env db, Q db (h req env db).1 (h req env db).2) → answers Q (final h).
Proof.
  intros Hh req env db. unfold final. specialize (Hh req env db).
  by destruct (h req env db).
Qed.

Lemma answers_authenticate (Q : database → database → reply → Prop) :
  (∀ db r, Q db db r) → answers Q authenticate'.
Proof.
  intros Hsame req env db. unfold authenticateToken.
  destruct (bearer_token req) as [[|c t]|]; try apply Hsame.
  destruct (jwt_verify _ _); [done | apply Hsame].
Qed.

Lemma run_chain_answers (Q : database → database → reply → Prop) chain :
  (∀ db r, Q db db r) → Forall (answers Q) chain →
  ∀ req env db,
    Q db (run_chain chain req env db).1 (run_chain chain req env db).2.
Proof.
  intros Hsame Hall. induction Hall as [|m chain Hm _ IH]; intros req env db.
  - apply Hsame.
  - cbn [run_chain]. specialize (Hm req env db).
    destruct (m req env db) as [req'|db' r]; [apply IH | exact Hm].
Qed.

Lemma pure_transition (h : handler) req env db :
  (h req env db).1 = db → transition db (h req env db).1 (h req env db).2.
Proof. intros ->. constructor. Qed.

Lemma register_transition req env db :
  transition db (register req env db).1 (register req env db).2.
Proof.
  destruct (register_effect req env db)
    as [(Hsame & _) | (row & p & -> & Hid & Hfresh & _)].
  - by apply pure_transition.
  - by apply new_user.
Qed.

Lemma put_profile_transition req env db :
  transition db (put_profile req env db).1 (put_profile req env db).2.
Proof.
  destruct (put_profile_effect req env db)
    as [(e & ->) | (f & l & m & b & n & id & ->)]; by constructor.
Qed.

Lemma post_session_transition req env db :
  transition db (post_session req env db).1 (post_session req env db).2.
Proof.
  destruct (post_session_effect req env db)
    as [(e & ->) | (row & -> & ? & ? & ? & _)]; by constructor.
Qed.

Lemma post_history_transition req env db :
  transition db (post_history req env db).1 (post_history req env db).2.
Proof.
  destruct (post_history_effect req env db)
    as [(e & ->) | (row & -> & ? & ? & ? & ? & _)]; by constructor.
Qed.

Lemma post_report_transition req env db :
  transition db (post_report req env db).1 (post_report req env db).2.
Proof.
  destruct (post_report_effect req env db)
    as [(e & ->) | (row & -> & ? & ? & ? & _)]; by constructor.
Qed.

Lemma routes_transition :
  Forall (λ r, Forall (answers transition) r.2) (routes env_JWT_SECRET).
Proof.
  unfold routes.
  repeat first
    [ apply Forall_nil_2
    | apply Forall_cons_2
    | apply answers_authenticate; by constructor
    | by intros req env db
    | apply answers_final; intros req env db ]; cbn [snd].
  - apply register_transition.
  - apply pure_transition, login_pure.
  - apply pure_transition, get_profile_pure.
  - apply put_profile_transition.
  - apply pure_transition, get_sessions_pure.
  - apply post_session_transition.
  - apply pure_transition, get_history_pure.
  - apply post_history_transition.
  - apply post_report_transition.
  - apply pure_transition, get_reports_pure.
Qed.

Lemma app_transition req env db :
  transition db (app env_JWT_SECRET req env db).1 (app env_JWT_SECRET req env db).2.
Proof.
  unfold app. destruct (route_of _ req) as [[[m path] chain]|] eqn:Hroute.
  - apply run_chain_answers; [by constructor|].
    apply route_of_In, list_elem_of_In in Hroute.
    pose proof routes_transition as Hall.
    rewrite Forall_forall in Hall. apply (Hall _ Hroute).
  - constructor.
Qed.

(** X1. A request that is not answered with status 200 or 201 (a 400, 401,
    403 or 500, an exception in a handler, an unknown route) leaves every
    table exactly as it was. *)
Theorem failed_request_changes_nothing req env db :
  succeeded (app env_JWT_SECRET req env db).2 = false →
  (app env_JWT_SECRET req env db).1 = db.
Proof.
  intros Hfailed. destruct (app_transition req env db); congruence.
Qed.

(** *** The store only grows *)

Lemma grows_refl db : grows db db.
Proof. by repeat split. Qed.

Lemma grows_trans db1 db2 db3 : grows db1 db2 → grows db2 db3 → grows db1 db3.
Proof.
  intros (Hu & Hs & Hh & Hr) (Hu' & Hs' & Hh' & Hr').
  repeat split; by etrans.
Qed.

Lemma update_profile_identity f l m b n id db :
  identity_columns (update_profile f l m b n id db) = identity_columns db.
Proof.
  unfold identity_columns, update_profile. cbn [users].
  rewrite <- list_fmap_compose. apply list_fmap_ext.
  intros i u _. cbn. by case_match.
Qed.

Lemma transition_grows db db' r : transition db db' r → grows db db'.
Proof.
  destruct 1; unfold grows;
    (split; [|cbn; repeat split; try done; by eexists]).
  - done.
  - unfold identity_columns. cbn. rewrite fmap_app. by eexists.
  - by rewrite update_profile_identity.
  - done.
  - done.
  - done.
Qed.

(** X2. No run of the server removes, reorders or rewrites a stored row: a
    session, a history entry or a report that is stored stays as it is, at
    its place in its table, and a user keeps id, email, password hash and
    creation time; every table after the run is the table before it with,
    maybe, more rows at its end. *)
Theorem store_only_grows trace db :
  grows db (serve env_JWT_SECRET trace db).
Proof.
  revert db. induction trace as [|[req env] trace IH]; intros db; cbn [serve].
  - apply grows_refl.
  - eapply grows_trans; [|apply IH].
    apply (transition_grows _ _ _ (app_transition req env db)).
Qed.

(** *** Keys *)

Lemma next_id_above ids id : id ∈ ids → id < next_id ids.
Proof.
  unfold next_id. induction ids as [|x ids IH]; cbn; [by intros ?%elem_of_nil|].
  intros [-> | Hin]%elem_of_cons; [lia|]. specialize (IH Hin). lia.
Qed.

Lemma next_id_fresh ids : next_id ids ∉ ids.
Proof. intros Hin%next_id_above. lia. Qed.

Lemma NoDup_snoc {A : Type} (l : list A) (x : A) :
  NoDup l → x ∉ l → NoDup (l ++ [x]).
Proof.
  intros Hl Hx. apply NoDup_app. split; [done|]. split; [|apply NoDup_singleton].
  intros y Hy ->%list_elem_of_singleton. done.
Qed.

Lemma email_fresh email (emails : list string) :
  existsb (String.eqb email) emails = false → email ∉ emails.
Proof.
  intros Hfresh Hin. apply list_elem_of_In in Hin.
  assert (existsb (String.eqb email) emails = true) as Htaken; [|congruence].
  apply existsb_exists. exists email. split; [done | apply String.eqb_refl].
Qed.

Lemma update_profile_ids f l m b n id db :
  u_id <$> users (update_profile f l m b n id db) = u_id <$> users db.
Proof.
  unfold update_profile. cbn [users]. rewrite <- list_fmap_compose.
  apply list_fmap_ext. intros i u _. cbn. by case_match.
Qed.

Lemma update_profile_emails f l m b n id db :
  u_email <$> users (update_profile f l m b n id db) = u_email <$> users db.
Proof.
  unfold update_profile. cbn [users]. rewrite <- list_fmap_compose.
  apply list_fmap_ext. intros i u _. cbn. by case_match.
Qed.

Lemma transition_unique_keys db db' r :
  transition db db' r → unique_keys db → unique_keys db'.
Proof.
  intros Hstep (Hu & He & Hs & Hh & Hr).
  destruct Hstep as [ | row ? _ Hid Hfresh | | row ? _ Hid _ _
                    | row ? _ Hid _ _ _ | row ? _ Hid _ _ ];
    unfold unique_keys; cbn [users chat_sessions chat_history medical_reports];
    rewrite ?fmap_app, ?update_profile_ids, ?update_profile_emails;
    cbn [fmap list_fmap]; repeat split; try done;
    apply NoDup_snoc; try done;
    rewrite ?Hid; try apply next_id_fresh.
  by apply email_fresh.
Qed.

(** X3. The keys of the schema hold through every run: if no two rows of a
    table share an id and no two users share an email, the same is true
    after the server has served any requests.  New ids are one above the
    largest id of the table, and a registration with a stored email is
    refused. *)
Theorem keys_stay_unique trace db :
  unique_keys db → unique_keys (serve env_JWT_SECRET trace db).
Proof.
  revert db. induction trace as [|[req env] trace IH]; intros db Hdb; cbn [serve].
  - done.
  - apply IH. apply (transition_unique_keys _ _ _ (app_transition req env db) Hdb).
Qed.

(** *** Foreign keys *)

Lemma references_spec parents v :
  foreign_keys = true → references parents v = true →
  v = SNull ∨ ∃ id, id ∈ parents ∧ v = SInt id.
Proof.
  intros Hfk. unfold references. rewrite Hfk. cbn.
  destruct v as [|n|s]; [by left|..]; intros (id & Hin & Heq)%existsb_exists;
    right; exists id; (split; [by apply list_elem_of_In|]);
    symmetry; by apply sql_eqb_eq.
Qed.

Lemma is_user_ids db v :
  is_user db v ↔ ∃ id, id ∈ u_id <$> users db ∧ v = SInt id.
Proof.
  unfold is_user. split.
  - intros (u & Hu & ->). exists (u_id u). split; [|done].
    apply list_elem_of_fmap. eauto.
  - intros (id & (u & -> & Hu)%list_elem_of_fmap & ->). eauto.
Qed.

Lemma is_session_ids db v :
  is_session db v ↔ ∃ id, id ∈ s_id <$> chat_sessions db ∧ v = SInt id.
Proof.
  unfold is_session. split.
  - intros (s & Hs & ->). exists (s_id s). split; [|done].
    apply list_elem_of_fmap. eauto.
  - intros (id & (s & -> & Hs)%list_elem_of_fmap & ->). eauto.
Qed.

Lemma referential_kept db db' :
  u_id <$> users db ⊆ u_id <$> users db' →
  s_id <$> chat_sessions db ⊆ s_id <$> chat_sessions db' →
  Forall (λ s, is_user db (s_user_id s)) (chat_sessions db) →
  Forall (λ h, is_user db (h_user_id h)
               ∧ (h_session_id h = SNull ∨ is_session db (h_session_id h)))
    (chat_history db) →
  Forall (λ r, is_user db (r_user_id r)) (medical_reports db) →
  Forall (λ s, is_user db' (s_user_id s)) (chat_sessions db)
  ∧ Forall (λ h, is_user db' (h_user_id h)
                 ∧ (h_session_id h = SNull ∨ is_session db' (h_session_id h)))
      (chat_history db)
  ∧ Forall (λ r, is_user db' (r_user_id r)) (medical_reports db).
Proof.
  intros Hu Hs Hss Hhs Hrs.
  assert (∀ v, is_user db v → is_user db' v) as Huser.
  { intros v (id & Hid & ->)%is_user_ids. apply is_user_ids. eauto. }
  assert (∀ v, is_session db v → is_session db' v) as Hsession.
  { intros v (id & Hid & ->)%is_session_ids. apply is_session_ids. eauto. }
  repeat split.
  - eapply Forall_impl; [exact Hss|]. intros s. apply Huser.
  - eapply Forall_impl; [exact Hhs|]. intros h [Hh [Hn | Hs']]; auto.
  - eapply Forall_impl; [exact Hrs|]. intros r. apply Huser.
Qed.

Lemma new_row_user db v :
  foreign_keys = true → v ≠ SNull →
  references (u_id <$> users db) v = true → is_user db v.
Proof.
  intros Hfk Hnn Href. apply is_user_ids.
  by destruct (references_spec _ _ Hfk Href).
Qed.

Lemma transition_referential db db' r :
  foreign_keys = true →
  transition db db' r → referential db → referential db'.
Proof.
  intros Hfk Hstep (Hss & Hhs & Hrs).
  destruct Hstep as [ | row ? _ _ _ | | row ? _ _ Hnn Href
                    | row ? _ _ Hnn Href Href' | row ? _ _ Hnn Href ].
  - done.
  - apply (referential_kept db); try done.
    cbn. rewrite fmap_app. by apply list_subseteq_app_l.
  - apply (referential_kept db); try done.
    by rewrite update_profile_ids.
  - destruct (referential_kept db
                {| users := users db; chat_sessions := chat_sessions db ++ [row];
                   chat_history := chat_history db;
                   medical_reports := medical_reports db |})
      as (Hss' & Hhs' & Hrs'); try done.
    { cbn. rewrite fmap_app. by apply list_subseteq_app_l. }
    unfold referential. cbn. repeat split; try done.
    apply Forall_app. split; [done|]. constructor; [|done].
    by apply (new_row_user db).
  - unfold referential. cbn. repeat split; try done.
    apply Forall_app. split; [done|]. constructor; [|done]. split.
    + by apply (new_row_user db).
    + destruct (references_spec _ _ Hfk Href') as [? | Hid]; [by left|].
      right. by apply (is_session_ids db).
  - unfold referential. cbn. repeat split; try done.
    apply Forall_app. split; [done|]. constructor; [|done].
    by apply (new_row_user db).
Qed.

(** X4. When the engine enforces foreign keys, they hold through every
    run: if every session, history entry and report belongs to a stored
    user, and every history entry has no session or a stored one, the same
    is true after the server has served any requests. *)
Theorem references_stay_valid trace db :
  foreign_keys = true →
  referential db → referential (serve env_JWT_SECRET trace db).
Proof.
  intros Hfk. revert db.
  induction trace as [|[req env] trace IH]; intros db Hdb; cbn [serve].
  - done.
  - apply IH.
    apply (transition_referential _ _ _ Hfk (app_transition req env db) Hdb).
Qed.

(** *** Registration and login *)

Lemma find_fresh_id (us : list user_row) (row : user_row) :
  u_id row = next_id (u_id <$> us) →
  List.find (λ u, sql_eqb (SInt (u_id u)) (SInt (u_id row))) (us ++ [row])
  = Some row.
Proof.
  intros Hid. rewrite find_app_None.
  - cbn. by rewrite Z.eqb_refl.
  - apply find_existsb_false. apply not_true_is_false.
    intros (u & Hu & Heq)%existsb_exists. cbn in Heq. apply Z.eqb_eq in Heq.
    apply (next_id_fresh (u_id <$> us)). rewrite <- Hid, <- Heq.
    apply list_elem_of_fmap. exists u. split; [done|]. by apply list_elem_of_In.
Qed.

(** X5. A registration answered 201 can be read back: GET /api/user/profile
    for the id of the reply returns that id, the email and the two names
    that were sent, and null for mobile, blood group and notes. *)
Theorem registered_profile req env db db' id email first_name last_name req' env' :
  prop (req_body req) "email" = JStr email →
  prop (req_body req) "firstName" = text_value first_name →
  prop (req_body req) "lastName" = text_value last_name →
  register req env db = (db', json_reply 201 (JsObj [("id", JsNum id)])) →
  authenticated_as id req' →
  get_profile req' env' db'
  = (db', json_reply 200
            (JsObj [("id", JsNum id); ("email", JsStr email);
                    ("first_name", json_of_text first_name);
                    ("last_name", json_of_text last_name);
                    ("mobile", JsNull); ("blood_group", JsNull);
                    ("personal_notes", JsNull)])).
Proof.
  intros Hemail Hfirst Hlast Hregister (user & Huser & Hid).
  destruct (register_effect req env db)
    as [(_ & Hfailed & _) | (row & p & Hreply & Hrow & _ & _ & _ & He & Hf & Hl
                              & Hm & Hb & Hn & _)].
  { by rewrite Hregister in Hfailed. }
  rewrite Hregister in Hreply. injection Hreply as -> ->.
  rewrite Hemail in He. rewrite Hfirst in Hf. rewrite Hlast in Hl.
  destruct (bind_text_value first_name) as (f & Hbf & <-).
  destruct (bind_text_value last_name) as (l & Hbl & <-).
  rewrite Hbf in Hf. rewrite Hbl in Hl. cbn in He, Hf, Hl.
  injection He as He. injection Hf as Hf. injection Hl as Hl.
  unfold get_profile, user_id. rewrite Huser, Hid. cbn [mbind result_bind bind].
  unfold mbind, result_bind, select_user_by_id. cbn [users to_integer].
  rewrite (find_fresh_id _ _ Hrow). cbn. unfold profile_json.
  by rewrite <- He, Hf, Hl, Hm, Hb, Hn.
Qed.

Lemma bind_error v e : bind v = Err e → e = BindTypeError.
Proof. destruct v; cbn; congruence. Qed.

(** X6. POST /api/auth/register answers 400 exactly when the password is a
    string, neither the email nor a name is a boolean (a name may be a
    string, a number, null or left out), the email is not null or left
    out, and its text is already stored.  Every other refusal (no string
    password, a boolean field, no email) is not a 400. *)
Theorem register_400_iff req env db :
  (register req env db).2
  = json_reply 400 (JsObj [("error", JsStr duplicate_account)])
  ↔ ∃ password e email f l,
      prop (req_body req) "password" = JStr password
      ∧ bind (prop (req_body req) "email") = Ok e
      ∧ to_text e = Some email
      ∧ bind (prop (req_body req) "firstName") = Ok f
      ∧ bind (prop (req_body req) "lastName") = Ok l
      ∧ existsb (String.eqb email) (u_email <$> users db) = true.
Proof.
  unfold register. split.
  - unfold hash_password, mbind, result_bind.
    destruct (prop (req_body req) "password") as [| | | |password];
      cbn; try done.
    destruct (bind (prop (req_body req) "email")) as [e|?] eqn:He;
      [|apply bind_error in He as ->; done].
    destruct (bind (prop (req_body req) "firstName")) as [f|?] eqn:Hf;
      [|apply bind_error in Hf as ->; done].
    destruct (bind (prop (req_body req) "lastName")) as [l|?] eqn:Hl;
      [|apply bind_error in Hl as ->; done].
    unfold insert_user. cbn [to_text].
    destruct (to_text e) as [email|] eqn:Hemail; [|done].
    destruct (existsb _ _) eqn:Htaken; [|done].
    intros _. by exists password, e, email, f, l.
  - intros (password & e & email & f & l & -> & -> & Hemail & -> & -> & Htaken).
    cbn [hash_password bind]. unfold mbind, result_bind, insert_user.
    cbn [to_text]. rewrite Hemail.
    change (map u_email (users db)) with (u_email <$> users db).
    by rewrite Htaken.
Qed.

(** X7. POST /api/auth/login gives the same answer, 401 "Invalid
    credentials", to an email that is not stored and to a stored email with
    a password that bcrypt does not accept; it answers 200 only when the
    first user with that email is found and bcrypt accepts the password.
    Either way the store is unchanged. *)
Theorem login_refusals req env db email :
  prop (req_body req) "email" = JStr email →
  (credentials_of email db = None →
   login env_JWT_SECRET req env db
   = (db, json_reply 401 (JsObj [("error", JsStr "Invalid credentials")])))
  ∧ (∀ id e hash password,
       credentials_of email db = Some (id, e, hash) →
       prop (req_body req) "password" = JStr password →
       bcrypt_compare password hash = false →
       login env_JWT_SECRET req env db
       = (db, json_reply 401 (JsObj [("error", JsStr "Invalid credentials")])))
  ∧ (succeeded (login env_JWT_SECRET req env db).2 = true →
     ∃ id hash password,
       credentials_of email db = Some (id, email, hash)
       ∧ prop (req_body req) "password" = JStr password
       ∧ bcrypt_compare password hash = true).
Proof.
  intros Hemail. repeat split.
  - intros Hnone. rewrite <- select_user_by_email_credentials in Hnone.
    unfold login. rewrite Hemail. cbn [bind].
    by destruct (select_user_by_email _ _).
  - intros id e hash password Hcred Hpassword Hwrong.
    rewrite <- select_user_by_email_credentials in Hcred.
    unfold login. rewrite Hemail, Hpassword. cbn [bind compare_password].
    destruct (select_user_by_email _ _) as [u|]; [|done].
    injection Hcred as _ _ ->. by rewrite Hwrong.
  - unfold login. rewrite Hemail. cbn [bind].
    rewrite <- select_user_by_email_credentials.
    destruct (select_user_by_email _ _) as [u|] eqn:Hu; [|done].
    unfold compare_password.
    destruct (prop (req_body req) "password") as [| | | |password]; try done.
    destruct (bcrypt_compare _ _) eqn:Hok; [|done].
    intros _. exists (u_id u), (u_password u), password.
    unfold select_user_by_email in Hu. cbn in Hu.
    apply find_some in Hu as [_ Heq%String.eqb_eq]. cbn. by rewrite Heq.
Qed.

(** *** Sessions, reports, profile and history: edges *)

Lemma references_int parents id :
  id ∈ parents → references parents (SInt id) = true.
Proof.
  intros Hin. unfold references. apply orb_true_iff. right.
  apply existsb_exists. exists id. split; [by apply list_elem_of_In|].
  cbn. apply Z.eqb_refl.
Qed.

Lemma references_int_missing parents id :
  foreign_keys = true → id ∉ parents → references parents (SInt id) = false.
Proof.
  intros Hfk Hout. unfold references. rewrite Hfk. cbn.
  apply not_true_is_false. intros (x & Hx & Heq)%existsb_exists.
  cbn in Heq. apply Z.eqb_eq in Heq as ->. by apply Hout, list_elem_of_In.
Qed.

(** X8. POST /api/chat/sessions with a string title, by a user the store
    knows (or with foreign keys off), answers 200 with an id above every id
    of the table; GET /api/chat/sessions then lists the user's earlier
    sessions and the new one, which carries that id, the title and the
    time of creation. *)
Theorem session_round_trip uid req env db title req' env' :
  authenticated_as uid req → authenticated_as uid req' →
  prop (req_body req) "title" = JStr title →
  references (u_id <$> users db) (SInt uid) = true →
  ∃ db' id rows,
    post_session req env db = (db', json_reply 200 (JsObj [("id", JsNum id)]))
    ∧ Forall (λ s, s_id s < id) (chat_sessions db)
    ∧ get_sessions req' env' db'
      = (db', json_reply 200 (JsArr (session_json <$> rows)))
    ∧ rows ≡ₚ sessions_of uid db ++
               [{| s_id := id; s_user_id := SInt uid; s_title := title;
                   s_created_at := clock env |}].
Proof.
  intros (user & Huser & Hid) Hreq' Htitle Href.
  eexists _, (next_id (s_id <$> chat_sessions db)), _. split; [|split; [|split]].
  - unfold post_session, user_id. rewrite Huser, Hid, Htitle.
    cbn [mbind result_bind bind]. unfold mbind, result_bind, insert_session.
    cbn [to_integer to_text].
    change (map u_id (users db)) with (u_id <$> users db). rewrite Href.
    reflexivity.
  - apply Forall_forall. intros s Hs. apply next_id_above.
    apply list_elem_of_fmap. eauto.
  - by apply get_sessions_of.
  - rewrite order_by_perm. unfold sessions_of. cbn [chat_sessions].
    rewrite List.filter_app. cbn. unfold owns. cbn. by rewrite Z.eqb_refl.
Qed.

(** X9. POST /api/reports/upload stores the analysis under the original
    name of the uploaded file, and under "report.pdf" when there is no
    file or its name is empty; GET /api/reports then lists the user's
    earlier reports and the new one. *)
Theorem report_round_trip uid req env db analysis req' env' :
  authenticated_as uid req → authenticated_as uid req' →
  prop (req_body req) "analysis" = JStr analysis →
  references (u_id <$> users db) (SInt uid) = true →
  ∃ db' filename rows,
    post_report req env db = (db', json_reply 200 success)
    ∧ (req_file req = None ∨ req_file req = Some "" → filename = "report.pdf")
    ∧ (∀ name, req_file req = Some name → name ≠ "" → filename = name)
    ∧ get_reports req' env' db'
      = (db', json_reply 200 (JsArr (report_json <$> rows)))
    ∧ rows ≡ₚ reports_of uid db ++
               [{| r_id := next_id (r_id <$> medical_reports db);
                   r_user_id := SInt uid; r_filename := filename;
                   r_analysis := analysis; r_created_at := clock env |}].
Proof.
  intros (user & Huser & Hid) Hreq' Hanalysis Href.
  eexists _, (match req_file req with
              | None | Some "" => "report.pdf"
              | Some originalname => originalname
              end), _.
  split; [|split; [|split; [|split]]].
  - unfold post_report, user_id. rewrite Huser, Hid, Hanalysis.
    cbn [mbind result_bind bind]. unfold mbind, result_bind, insert_report.
    cbn [to_integer to_text].
    change (map u_id (users db)) with (u_id <$> users db). rewrite Href.
    reflexivity.
  - by intros [-> | ->].
  - intros name -> Hname. by destruct name.
  - by apply get_reports_of.
  - rewrite order_by_perm. unfold reports_of. cbn [medical_reports].
    rewrite List.filter_app. cbn. unfold owns. cbn. by rewrite Z.eqb_refl.
Qed.

Lemma map_unmatched {A : Type} (P : A → bool) (g : A → A) (l : list A) :
  List.find P l = None → map (λ a, if P a then g a else a) l = l.
Proof.
  induction l as [|a l IH]; cbn; [done|].
  destruct (P a); [done|]. intros Hnone. by rewrite IH.
Qed.

Lemma update_profile_no_row f l m b n id db :
  select_user_by_id id db = None → update_profile f l m b n id db = db.
Proof.
  unfold select_user_by_id, update_profile. intros Hnone.
  rewrite (map_unmatched (λ u, sql_eqb (SInt (u_id u)) (to_integer id)) _ _ Hnone).
  by destruct db.
Qed.

(** X10. PUT /api/user/profile for an id that matches no stored user
    answers 200 "success" all the same, and the store is left exactly as
    it was. *)
Theorem profile_update_without_user uid req env db
    first_name last_name mobile blood_group personal_notes :
  authenticated_as uid req →
  select_user_by_id (SInt uid) db = None →
  prop (req_body req) "firstName" = text_value first_name →
  prop (req_body req) "lastName" = text_value last_name →
  prop (req_body req) "mobile" = text_value mobile →
  prop (req_body req) "bloodGroup" = text_value blood_group →
  prop (req_body req) "personalNotes" = text_value personal_notes →
  put_profile req env db = (db, json_reply 200 success).
Proof.
  intros (user & Huser & Hid) Hnone Hf Hl Hm Hb Hn.
  destruct (bind_text_value first_name) as (f & Hbf & _).
  destruct (bind_text_value last_name) as (l & Hbl & _).
  destruct (bind_text_value mobile) as (m & Hbm & _).
  destruct (bind_text_value blood_group) as (b & Hbb & _).
  destruct (bind_text_value personal_notes) as (n & Hbn & _).
  unfold put_profile, user_id. rewrite Huser, Hid, Hf, Hl, Hm, Hb, Hn.
  unfold mbind, result_bind. rewrite Hbf, Hbl, Hbm, Hbb, Hbn. cbn [bind mret result_ret].
  by rewrite update_profile_no_row.
Qed.

(** X11. A field left out of the body of PUT /api/user/profile is not
    kept: it is bound as NULL like the others, the answer is 200, and the
    column of the user's row is NULL afterwards, whatever it held before.
    The row is still the user's, with the same id and email. *)
Theorem profile_update_missing_field uid req env db u field :
  authenticated_as uid req →
  select_user_by_id (SInt uid) db = Some u →
  Forall (λ k, ∀ b, prop (req_body req) k ≠ JBool b) profile_fields →
  field ∈ profile_fields →
  req_body req !! field = None →
  ∃ db' u',
    put_profile req env db = (db', json_reply 200 success)
    ∧ select_user_by_id (SInt uid) db' = Some u'
    ∧ profile_column field u' = None
    ∧ u_id u' = u_id u ∧ u_email u' = u_email u.
Proof.
  intros Hreq Hu Hfields Hfield Hnone.
  destruct (put_profile_stored uid req env db Hreq Hfields)
    as (f & l & m & b & n & Hput & Hf & Hl & Hm & Hb & Hn).
  pose proof (select_user_by_id_updated f l m b n uid db u Hu) as Hu'.
  eexists _, _. split; [exact Hput|]. split; [exact Hu'|].
  split; [|done].
  assert (stored_text (prop (req_body req) field) = None) as Herased.
  { unfold prop. by rewrite Hnone. }
  unfold profile_fields in Hfield.
  repeat (apply elem_of_cons in Hfield as [-> | Hfield];
          [cbn; congruence|]).
  by apply elem_of_nil in Hfield.
Qed.

(** X19. A boolean in one of the five fields of PUT /api/user/profile is
    refused when it is bound: the handler throws, no column of any row is
    written, whatever the other fields hold. *)
Theorem profile_update_boolean_field uid req env db field flag :
  authenticated_as uid req →
  field ∈ profile_fields →
  prop (req_body req) field = JBool flag →
  put_profile req env db = (db, Raised BindTypeError).
Proof.
  intros (user & Huser & Hid) Hfield Hflag.
  assert (bind (prop (req_body req) field) = Err BindTypeError) as Hrefused.
  { by rewrite Hflag. }
  unfold put_profile, user_id. rewrite Huser, Hid. cbn [mbind result_bind bind].
  unfold mbind, result_bind.
  destruct (bind (prop (req_body req) "firstName")) as [f|?] eqn:Hf;
    [|by apply bind_error in Hf as ->].
  destruct (bind (prop (req_body req) "lastName")) as [l|?] eqn:Hl;
    [|by apply bind_error in Hl as ->].
  destruct (bind (prop (req_body req) "mobile")) as [m|?] eqn:Hm;
    [|by apply bind_error in Hm as ->].
  destruct (bind (prop (req_body req) "bloodGroup")) as [b|?] eqn:Hb;
    [|by apply bind_error in Hb as ->].
  destruct (bind (prop (req_body req) "personalNotes")) as [n|?] eqn:Hn;
    [|by apply bind_error in Hn as ->].
  exfalso. unfold profile_fields in Hfield.
  repeat (apply elem_of_cons in Hfield as [-> | Hfield]; [congruence|]).
  by apply elem_of_nil in Hfield.
Qed.

(** X12. A history entry sent with [sessionId] null is stored without a
    session, with no check on sessions at all; it is listed when GET
    /api/chat/history is asked without a [sessionId], and by no request
    that names one. *)
Theorem entry_without_session uid req env db role content :
  authenticated_as uid req →
  prop (req_body req) "role" = JStr role →
  prop (req_body req) "content" = JStr content →
  prop (req_body req) "sessionId" = JNull →
  references (u_id <$> users db) (SInt uid) = true →
  let row := {| h_id := next_id (h_id <$> chat_history db);
                h_user_id := SInt uid; h_session_id := SNull;
                h_role := role; h_content := content;
                h_created_at := clock env |} in
  ∃ db',
    post_history req env db = (db', json_reply 200 success)
    ∧ chat_history db' = chat_history db ++ [row]
    ∧ (∀ req' env', authenticated_as uid req' →
         truthy (prop (req_query req') "sessionId") = false →
         ∃ rows, get_history req' env' db'
                 = (db', json_reply 200 (JsArr (history_json <$> rows)))
                 ∧ row ∈ rows)
    ∧ (∀ req' env' session, authenticated_as uid req' →
         prop (req_query req') "sessionId" = JStr session → session ≠ "" →
         ∃ rows, get_history req' env' db'
                 = (db', json_reply 200 (JsArr (history_json <$> rows)))
                 ∧ row ∉ rows).
Proof.
  intros (user & Huser & Hid) Hrole Hcontent Hsid Href row.
  eexists. split; [|split; [|split]].
  - unfold post_history, user_id. rewrite Huser, Hid, Hrole, Hcontent, Hsid.
    cbn [mbind result_bind bind]. unfold mbind, result_bind, insert_history.
    cbn [to_integer to_text].
    change (map u_id (users db)) with (u_id <$> users db). rewrite Href.
    cbn [references andb]. reflexivity.
  - reflexivity.
  - intros req' env' Hreq' Hq. eexists. split; [by apply get_history_all|].
    rewrite order_by_perm. unfold history_of. cbn [chat_history].
    rewrite List.filter_app. apply elem_of_app. right. cbn. unfold owns. cbn.
    rewrite Z.eqb_refl. by left.
  - intros req' env' session Hreq' Hq Hne. eexists.
    split; [by apply (get_history_filtered _ _ _ uid session)|].
    rewrite order_by_perm. intros Hin. apply list_elem_of_In, filter_In in Hin.
    by destruct Hin as [_ Hin].
Qed.

(** X13. With foreign keys enforced, a history entry that names a session
    is accepted exactly when a session with that id is stored, whoever
    owns it: the owner of the session is never compared with the sender.
    An unknown session id makes the INSERT fail and nothing is stored. *)
Theorem entry_needs_stored_session uid sid req env db role content :
  foreign_keys = true →
  authenticated_as uid req →
  uid ∈ u_id <$> users db →
  prop (req_body req) "role" = JStr role →
  prop (req_body req) "content" = JStr content →
  prop (req_body req) "sessionId" = JNum sid →
  (sid ∈ s_id <$> chat_sessions db →
   ∃ db', post_history req env db = (db', json_reply 200 success)
          ∧ chat_history db'
            = chat_history db ++
                [{| h_id := next_id (h_id <$> chat_history db);
                    h_user_id := SInt uid; h_session_id := SInt sid;
                    h_role := role; h_content := content;
                    h_created_at := clock env |}])
  ∧ (sid ∉ s_id <$> chat_sessions db →
     post_history req env db = (db, Raised ForeignKeyFailed)).
Proof.
  intros Hfk (user & Huser & Hid) Huid Hrole Hcontent Hsid.
  assert (∀ ok,
    references (s_id <$> chat_sessions db) (SInt sid) = ok →
    post_history req env db
    = if ok
      then ({| users := users db; chat_sessions := chat_sessions db;
               chat_history := chat_history db ++
                 [{| h_id := next_id (h_id <$> chat_history db);
                     h_user_id := SInt uid; h_session_id := SInt sid;
                     h_role := role; h_content := content;
                     h_created_at := clock env |}];
               medical_reports := medical_reports db |},
            json_reply 200 success)
      else (db, Raised ForeignKeyFailed)) as Hpost.
  { intros ok Hok. unfold post_history, user_id.
    rewrite Huser, Hid, Hrole, Hcontent, Hsid.
    cbn [mbind result_bind bind]. unfold mbind, result_bind, insert_history.
    cbn [to_integer to_text].
    change (map u_id (users db)) with (u_id <$> users db).
    change (map s_id (chat_sessions db)) with (s_id <$> chat_sessions db).
    rewrite (references_int _ _ Huid), Hok. by destruct ok. }
  split.
  - intros Hin. eexists. by rewrite (Hpost true (references_int _ _ Hin)).
  - intros Hout. by rewrite (Hpost false (references_int_missing _ _ Hfk Hout)).
Qed.

(** *** The Authorization header *)

Lemma split_first_word (sep : ascii) (word rest : string) :
  mentions sep word = false →
  split sep (word +:+ String sep rest) = word :: split sep rest.
Proof.
  induction word as [|c word IH]; simpl.
  - intros _. by rewrite Ascii.eqb_refl.
  - intros [Hc Hword]%orb_false_elim. by rewrite Hc, (IH Hword).
Qed.

Lemma split_head_word (sep : ascii) (word rest : string) :
  mentions sep word = false →
  rest = "" ∨ (∃ r, rest = String sep r) →
  split sep (word +:+ rest) !! 0%nat = Some word.
Proof.
  intros Hword [-> | [r ->]].
  - assert (word +:+ "" = word) as ->.
    { clear. induction word as [|c w IH]; [done|].
      change (String c (w +:+ "") = String c w). by f_equal. }
    by rewrite split_no_sep.
  - by rewrite split_first_word.
Qed.

(** X14. [authenticateToken] reads the token as the text between the first
    and the second space of the Authorization header.  The word before the
    first space is not looked at (it need not be "Bearer", and may be
    empty), nor is anything after a second space; and when two spaces
    follow each other the token is empty and the answer is 401, whatever
    comes next. *)
Theorem token_is_second_word req env db scheme token rest :
  req_headers req !! "authorization" = Some (scheme +:+ " " +:+ token +:+ rest) →
  mentions " " scheme = false →
  mentions " " token = false →
  rest = "" ∨ (∃ r, rest = String " " r) →
  authenticate' req env db
  = if String.eqb token "" then Done db (Reply 401 StatusText)
    else match jwt_verify token secret' with
         | Some user => Next (with_user user req)
         | None => Done db (Reply 403 StatusText)
         end.
Proof.
  intros Hheader Hscheme Htoken Hrest.
  assert (bearer_token req = Some token) as Hbearer.
  { unfold bearer_token. rewrite Hheader.
    change (scheme +:+ " " +:+ token +:+ rest)
      with (scheme +:+ String " " (token +:+ rest)).
    assert (split " " (scheme +:+ String " " (token +:+ rest)) !! 1%nat
            = Some token) as Hsplit.
    { rewrite (split_first_word _ _ _ Hscheme). cbn [lookup list_lookup].
      by apply split_head_word. }
    by destruct scheme. }
  unfold authenticateToken. rewrite Hbearer.
  by destruct token.
Qed.

(** *** The client against the server *)

Import Client.

Lemma app_authenticated req env db m path rest token user :
  route_of env_JWT_SECRET req = Some (m, path, authenticate' :: rest) →
  bearer_token req = Some token → token ≠ "" →
  jwt_verify token secret' = Some user →
  app env_JWT_SECRET req env db = run_chain rest (with_user user req) env db.
Proof.
  intros Hroute Htoken Hne Hverify. unfold app. rewrite Hroute.
  cbn [run_chain]. by rewrite (authenticate_valid _ _ _ _ token user).
Qed.

Lemma post_history_stored uid sid req env db role content :
  authenticated_as uid req →
  prop (req_body req) "role" = JStr role →
  prop (req_body req) "content" = JStr content →
  prop (req_body req) "sessionId" = JNum sid →
  uid ∈ u_id <$> users db → sid ∈ s_id <$> chat_sessions db →
  post_history req env db
  = ({| users := users db; chat_sessions := chat_sessions db;
        chat_history := chat_history db ++
          [{| h_id := next_id (h_id <$> chat_history db);
              h_user_id := SInt uid; h_session_id := SInt sid;
              h_role := role; h_content := content;
              h_created_at := clock env |}];
        medical_reports := medical_reports db |},
     json_reply 200 success).
Proof.
  intros (user & Huser & Hid) Hrole Hcontent Hsid Huid Hsession.
  unfold post_history, user_id. rewrite Huser, Hid, Hrole, Hcontent, Hsid.
  cbn [mbind result_bind bind]. unfold mbind, result_bind, insert_history.
  cbn [to_integer to_text].
  change (map u_id (users db)) with (u_id <$> users db).
  change (map s_id (chat_sessions db)) with (s_id <$> chat_sessions db).
  by rewrite (references_int _ _ Huid), (references_int _ _ Hsession).
Qed.

Lemma formatted_history rows :
  formatted_messages (json_reply 200 (JsArr (history_json <$> rows)))
  = Some (message_of_row <$> rows).
Proof.
  unfold formatted_messages, json_reply.
  assert (existsb is_null (history_json <$> rows) = false) as ->.
  { induction rows as [|h rows IH]; [done | exact IH]. }
  cbn. f_equal. rewrite <- list_fmap_compose. by apply list_fmap_ext.
Qed.

Lemma save_then_fetch token user uid sid role content save fetch
    env env' db :
  jwt_verify token secret' = Some user → prop user "id" = JNum uid →
  token ≠ "" → mentions " " token = false →
  saveToHistory (Some token) role content (JNum sid) = Some save →
  fetchSessionMessages (Some token) sid = Some fetch →
  route_of env_JWT_SECRET save
  = Some (POST, "/api/chat/history", [authenticate'; final post_history]) →
  route_of env_JWT_SECRET fetch
  = Some (GET, "/api/chat/history", [authenticate'; final get_history]) →
  uid ∈ u_id <$> users db → sid ∈ s_id <$> chat_sessions db →
  ∃ db' reply messages,
    app env_JWT_SECRET save env db = (db', json_reply 200 success)
    ∧ app env_JWT_SECRET fetch env' db' = (db', reply)
    ∧ formatted_messages reply = Some messages
    ∧ messages
      ≡ₚ (message_of_row <$> List.filter (in_session uid sid) (chat_history db))
         ++ [(Some (JsStr role), Some (JsStr content), Some (JsStr (clock env)))].
Proof.
  intros Hverify Hid Hne Hcompact Hsave Hfetch Hroute Hroute' Huid Hsid.
  destruct token as [|c token]; [done|]. cbn in Hsave, Hfetch.
  injection Hsave as <-. injection Hfetch as <-.
  eexists _, _, _. split; [|split; [|split]].
  - rewrite (app_authenticated _ _ _ _ _ _ (String c token) user Hroute);
      [|by apply bearer_token_of_header|done..].
    rewrite run_chain_final.
    apply (post_history_stored uid sid); try done.
    by exists user.
  - rewrite (app_authenticated _ _ _ _ _ _ (String c token) user Hroute');
      [|by apply bearer_token_of_header|done..].
    rewrite run_chain_final.
    apply (get_history_of_session _ _ _ uid sid); [by exists user | done].
  - apply formatted_history.
  - rewrite order_by_perm. cbn [chat_history]. rewrite List.filter_app, fmap_app.
    cbn. unfold in_session. cbn. by rewrite !Z.eqb_refl.
Qed.

(** X15. A message the client saves under a stored session comes back when
    the client fetches that session: with a token of a stored user,
    [saveToHistory] is answered 200, and [fetchSessionMessages] then gives
    the messages that session held for the user before, and the new one
    with its role, its content and the time of the save. *)
Theorem saved_message_is_fetched token user uid sid role content save fetch
    env env' db :
  jwt_verify token secret' = Some user → prop user "id" = JNum uid →
  token ≠ "" → mentions " " token = false →
  saveToHistory (Some token) role content (JNum sid) = Some save →
  fetchSessionMessages (Some token) sid = Some fetch →
  route_of env_JWT_SECRET save
  = Some (POST, "/api/chat/history", [authenticate'; final post_history]) →
  route_of env_JWT_SECRET fetch
  = Some (GET, "/api/chat/history", [authenticate'; final get_history]) →
  uid ∈ u_id <$> users db → sid ∈ s_id <$> chat_sessions db →
  ∃ db' reply messages,
    app env_JWT_SECRET save env db = (db', json_reply 200 success)
    ∧ app env_JWT_SECRET fetch env' db' = (db', reply)
    ∧ formatted_messages reply = Some messages
    ∧ messages
      ≡ₚ (message_of_row <$> List.filter (in_session uid sid) (chat_history db))
         ++ [(Some (JsStr role), Some (JsStr content), Some (JsStr (clock env)))].
Proof. apply save_then_fetch. Qed.

Lemma post_session_stored uid req env db title :
  authenticated_as uid req →
  prop (req_body req) "title" = JStr title →
  uid ∈ u_id <$> users db →
  post_session req env db
  = ({| users := users db;
        chat_sessions := chat_sessions db ++
          [{| s_id := next_id (s_id <$> chat_sessions db);
              s_user_id := SInt uid; s_title := title;
              s_created_at := clock env |}];
        chat_history := chat_history db;
        medical_reports := medical_reports db |},
     json_reply 200 (JsObj [("id", JsNum (next_id (s_id <$> chat_sessions db)))])).
Proof.
  intros (user & Huser & Hid) Htitle Huid.
  unfold post_session, user_id. rewrite Huser, Hid, Htitle.
  cbn [mbind result_bind bind]. unfold mbind, result_bind, insert_session.
  cbn [to_integer to_text].
  change (map u_id (users db)) with (u_id <$> users db).
  by rewrite (references_int _ _ Huid).
Qed.

Lemma no_history_of_new_session uid db :
  Forall (λ h, h_session_id h = SNull ∨ is_session db (h_session_id h))
    (chat_history db) →
  List.filter (in_session uid (next_id (s_id <$> chat_sessions db)))
    (chat_history db) = [].
Proof.
  intros Hall. induction Hall as [|h hs Hh _ IH]; cbn; [done|].
  rewrite IH. unfold in_session.
  destruct Hh as [-> | (id & Hid & ->)%is_session_ids];
    [by rewrite andb_false_r|].
  cbn. apply next_id_above in Hid.
  destruct (Z.eqb_spec id (next_id (s_id <$> chat_sessions db))); [lia|].
  by rewrite andb_false_r.
Qed.

(** X16. The first message of a conversation, as [handleSend] sends it:
    the client opens a session, reads its id from the reply, and saves the
    message under that id.  For a token of a stored user, on a store whose
    history names stored sessions only, both requests are answered 200 and
    fetching the new session gives exactly that one message. *)
Theorem first_message_of_a_conversation token user uid title role content
    env1 env2 env3 db :
  jwt_verify token secret' = Some user → prop user "id" = JNum uid →
  token ≠ "" → mentions " " token = false →
  route_of env_JWT_SECRET (create_session token title)
  = Some (POST, "/api/chat/sessions", [authenticate'; final post_session]) →
  uid ∈ u_id <$> users db →
  Forall (λ h, h_session_id h = SNull ∨ is_session db (h_session_id h))
    (chat_history db) →
  ∃ db1 reply1 id,
    app env_JWT_SECRET (create_session token title) env1 db = (db1, reply1)
    ∧ succeeded reply1 = true
    ∧ session_id_of reply1 = Some (JNum id)
    ∧ ∀ save fetch,
        saveToHistory (Some token) role content (JNum id) = Some save →
        fetchSessionMessages (Some token) id = Some fetch →
        route_of env_JWT_SECRET save
        = Some (POST, "/api/chat/history", [authenticate'; final post_history]) →
        route_of env_JWT_SECRET fetch
        = Some (GET, "/api/chat/history", [authenticate'; final get_history]) →
        ∃ db2 reply3,
          app env_JWT_SECRET save env2 db1 = (db2, json_reply 200 success)
          ∧ app env_JWT_SECRET fetch env3 db2 = (db2, reply3)
          ∧ formatted_messages reply3
            = Some [(Some (JsStr role), Some (JsStr content),
                     Some (JsStr (clock env2)))].
Proof.
  intros Hverify Hid Hne Hcompact Hroute Huid Hhistory.
  eexists _, _, (next_id (s_id <$> chat_sessions db)).
  split; [|split; [|split]].
  - rewrite (app_authenticated _ _ _ _ _ _ token user Hroute);
      [|by apply bearer_token_of_header|done..].
    rewrite run_chain_final.
    apply (post_session_stored uid); [by exists user | done..].
  - done.
  - done.
  - intros save fetch Hsave Hfetch Hroute1 Hroute2.
    set (db1 := {| users := users db;
                   chat_sessions := chat_sessions db ++
                     [{| s_id := next_id (s_id <$> chat_sessions db);
                         s_user_id := SInt uid; s_title := title;
                         s_created_at := clock env1 |}];
                   chat_history := chat_history db;
                   medical_reports := medical_reports db |}).
    assert (next_id (s_id <$> chat_sessions db) ∈ s_id <$> chat_sessions db1)
      as Hsid.
    { cbn [chat_sessions db1]. rewrite fmap_app. apply elem_of_app. right.
      by apply list_elem_of_singleton. }
    destruct (save_then_fetch token user uid _ role content save fetch
                env2 env3 db1 Hverify Hid Hne Hcompact Hsave Hfetch
                Hroute1 Hroute2 Huid Hsid)
      as (db2 & reply3 & messages & H1 & H2 & H3 & H4).
    exists db2, reply3. split; [exact H1|]. split; [exact H2|].
    rewrite H3. f_equal. cbn [chat_history db1] in H4.
    rewrite (no_history_of_new_session uid db Hhistory) in H4. cbn in H4.
    by apply Permutation_singleton_r in H4.
Qed.
End ServerExtras.

(** ** The client's own computations *)

Section ClientFacts.
Import Client.

(** X17. The turns [chatWithAI] sends to the model: the first is the
    profile, sent with role "user" and the text "User Profile: " followed
    by the profile; then one turn per message, in order and with the text
    unchanged; a turn is sent as "model" exactly when the message has role
    "assistant", and as "user" for any other role, so only those two roles
    are ever sent. *)
Theorem chat_turns (messages : list (string * string)) (profile : string) :
  head (chat_contents messages profile)
  = Some {| turn_role := "user"; turn_text := "User Profile: " +:+ profile |}
  ∧ length (chat_contents messages profile) = S (length messages)
  ∧ Forall (λ t, turn_role t = "user" ∨ turn_role t = "model")
      (chat_contents messages profile)
  ∧ turn_text <$> tail (chat_contents messages profile) = snd <$> messages
  ∧ Forall2 (λ m t, (turn_role t = "model" ↔ m.1 = "assistant")
                    ∧ (turn_role t = "user" ↔ m.1 ≠ "assistant"))
      messages (tail (chat_contents messages profile)).
Proof.
  unfold chat_contents. cbn [head tail length]. repeat split.
  - by rewrite length_fmap.
  - constructor; [by left|]. apply Forall_fmap, Forall_forall.
    intros m _. cbn. destruct (String.eqb m.1 "assistant"); auto.
  - rewrite <- list_fmap_compose. by apply list_fmap_ext.
  - induction messages as [|m ms IH]; cbn; constructor; [|exact IH].
    cbn. destruct (String.eqb_spec m.1 "assistant"); naive_solver.
Qed.

Lemma place_fits (lines : list Z) : ∀ (page : nat) (y : Z),
  (20 ≤ y)%Z →
  Forall (λ n : Z, (0 ≤ n)%Z) lines →
  Forall2 (λ (n : Z) (p : nat * Z),
             (20 ≤ p.2 ≤ 280)%Z
             ∧ (n ≤ 37 → p.2 + n * 7 ≤ 280)%Z
             ∧ (37 < n → p.2 = 20)%Z)
    lines (place page y lines)
  ∧ Forall (λ p : nat * Z, (page ≤ p.1)%nat) (place page y lines)
  ∧ StronglySorted (λ p q : nat * Z, (p.1 ≤ q.1)%nat) (place page y lines).
Proof.
  induction lines as [|n lines IH]; intros page y Hy Hlines; cbn [place].
  - repeat split; constructor.
  - apply Forall_cons_1 in Hlines as [Hn Hlines].
    destruct (Z.ltb_spec 280 (y + n * 7)) as [Hbreak | Hfits].
    + destruct (IH (S page) (20 + (n * 7 + 5)) ltac:(lia) Hlines)
        as (Hrest & Hpages & Hsorted).
      repeat split.
      * constructor; [cbn; lia | exact Hrest].
      * constructor; [cbn; lia|].
        eapply Forall_impl; [exact Hpages|]. cbn. lia.
      * constructor; [exact Hsorted|].
        eapply Forall_impl; [exact Hpages|]. cbn. lia.
    + destruct (IH page (y + (n * 7 + 5)) ltac:(lia) Hlines)
        as (Hrest & Hpages & Hsorted).
      repeat split.
      * constructor; [cbn; lia | exact Hrest].
      * constructor; [cbn; lia | exact Hpages].
      * constructor; [exact Hsorted | exact Hpages].
Qed.

(** X18. The page layout of [downloadSessionPDF]: every message is written
    at a height between 20 and 280; a message of at most 37 lines ends at
    or above 280, a page break being made before it when it would not; a
    longer message starts a fresh page at 20 (and runs over it); and the
    messages keep their order, page after page. *)
Theorem pdf_layout_fits (lines : list Z) :
  Forall (λ n : Z, (0 ≤ n)%Z) lines →
  Forall2 (λ (n : Z) (p : nat * Z),
             (20 ≤ p.2 ≤ 280)%Z
             ∧ (n ≤ 37 → p.2 + n * 7 ≤ 280)%Z
             ∧ (37 < n → p.2 = 20)%Z)
    lines (pdf_layout lines)
  ∧ StronglySorted (λ p q : nat * Z, (p.1 ≤ q.1)%nat) (pdf_layout lines).
Proof.
  intros Hlines.
  destruct (place_fits lines 0%nat 40 ltac:(lia) Hlines) as (Hfits & _ & Hsorted).
  by split.
Qed.
End ClientFacts.
(** ** The reference libraries meet their contracts *)

Module ReferenceFacts.
Import Reference.

Lemma unbit_bit b : unbit (bit b) = Some b.
Proof. by destruct b. Qed.

Lemma read_write_char c tail :
  read_words (write_char c tail)
  = ws ← read_words tail;
    match ws with
    | [] => None
    | w :: ws' => Some (String c w :: ws')
    end.
Proof.
  destruct c as [b0 b1 b2 b3 b4 b5 b6 b7].
  unfold write_char. cbn [read_words].
  change (Ascii.eqb "1" "0") with false. change (Ascii.eqb "1" "1") with true.
  cbv iota. rewrite !unbit_bit. reflexivity.
Qed.

Lemma read_write_word w tail :
  read_words (write_word w tail) = ws ← read_words tail; Some (w :: ws).
Proof.
  induction w as [|c w IH]; cbn [write_word].
  - reflexivity.
  - rewrite read_write_char, IH. by destruct (read_words tail).
Qed.

Lemma read_write_words ws : read_words (write_words ws) = Some ws.
Proof.
  induction ws as [|w ws IH]; cbn [write_words]; [done|].
  by rewrite read_write_word, IH.
Qed.

Lemma mentions_bit b : Ascii.eqb (bit b) " " = false.
Proof. by destruct b. Qed.

Lemma write_char_compact c tail :
  mentions " " tail = false → mentions " " (write_char c tail) = false.
Proof.
  destruct c as [b0 b1 b2 b3 b4 b5 b6 b7]. intros Ht.
  unfold write_char. cbn [mentions]. rewrite !mentions_bit, Ht. reflexivity.
Qed.

Lemma write_word_compact w tail :
  mentions " " tail = false → mentions " " (write_word w tail) = false.
Proof.
  intros Ht. induction w as [|c w IH]; cbn [write_word].
  - cbn [mentions]. by rewrite Ht.
  - by apply write_char_compact.
Qed.

Lemma write_words_compact ws : mentions " " (write_words ws) = false.
Proof.
  induction ws as [|w ws IH]; cbn [write_words]; [done|].
  by apply write_word_compact.
Qed.

Lemma write_word_nonempty w tail : write_word w tail ≠ EmptyString.
Proof. destruct w as [|[] w]; done. Qed.

Lemma read_int_dec n : read_int (dec n) = Some n.
Proof.
  unfold read_int. rewrite int_of_string_dec. simpl.
  by rewrite DecimalZ.of_to.
Qed.

Lemma numeric_of_text_dec n : numeric_of_text (dec n) = SInt n.
Proof.
  pose proof (read_int_dec n) as Hr. unfold read_int in Hr.
  unfold numeric_of_text. destruct (NilZero.int_of_string (dec n)); by inversion Hr.
Qed.

Lemma order_by_perm (A : Type) (le : A → A → bool) (l : list A) :
  order_by le l ≡ₚ l.
Proof. apply merge_sort_Permutation. Qed.

Lemma order_by_sorted (A : Type) (le : A → A → bool) (l : list A) :
  (∀ x y, le x y = true ∨ le y x = true) →
  (∀ x y z, le x y = true → le y z = true → le x z = true) →
  Sorted (λ x y, le x y = true) (order_by le l).
Proof.
  intros Htotal _. unfold order_by.
  apply (@Sorted_merge_sort A (λ x y, le x y = true) _ Htotal).
Qed.

Lemma jwt_verify_sign (id : Z) (email secret : string) (iat : Z) :
  jwt_verify (jwt_sign {[ "id" := JNum id; "email" := JStr email ]} secret iat) secret
  = Some (<["iat" := JNum iat]> {[ "id" := JNum id; "email" := JStr email ]}).
Proof.
  unfold jwt_sign, prop. simplify_map_eq. cbn [default].
  change (write_word secret _)
    with (write_words [secret; dec iat; dec id; email]).
  unfold jwt_verify, jwt_signed_by. rewrite read_write_words.
  rewrite String.eqb_refl, !read_int_dec. reflexivity.
Qed.

Lemma jwt_verify_signed token secret :
  jwt_signed_by token secret = false → jwt_verify token secret = None.
Proof. unfold jwt_verify. by intros ->. Qed.

Lemma jwt_sign_compact payload secret iat :
  jwt_sign payload secret iat ≠ ""
  ∧ mentions " " (jwt_sign payload secret iat) = false.
Proof.
  unfold jwt_sign.
  destruct (prop payload "id"), (prop payload "email");
    (split; [apply write_word_nonempty | apply write_words_compact]).
Qed.

Lemma bcrypt_compare_hash password salt :
  bcrypt_compare password (bcrypt_hash password salt) = true.
Proof.
  unfold bcrypt_compare, bcrypt_hash.
  induction password as [|c p IH]; simpl.
  - by destruct salt.
  - destruct (ascii_dec c c); [exact IH | done].
Qed.

End ReferenceFacts.

Definition reference_jwt : Jwt :=
  {| jwt_sign := Reference.jwt_sign;
     jwt_verify := Reference.jwt_verify;
     jwt_signed_by := Reference.jwt_signed_by;
     jwt_verify_sign := ReferenceFacts.jwt_verify_sign;
     jwt_verify_signed := ReferenceFacts.jwt_verify_signed;
     jwt_sign_compact := ReferenceFacts.jwt_sign_compact |}.

Definition reference_bcrypt : Bcrypt :=
  {| bcrypt_hash := Reference.bcrypt_hash;
     bcrypt_compare := Reference.bcrypt_compare;
     bcrypt_compare_hash := ReferenceFacts.bcrypt_compare_hash |}.

(** Foreign keys are enforced, as in the SQLite that better-sqlite3 ships. *)
Definition reference_engine : SqlEngine :=
  {| order_by := @Reference.order_by;
     order_by_perm := ReferenceFacts.order_by_perm;
     order_by_sorted := ReferenceFacts.order_by_sorted;
     numeric_of_text := Reference.numeric_of_text;
     numeric_of_text_dec := ReferenceFacts.numeric_of_text_dec;
     text_of_number := Reference.text_of_number;
     foreign_keys := true |}.

(** Paths compared as they are written. *)
Definition reference_router : Router :=
  {| path_matches := String.eqb |}.

(** * The statements at work

    Each statement above that rests on a premise is run here once, on the
    reference libraries ([JWT_SECRET] unset) and the sample store. *)

Section Runs.
Import Sample.

#[local] Existing Instance reference_jwt.
#[local] Existing Instance reference_bcrypt.
#[local] Existing Instance reference_engine.
#[local] Existing Instance reference_router.

(** GET /api/reports with no Authorization header: 401, store untouched; the
    same request with a token that does not verify: 403. *)
Lemma protected_routes_verify_first_run :
  app None anonymous_reports morning store = (store, Reply 401 StatusText)
  ∧ app None forged_reports morning store = (store, Reply 403 StatusText).
Proof.
  split.
  - destruct (protected_routes_verify_first None
                anonymous_reports morning store GET "/api/reports"
                [authenticateToken None; final get_reports])
      as (handlers & _ & Hmissing & _); [reflexivity | done..|].
    apply Hmissing. by left.
  - destruct (protected_routes_verify_first None
                forged_reports morning store GET "/api/reports"
                [authenticateToken None; final get_reports])
      as (handlers & _ & _ & Hinvalid & _); [reflexivity | done..|].
    by apply (Hinvalid "forged").
Defined.

(** Asha registers on the empty store; Bram registers and opens a session;
    then Asha logs in. *)
Lemma login_after_register_run :
  let after :=
    serve None [(register_bram, noon); (bram_new_session, noon)]
      (register register_asha morning empty_db).1 in
  ∃ token user claims,
    login None login_asha evening after
    = (after, json_reply 200 (JsObj [("token", JsStr token); ("user", user)]))
    ∧ jwt_verify token "super-secret-key" = Some claims
    ∧ prop claims "id" = JNum 1
    ∧ prop claims "email" = JStr "asha@example.org".
Proof.
  intros after.
  destruct (login_after_register None register_asha morning empty_db
              (register register_asha morning empty_db).1 1
              "asha@example.org" "correct horse"
              [(register_bram, noon); (bram_new_session, noon)]
              login_asha evening)
    as [(token & user & claims & Hlogin & Hverify & Hid & Hemail & _) _];
    [reflexivity..|].
  exists token, user, claims. auto.
Defined.


(** Bram adds two messages to session 1, which held one, and reads it. *)
Lemma history_listing_run :
  let posts := [(bram_posts "user" "It is worse today", evening);
                (bram_posts "assistant" "Since when?", evening)] in
  ∃ rows,
    get_history bram_reads_session_1 evening (post_each posts store).1
    = ((post_each posts store).1, json_reply 200 (JsArr (history_json <$> rows)))
    ∧ length rows = 3%nat
    ∧ entry <$> rows
      ≡ₚ [("user", "I have a headache", "2026-03-01 12:05:10");
          ("user", "It is worse today", "2026-03-01 19:30:00");
          ("assistant", "Since when?", "2026-03-01 19:30:00")].
Proof.
  intros posts.
  destruct (history_listing 2 1 posts store bram_reads_session_1 evening)
    as [Hsession _].
  - repeat constructor; by eexists.
  - by eexists.
  - destruct Hsession as (rows & Hreply & _ & _ & Hlength & Hentries);
      [reflexivity|].
    exists rows. auto.
Defined.

(** Asha fills in her profile and reads it back as she sent it.  Later,
    with the profile filled in, she saves the form with the names only:
    the three other fields are gone. *)
Lemma profile_round_trip_run :
  (∃ db',
     put_profile asha_updates_profile noon store = (db', json_reply 200 success)
     ∧ get_profile asha_reads_profile evening db'
       = (db', json_reply 200
                 (JsObj [("id", JsNum 1); ("email", JsStr "asha@example.org");
                         ("first_name", JsStr "Asha");
                         ("last_name", JsStr "Rao-Iyer");
                         ("mobile", JsStr "+91 98765 43210");
                         ("blood_group", JsStr "O+");
                         ("personal_notes", JsNull)])))
  ∧ (∃ db',
       put_profile asha_sends_names noon later_store
       = (db', json_reply 200 success)
       ∧ get_profile asha_reads_profile evening db'
         = (db', json_reply 200
                   (JsObj [("id", JsNum 1); ("email", JsStr "asha@example.org");
                           ("first_name", JsStr "Asha");
                           ("last_name", JsStr "Rao");
                           ("mobile", JsNull);
                           ("blood_group", JsNull);
                           ("personal_notes", JsNull)]))).
Proof.
  split.
  - destruct (profile_round_trip 1 asha_updates_profile noon store
                asha_reads_profile evening asha)
      as (db' & Hput & Hget & _);
      [by eexists | by eexists | reflexivity | by repeat constructor |].
    exists db'. auto.
  - destruct (profile_round_trip 1 asha_sends_names noon later_store
                asha_reads_profile evening
                {| u_id := 1; u_email := "asha@example.org";
                   u_password := Reference.bcrypt_hash "correct horse" "salt-1";
                   u_first_name := Some "Asha"; u_last_name := Some "Rao-Iyer";
                   u_mobile := Some "+91 98765 43210"; u_blood_group := Some "O+";
                   u_personal_notes := Some "Allergic to penicillin";
                   u_created_at := "2026-03-01 08:00:00" |})
      as (db' & Hput & Hget & _);
      [by eexists | by eexists | reflexivity | by repeat constructor |].
    exists db'. auto.
Defined.

(** Asha sends 5 as her mobile number: the update is answered 200 and the
    profile she reads back holds the text "5.0", which is not the number
    that was sent. *)
Lemma profile_number_read_as_text :
  ∃ db',
    put_profile asha_sends_number noon store = (db', json_reply 200 success)
    ∧ prop (req_body asha_sends_number) "mobile" = JNum 5
    ∧ get_profile asha_reads_profile evening db'
      = (db', json_reply 200
                (JsObj [("id", JsNum 1); ("email", JsStr "asha@example.org");
                        ("first_name", JsStr "Asha");
                        ("last_name", JsStr "Rao");
                        ("mobile", JsStr "5.0");
                        ("blood_group", JsNull);
                        ("personal_notes", JsNull)]))
    ∧ JsStr "5.0" ≠ JsNum 5.
Proof. eexists. by repeat split; [vm_compute..|]. Qed.

(** Bram lists his three sessions and his two reports, stored oldest
    first: the newest comes first. *)
Lemma listings_most_recent_first_run :
  ∃ sessions reports,
    get_sessions bram_lists evening later_store
    = (later_store, json_reply 200 (JsArr (session_json <$> sessions)))
    ∧ (λ s, (s_title s, s_created_at s)) <$> sessions
      = [("Diet", "2026-03-03 21:40:00"); ("Sleep", "2026-03-02 07:15:00");
         ("Headache", "2026-03-01 12:05:00")]
    ∧ get_reports bram_lists evening later_store
      = (later_store, json_reply 200 (JsArr (report_json <$> reports)))
    ∧ (λ r, (r_filename r, r_created_at r)) <$> reports
      = [("report.pdf", "2026-03-04 11:30:00"); ("blood.pdf", "2026-03-02 09:00:00")].
Proof.
  destruct (listings_most_recent_first 2 bram_lists evening later_store)
    as [(sessions & Hs & Hsp & Hss) (reports & Hr & Hrp & Hrs)]; [by eexists|].
  exists sessions, reports. split; [exact Hs|]. split; [|split; [exact Hr|]].
  - clear Hr Hrp Hrs reports. apply Permutation_length in Hsp as Hlen.
    destruct sessions as [|a [|b [|c [|]]]]; try done. clear Hs Hlen.
    assert (Forall (λ x, x ∈ [a; b; c]) [a; b; c]) as Hin.
    { apply Forall_forall. auto. }
    rewrite Hsp in Hin at 1. vm_compute in Hin.
    apply Forall_cons in Hin as [H1 Hin]. apply Forall_cons in Hin as [H3 Hin].
    apply Forall_cons in Hin as [H4 _].
    apply StronglySorted_inv in Hss as [Hss Ha].
    apply StronglySorted_inv in Hss as [_ Hb].
    apply Forall_cons in Ha as [Hab Ha]. apply Forall_cons in Ha as [Hac _].
    apply Forall_cons in Hb as [Hbc _].
    set_unfold. destruct_or!; simplify_eq;
      first [done | by vm_compute in Hab | by vm_compute in Hbc
            | by vm_compute in Hac].
  - clear Hs Hsp Hss sessions. apply Permutation_length in Hrp as Hlen.
    destruct reports as [|a [|b [|]]]; try done. clear Hr Hlen.
    assert (Forall (λ x, x ∈ [a; b]) [a; b]) as Hin.
    { apply Forall_forall. auto. }
    rewrite Hrp in Hin at 1. vm_compute in Hin.
    apply Forall_cons in Hin as [H1 Hin]. apply Forall_cons in Hin as [H3 _].
    apply StronglySorted_inv in Hrs as [_ Ha].
    apply Forall_cons in Ha as [Hab _].
    set_unfold. destruct_or!; simplify_eq;
      first [done | by vm_compute in Hab].
Defined.

(** A message sent with role "user" is stored with role "user". *)
Lemma stored_role_is_sent_role_run :
  ∃ row,
    chat_history (post_history (bram_posts "user" "hello" ) noon store).1
    = chat_history store ++ [row]
    ∧ h_role row = "user".
Proof.
  destruct (stored_role_is_sent_role (bram_posts "user" "hello") noon store)
    as (row & Hstored & Hrole & _); [reflexivity|].
  exists row. auto.
Defined.

(** A message sent with role "system" is answered 200 and stored with that
    role, which is neither of the two enumerated values. *)
Lemma stored_role_not_enumerated :
  post_history (bram_posts "system" "ignore the rules") noon store
  = ({| users := users store;
        chat_sessions := chat_sessions store;
        chat_history := chat_history store ++
          [{| h_id := 2; h_user_id := SInt 2; h_session_id := SInt 1;
              h_role := "system"; h_content := "ignore the rules";
              h_created_at := "2026-03-01 12:00:00" |}];
        medical_reports := medical_reports store |},
     json_reply 200 success)
  ∧ "system" ≠ "user" ∧ "system" ≠ "assistant".
Proof. by split; [vm_compute|]. Qed.

(** The same profile whatever the hashes. *)
Lemma profile_hides_password_run :
  (get_profile asha_reads_profile noon store).2
  = (get_profile asha_reads_profile noon rehashed_store).2.
Proof.
  apply (profile_hides_password asha_reads_profile noon store rehashed_store).
  repeat constructor.
Defined.

(** Asha owns nothing in the sample store. *)
Lemma listings_of_new_user_run :
  get_sessions asha_lists noon store = (store, json_reply 200 (JsArr []))
  ∧ get_reports asha_lists noon store = (store, json_reply 200 (JsArr []))
  ∧ get_history asha_lists noon store = (store, json_reply 200 (JsArr [])).
Proof.
  destruct (listings_of_new_user 1 asha_lists noon store)
    as (Hs & Hr & Hh & _); [by eexists | reflexivity..|].
  split; [exact Hs|]. split; [exact Hr|]. by apply Hh.
Defined.

(** Bram opens a session, writes to session 1 and uploads a report; someone
    without a token asks for reports; Asha's registration is repeated.
    What Asha reads of session 1, which is Bram's, stays the empty list. *)
Lemma records_are_private_run :
  let trace := [(bram_new_session, noon); (bram_says "Still there", noon);
                (bram_uploads, evening); (anonymous_reports, evening);
                (register_asha, evening)] in
  (get_history asha_reads_session_1 evening (serve None trace store)).2
  = json_reply 200 (JsArr [])
  ∧ chat_history (serve None trace store) ≠ chat_history store.
Proof.
  intros trace.
  destruct (records_are_private None 1 asha_reads_session_1 evening store trace)
    as [(_ & Hhistory & _) _].
  - by eexists.
  - repeat constructor; intros token user Htoken Hverify;
      vm_compute in Htoken; simplify_eq;
      vm_compute in Hverify; simplify_eq;
      (exists 2; split; [reflexivity | lia]).
  - split; [by rewrite Hhistory | by vm_compute].
Defined.

(** The scenario of the specification, through [app] from the empty store:
    register, register again, log in, list sessions, open a session, add a
    message, read the session. *)
Example scenario :
  let '(db1, r1) := app None scenario_register morning empty_db in
  let '(db2, r2) := app None scenario_register morning db1 in
  let '(db3, r3) := app None scenario_login morning db2 in
  let '(db4, r4) :=
    app None (scenario_request GET "/api/chat/sessions" [] []) morning db3 in
  let '(db5, r5) :=
    app None (scenario_request POST "/api/chat/sessions" [] [("title", JStr "T")])
      morning db4 in
  let '(db6, r6) :=
    app None (scenario_request POST "/api/chat/history" []
                [("role", JStr "user"); ("content", JStr "hi"); ("sessionId", JNum 1)])
      noon db5 in
  let '(db7, r7) :=
    app None (scenario_request GET "/api/chat/history" [("sessionId", JStr "1")] [])
      noon db6 in
  r1 = json_reply 201 (JsObj [("id", JsNum 1)])
  ∧ r2 = json_reply 400 (JsObj [("error", JsStr duplicate_account)])
  ∧ r3 = json_reply 200
           (JsObj [("token", JsStr scenario_token);
                   ("user", JsObj [("id", JsNum 1); ("email", JsStr "a@x.com");
                                   ("firstName", JsStr "A"); ("lastName", JsStr "B")])])
  ∧ r4 = json_reply 200 (JsArr [])
  ∧ r5 = json_reply 200 (JsObj [("id", JsNum 1)])
  ∧ r6 = json_reply 200 success
  ∧ r7 = json_reply 200
           (JsArr [JsObj [("id", JsNum 1); ("user_id", JsNum 1);
                          ("session_id", JsNum 1); ("role", JsStr "user");
                          ("content", JsStr "hi");
                          ("created_at", JsStr "2026-03-01 12:00:00")]]).
Proof. vm_compute. repeat split. Qed.
End Runs.

(** * More statements at work *)

Section MoreRuns.
Import Sample Client.

#[local] Existing Instance reference_jwt.
#[local] Existing Instance reference_bcrypt.
#[local] Existing Instance reference_engine.
#[local] Existing Instance reference_router.

(** A forged token on a write: 403 and the same store. *)
Lemma failed_request_changes_nothing_run :
  (app None (request_of POST "/api/chat/history"
               [("authorization", "Bearer forged")] []
               [("role", JStr "user"); ("content", JStr "x");
                ("sessionId", JNum 1)]) noon store).1 = store.
Proof. by apply failed_request_changes_nothing. Defined.

Lemma store_keys : unique_keys store.
Proof. repeat split; by apply (bool_decide_unpack _). Qed.

Lemma store_references : referential store.
Proof.
  assert (is_user store (SInt 2)) as Hbram.
  { exists bram. split; [|reflexivity]. by apply elem_of_cons; right; left. }
  split; [|split].
  - apply Forall_cons. by split; [|constructor].
  - apply Forall_cons. split; [|constructor]. split; [done|].
    right. eexists. by split; [left|].
  - constructor.
Qed.

(** Bram opens a session, writes and uploads; Asha registers again. *)
Lemma keys_stay_unique_run :
  unique_keys
    (serve None [(bram_new_session, noon); (bram_says "Still there", noon);
                 (bram_uploads, evening); (register_asha, evening)] store).
Proof. apply keys_stay_unique, store_keys. Defined.

Lemma references_stay_valid_run :
  referential
    (serve None [(bram_new_session, noon); (bram_says "Still there", noon);
                 (bram_uploads, evening); (register_asha, evening)] store).
Proof. apply references_stay_valid; [reflexivity | apply store_references]. Defined.

(** Asha registers on the empty store and reads her profile. *)
Lemma registered_profile_run :
  get_profile asha_reads_profile noon (register register_asha morning empty_db).1
  = ((register register_asha morning empty_db).1,
     json_reply 200
       (JsObj [("id", JsNum 1); ("email", JsStr "asha@example.org");
               ("first_name", JsStr "Asha"); ("last_name", JsStr "Rao");
               ("mobile", JsNull); ("blood_group", JsNull);
               ("personal_notes", JsNull)])).
Proof.
  apply (registered_profile register_asha morning empty_db _ 1
           "asha@example.org" (Some "Asha") (Some "Rao"));
    [reflexivity.. | by eexists].
Defined.

(** Asha's email with a wrong password, and an email nobody has. *)
Lemma login_refusals_run :
  login None (request_of POST "/api/auth/login" [] []
                [("email", JStr "asha@example.org"); ("password", JStr "guess")])
    noon store
  = (store, json_reply 401 (JsObj [("error", JsStr "Invalid credentials")]))
  ∧ login None (request_of POST "/api/auth/login" [] []
                  [("email", JStr "nobody@example.org"); ("password", JStr "guess")])
      noon store
    = (store, json_reply 401 (JsObj [("error", JsStr "Invalid credentials")])).
Proof.
  split.
  - destruct (login_refusals None
                (request_of POST "/api/auth/login" [] []
                   [("email", JStr "asha@example.org"); ("password", JStr "guess")])
                noon store "asha@example.org") as (_ & Hwrong & _); [reflexivity|].
    by apply (Hwrong 1 "asha@example.org"
                (Reference.bcrypt_hash "correct horse" "salt-1") "guess").
  - destruct (login_refusals None
                (request_of POST "/api/auth/login" [] []
                   [("email", JStr "nobody@example.org"); ("password", JStr "guess")])
                noon store "nobody@example.org") as (Hunknown & _); [reflexivity|].
    by apply Hunknown.
Defined.

(** Bram opens a second session. *)
Lemma session_round_trip_run :
  ∃ db' rows,
    post_session
      (as_user 2 "bram@example.org"
         (request_of POST "/api/chat/sessions" [] [] [("title", JStr "Sleep")]))
      evening store
    = (db', json_reply 200 (JsObj [("id", JsNum 2)]))
    ∧ get_sessions bram_reads_session_1 evening db'
      = (db', json_reply 200 (JsArr (session_json <$> rows)))
    ∧ length rows = 2%nat.
Proof.
  destruct (session_round_trip 2
              (as_user 2 "bram@example.org"
                 (request_of POST "/api/chat/sessions" [] [] [("title", JStr "Sleep")]))
              evening store "Sleep" bram_reads_session_1 evening)
    as (db' & id & rows & Hpost & _ & Hget & Hrows);
    [by eexists | by eexists | reflexivity.. |].
  exists db', rows. apply Permutation_length in Hrows.
  split; [|by split].
  rewrite Hpost. do 4 f_equal.
  cut (Some (JsNum id) = Some (JsNum 2)); [congruence|].
  by vm_compute in Hpost; simplify_eq.
Defined.

(** Bram uploads an analysis without a file. *)
Lemma report_round_trip_run :
  ∃ db' rows,
    post_report
      (as_user 2 "bram@example.org"
         (request_of POST "/api/reports/upload" [] []
            [("analysis", JStr "All values in range")]))
      evening store
    = (db', json_reply 200 success)
    ∧ get_reports bram_reads_session_1 evening db'
      = (db', json_reply 200 (JsArr (report_json <$> rows)))
    ∧ r_filename <$> rows = ["report.pdf"].
Proof.
  destruct (report_round_trip 2
              (as_user 2 "bram@example.org"
                 (request_of POST "/api/reports/upload" [] []
                    [("analysis", JStr "All values in range")]))
              evening store "All values in range" bram_reads_session_1 evening)
    as (db' & filename & rows & Hpost & Hdefault & _ & Hget & Hrows);
    [by eexists | by eexists | reflexivity.. |].
  exists db', rows. split; [exact Hpost|]. split; [exact Hget|].
  rewrite (Hdefault (or_introl eq_refl)) in Hrows. cbn in Hrows.
  by apply Permutation_singleton_r in Hrows as ->.
Defined.

(** A token for an id that no user has. *)
Lemma profile_update_without_user_run :
  put_profile
    (as_user 7 "ghost@example.org"
       (request_of PUT "/api/user/profile" [] []
          [("firstName", JStr "G"); ("lastName", JNull); ("mobile", JNull);
           ("bloodGroup", JNull); ("personalNotes", JNull)]))
    noon store
  = (store, json_reply 200 success).
Proof.
  apply (profile_update_without_user 7 _ _ _ (Some "G") None None None None);
    [by eexists | reflexivity..].
Defined.

(** Asha, whose profile is filled in, saves the form with the names only:
    her mobile number is gone. *)
Lemma profile_update_missing_field_run :
  ∃ db' u',
    put_profile asha_sends_names noon later_store = (db', json_reply 200 success)
    ∧ select_user_by_id (SInt 1) db' = Some u'
    ∧ u_mobile u' = None.
Proof.
  destruct (profile_update_missing_field 1 asha_sends_names noon later_store
              {| u_id := 1; u_email := "asha@example.org";
                 u_password := Reference.bcrypt_hash "correct horse" "salt-1";
                 u_first_name := Some "Asha"; u_last_name := Some "Rao-Iyer";
                 u_mobile := Some "+91 98765 43210"; u_blood_group := Some "O+";
                 u_personal_notes := Some "Allergic to penicillin";
                 u_created_at := "2026-03-01 08:00:00" |}
              "mobile")
    as (db' & u' & Hput & Hu' & Hcolumn & _);
    [by eexists | reflexivity | by repeat constructor | by right; right; left
    | reflexivity |].
  exists db', u'. split; [exact Hput|]. split; [exact Hu' | exact Hcolumn].
Defined.

(** Asha sends [true] as her mobile number. *)
Lemma profile_update_boolean_field_run :
  put_profile
    (as_user 1 "asha@example.org"
       (request_of PUT "/api/user/profile" [] []
          [("firstName", JStr "Asha"); ("lastName", JStr "Rao");
           ("mobile", JBool true); ("bloodGroup", JNull);
           ("personalNotes", JNull)]))
    noon later_store
  = (later_store, Raised BindTypeError).
Proof.
  apply (profile_update_boolean_field 1 _ _ _ "mobile" true);
    [by eexists | by right; right; left | reflexivity].
Defined.

(** Bram saves a note outside any session. *)
Lemma entry_without_session_run :
  ∃ db',
    post_history
      (as_user 2 "bram@example.org"
         (request_of POST "/api/chat/history" [] []
            [("role", JStr "user"); ("content", JStr "A note");
             ("sessionId", JNull)]))
      evening store
    = (db', json_reply 200 success)
    ∧ chat_history db'
      = chat_history store ++
          [{| h_id := 2; h_user_id := SInt 2; h_session_id := SNull;
              h_role := "user"; h_content := "A note";
              h_created_at := clock evening |}].
Proof.
  destruct (entry_without_session 2
              (as_user 2 "bram@example.org"
                 (request_of POST "/api/chat/history" [] []
                    [("role", JStr "user"); ("content", JStr "A note");
                     ("sessionId", JNull)]))
              evening store "user" "A note")
    as (db' & Hpost & Hrows & _); [by eexists | reflexivity..|].
  by exists db'.
Defined.

(** Asha writes into session 1, which is Bram's, and into session 9, which
    nobody has. *)
Lemma entry_needs_stored_session_run :
  (∃ db',
     post_history
       (as_user 1 "asha@example.org"
          (request_of POST "/api/chat/history" [] []
             [("role", JStr "user"); ("content", JStr "Hello");
              ("sessionId", JNum 1)]))
       evening store
     = (db', json_reply 200 success)
     ∧ chat_history db'
       = chat_history store ++
           [{| h_id := 2; h_user_id := SInt 1; h_session_id := SInt 1;
               h_role := "user"; h_content := "Hello";
               h_created_at := clock evening |}])
  ∧ post_history
      (as_user 1 "asha@example.org"
         (request_of POST "/api/chat/history" [] []
            [("role", JStr "user"); ("content", JStr "Hello");
             ("sessionId", JNum 9)]))
      evening store
    = (store, Raised ForeignKeyFailed).
Proof.
  split.
  - destruct (entry_needs_stored_session 1 1
                (as_user 1 "asha@example.org"
                   (request_of POST "/api/chat/history" [] []
                      [("role", JStr "user"); ("content", JStr "Hello");
                       ("sessionId", JNum 1)]))
                evening store "user" "Hello") as [Hstored _];
      [reflexivity | by eexists | by left | reflexivity.. |].
    apply Hstored. by left.
  - destruct (entry_needs_stored_session 1 9
                (as_user 1 "asha@example.org"
                   (request_of POST "/api/chat/history" [] []
                      [("role", JStr "user"); ("content", JStr "Hello");
                       ("sessionId", JNum 9)]))
                evening store "user" "Hello") as [_ Hmissing];
      [reflexivity | by eexists | by left | reflexivity.. |].
    apply Hmissing. by intros [?|[]%elem_of_nil]%elem_of_cons.
Defined.

(** Bram's token after another scheme and before more words; and a header
    with two spaces after the scheme. *)
Lemma token_is_second_word_run :
  (∃ user,
     authenticateToken None
       (request_of GET "/api/reports"
          [("authorization", "Token " +:+ bram_token +:+ " and more")] [] [])
       noon store
     = Next (with_user user
               (request_of GET "/api/reports"
                  [("authorization", "Token " +:+ bram_token +:+ " and more")]
                  [] []))
     ∧ prop user "id" = JNum 2)
  ∧ authenticateToken None
      (request_of GET "/api/reports" [("authorization", "Bearer  x")] [] [])
      noon store
    = Done store (Reply 401 StatusText).
Proof.
  split.
  - rewrite (token_is_second_word None _ noon store "Token" bram_token " and more");
      [|reflexivity | reflexivity | reflexivity | right; by eexists].
    destruct (jwt_verify bram_token (JWT_SECRET None)) as [user|] eqn:Hverify;
      [|by vm_compute in Hverify].
    exists user. split; [reflexivity|].
    by vm_compute in Hverify; simplify_eq.
  - by rewrite (token_is_second_word None _ noon store "Bearer" "" " x");
      [|reflexivity | reflexivity | reflexivity | right; eexists].
Defined.

(** Bram saves an answer under session 1 and fetches the session. *)
Lemma saved_message_is_fetched_run :
  ∃ save fetch db' reply,
    saveToHistory (Some bram_token) "assistant" "Drink water" (JNum 1) = Some save
    ∧ fetchSessionMessages (Some bram_token) 1 = Some fetch
    ∧ app None save noon store = (db', json_reply 200 success)
    ∧ app None fetch evening db' = (db', reply)
    ∧ length <$> formatted_messages reply = Some 2%nat.
Proof.
  destruct (saveToHistory (Some bram_token) "assistant" "Drink water" (JNum 1))
    as [save|] eqn:Hsave; [|done].
  destruct (fetchSessionMessages (Some bram_token) 1) as [fetch|] eqn:Hfetch; [|done].
  destruct (saved_message_is_fetched None bram_token
              {[ "id" := JNum 2; "email" := JStr "bram@example.org";
                 "iat" := JNum 1772366400 ]}
              2 1 "assistant" "Drink water" save fetch noon evening store)
    as (db' & reply & messages & Hpost & Hget & Hformatted & Hmessages);
    [by vm_compute | reflexivity | done | reflexivity | done | done
    | by vm_compute in Hsave; simplify_eq
    | by vm_compute in Hfetch; simplify_eq
    | by right; left | by left |].
  exists save, fetch, db', reply. repeat split; try done.
  rewrite Hformatted. cbn. f_equal.
  by apply Permutation_length in Hmessages.
Defined.

(** Bram starts a conversation on a store that has none. *)
Lemma first_message_of_a_conversation_run :
  ∃ db1 reply1 id,
    app None (create_session bram_token "Sleep") noon
      {| users := [asha; bram]; chat_sessions := []; chat_history := [];
         medical_reports := [] |}
    = (db1, reply1)
    ∧ succeeded reply1 = true
    ∧ session_id_of reply1 = Some (JNum id).
Proof.
  destruct (first_message_of_a_conversation None bram_token
              {[ "id" := JNum 2; "email" := JStr "bram@example.org";
                 "iat" := JNum 1772366400 ]}
              2 "Sleep" "user" "I sleep badly" noon noon evening
              {| users := [asha; bram]; chat_sessions := []; chat_history := [];
                 medical_reports := [] |})
    as (db1 & reply1 & id & Hcreate & Hok & Hid & _);
    [by vm_compute | reflexivity | done | reflexivity | reflexivity
    | by right; left | constructor |].
  by exists db1, reply1, id.
Defined.

(** Forty messages of five lines each, then one of fifty lines. *)
Lemma pdf_layout_fits_run :
  Forall2 (λ (n : Z) (p : nat * Z),
             (20 ≤ p.2 ≤ 280)%Z ∧ (n ≤ 37 → p.2 + n * 7 ≤ 280)%Z
             ∧ (37 < n → p.2 = 20)%Z)
    (replicate 40 5 ++ [50]) (pdf_layout (replicate 40 5 ++ [50])).
Proof.
  apply pdf_layout_fits. apply Forall_app. split.
  - apply Forall_replicate. lia.
  - constructor; [lia | constructor].
Defined.

End MoreRuns.
